(** * E-Commerce sales pipeline: cleaner, transformer and query service

    A shallow embedding of [clean.py] ([clean_sales_data]), of
    [transform.py] ([transform_sales_data]), of the database load of
    [load.py] and of the query service of [app.py] ([DataService] and its
    Flask routes), with the properties the specification states about them.

    Conventions of the embedding.
    - A data frame is the list of its rows, in index order; a row is a
      record with one field per column.
    - A float64 cell is an [option Q]: [None] is NaN (a missing value),
      [Some q] a finite number taken exactly.  Rounding error of the binary
      representation and the infinities are outside the model.  Comparisons
      with NaN are false and arithmetic on NaN gives NaN, as in numpy.
    - An object (text) cell is an [option string]: [None] is a missing value.
      A text column is a column [read_csv] gave the dtype object, or a
      column with no value in any row, which it gave the dtype float64;
      the five text columns of the sales file are taken to be such columns.
    - Logging is left out.  A function starts from the frame [read_csv]
      returned and ends with the frame the Python function returns; where
      one function reads the file another wrote, the module [Csv] below
      gives what [to_csv] followed by [read_csv] makes of a text cell.
    - A Python exception is a [Raise] in the [result] type.  The cleaner
      is stopped with a [Raise] too on a file that has rows and no date in
      any of them: the code goes on there with NaT in every row, which the
      typed frame, with a date in every row, does not hold. *)

From Stdlib Require Import List ZArith QArith Qabs Qround Bool String Ascii.
From Stdlib Require Import Lia Lqa Sorted.
Import ListNotations.

Set Implicit Arguments.

(* ================================================================== *)
(** * Exceptions *)

Inductive result (A : Type) : Type :=
| Ok (a : A)
| Raise (msg : string).

Arguments Ok {A} a.
Arguments Raise {A} msg.

Definition bind {A B : Type} (m : result A) (k : A -> result B) : result B :=
  match m with
  | Ok a => k a
  | Raise msg => Raise msg
  end.

Notation "x <- m ;; k" := (bind m (fun x => k))
  (at level 61, m at next level, right associativity).

(** [try: body except Exception as e: handler(e)] *)
Definition try_except {A : Type} (body : result A) (handler : string -> A) : A :=
  match body with
  | Ok a => a
  | Raise msg => handler msg
  end.

(* ================================================================== *)
(** * float64 cells *)

Module Float.

Abbreviation t := (option Q) (only parsing).

Definition of_int (z : Z) : t := Some (inject_Z z).

Definition lift2 (f : Q -> Q -> Q) (a b : t) : t :=
  match a, b with
  | Some x, Some y => Some (f x y)
  | _, _ => None
  end.

Definition mul : t -> t -> t := lift2 Qmult.
Definition sub : t -> t -> t := lift2 Qminus.

Definition abs (a : t) : t := option_map Qabs a.

Definition Qltb (x y : Q) : bool := negb (Qle_bool y x).

(** [a < b] and [a > b]; false as soon as one side is NaN. *)
Definition ltb (a b : t) : bool :=
  match a, b with
  | Some x, Some y => Qltb x y
  | _, _ => false
  end.

Definition gtb (a b : t) : bool := ltb b a.

Definition isnull {A : Type} (a : option A) : bool :=
  match a with
  | None => true
  | Some _ => false
  end.

(** Equality of two cells as [duplicated] sees it: two missing values
    are equal, two numbers are equal when they are the same number. *)
Definition eqb (a b : t) : bool :=
  match a, b with
  | Some x, Some y => Qeq_bool x y
  | None, None => true
  | _, _ => false
  end.

End Float.

(* ================================================================== *)
(** * Text cells *)

Module Text.

Abbreviation t := (option string) (only parsing).

Definition eqb (a b : t) : bool :=
  match a, b with
  | Some x, Some y => String.eqb x y
  | None, None => true
  | _, _ => false
  end.

(** Python's [str.isspace] on the ASCII range: TAB, LF, VT, FF, CR, the
    four separators FS, GS, RS, US, and the space. *)
Definition is_space (c : ascii) : bool :=
  let n := N_of_ascii c in
  ((9 <=? n) && (n <=? 13) || (28 <=? n) && (n <=? 32))%N.

Fixpoint lstrip (s : string) : string :=
  match s with
  | EmptyString => EmptyString
  | String c s' => if is_space c then lstrip s' else s
  end.

Fixpoint rstrip (s : string) : string :=
  match s with
  | EmptyString => EmptyString
  | String c s' =>
      match rstrip s' with
      | EmptyString => if is_space c then EmptyString else String c EmptyString
      | t => String c t
      end
  end.

(** [str.strip()] *)
Definition strip (s : string) : string := rstrip (lstrip s).

(** [Series.str.strip()]: a missing value stays missing. *)
Definition str_strip (a : t) : t := option_map strip a.

End Text.

(* ================================================================== *)
(** * Calendar dates *)

Record date : Type := mkDate { d_year : Z; d_month : Z; d_day : Z }.

Module Date.

Definition eqb (a b : date) : bool :=
  ((d_year a =? d_year b) && (d_month a =? d_month b) && (d_day a =? d_day b))%Z.

Definition leb (a b : date) : bool :=
  ((d_year a <? d_year b)
   || (d_year a =? d_year b)
      && ((d_month a <? d_month b)
          || (d_month a =? d_month b) && (d_day a <=? d_day b)))%Z.

Definition opt_eqb (a b : option date) : bool :=
  match a, b with
  | Some x, Some y => eqb x y
  | None, None => true
  | _, _ => false
  end.

End Date.

(* ================================================================== *)
(** * Series and frame primitives of pandas used by the pipeline *)

Module Pandas.

Section Ordered.
Variable A : Type.
Variable eqb : A -> A -> bool.
Variable leb : A -> A -> bool.

(** Values come out of [sort_values], [mode] and [groupby] in ascending
    order; a stable insertion sort stands for it. *)
Fixpoint insert (x : A) (l : list A) : list A :=
  match l with
  | [] => [x]
  | y :: t => if leb x y then x :: l else y :: insert x t
  end.

Fixpoint sort (l : list A) : list A :=
  match l with
  | [] => []
  | x :: t => insert x (sort t)
  end.

(** [duplicated(keep='first')] marks a row that equals an earlier one;
    [drop_duplicates] keeps the unmarked rows, in their order. *)
Fixpoint drop_seen (seen l : list A) : list A :=
  match l with
  | [] => []
  | x :: t =>
      if existsb (eqb x) seen then drop_seen seen t
      else x :: drop_seen (x :: seen) t
  end.

Definition drop_duplicates (l : list A) : list A := drop_seen [] l.

(** [unique()] keeps the first occurrence of each value too. *)
Definition unique (l : list A) : list A := drop_duplicates l.

Definition count (x : A) (l : list A) : nat :=
  List.length (filter (eqb x) l).

(** [Series.mode()]: the most frequent values, ascending. *)
Definition mode (l : list A) : list A :=
  let top := list_max (map (fun x => count x l) l) in
  sort (unique (filter (fun x => Nat.eqb (count x l) top) l)).

End Ordered.

(** [dropna] of a column. *)
Fixpoint dropna {A : Type} (l : list (option A)) : list A :=
  match l with
  | [] => []
  | Some x :: t => x :: dropna t
  | None :: t => dropna t
  end.

(** [Series.median()], missing values skipped: the middle value of the
    sorted numbers, the mean of the two middle ones when their count is
    even, NaN when there is none. *)
Definition median (col : list Float.t) : Float.t :=
  let s := sort Qle_bool (dropna col) in
  let n := List.length s in
  match n with
  | O => None
  | _ =>
      if Nat.odd n then nth_error s (Nat.div2 n)
      else
        match nth_error s (Nat.div2 n - 1), nth_error s (Nat.div2 n) with
        | Some a, Some b => Some ((a + b) / 2)%Q
        | _, _ => None
        end
  end.

(** [Series.sum()], missing values skipped (0 for an empty column). *)
Definition sum (col : list Float.t) : Q :=
  fold_right Qplus 0%Q (dropna col).

Definition sum_int (col : list Z) : Z := fold_right Z.add 0%Z col.

(** [Series.count()]: the number of cells that are not missing. *)
Definition count_notnull {A : Type} (col : list (option A)) : nat :=
  List.length (dropna col).

(** [Series.mean()], missing values skipped; NaN for no value. *)
Definition mean (col : list Float.t) : Float.t :=
  match count_notnull col with
  | O => None
  | n => Some (sum col / inject_Z (Z.of_nat n))%Q
  end.

(** [Series.nunique()]: distinct values, missing ones not counted. *)
Definition nunique {A : Type} (eqb : A -> A -> bool) (col : list (option A)) : nat :=
  List.length (unique eqb (dropna col)).

End Pandas.

(* ================================================================== *)
(** * The frame read from [sales.csv]

    Columns as [read_csv] types them: [quantity], [unit_price] and
    [total_amount] are numeric (a cell that is empty in the file is NaN),
    the other columns are text.  [order_date] is kept as the calendar date
    its text denotes, so that two rows are the same row when they show the
    same date. *)

Module Raw.

Record Row : Type := mkRow {
  order_id : Text.t;
  product_name : Text.t;
  category : Text.t;
  quantity : Float.t;
  unit_price : Float.t;
  total_amount : Float.t;
  customer_id : Text.t;
  order_date : option date;
  region : Text.t
}.

(** Two rows are duplicates when they agree on all columns. *)
Definition eqb (a b : Row) : bool :=
  Text.eqb (order_id a) (order_id b)
  && Text.eqb (product_name a) (product_name b)
  && Text.eqb (category a) (category b)
  && Float.eqb (quantity a) (quantity b)
  && Float.eqb (unit_price a) (unit_price b)
  && Float.eqb (total_amount a) (total_amount b)
  && Text.eqb (customer_id a) (customer_id b)
  && Date.opt_eqb (order_date a) (order_date b)
  && Text.eqb (region a) (region b).

Definition set_order_id v r :=
  mkRow v (product_name r) (category r) (quantity r) (unit_price r)
        (total_amount r) (customer_id r) (order_date r) (region r).
Definition set_product_name v r :=
  mkRow (order_id r) v (category r) (quantity r) (unit_price r)
        (total_amount r) (customer_id r) (order_date r) (region r).
Definition set_category v r :=
  mkRow (order_id r) (product_name r) v (quantity r) (unit_price r)
        (total_amount r) (customer_id r) (order_date r) (region r).
Definition set_quantity v r :=
  mkRow (order_id r) (product_name r) (category r) v (unit_price r)
        (total_amount r) (customer_id r) (order_date r) (region r).
Definition set_unit_price v r :=
  mkRow (order_id r) (product_name r) (category r) (quantity r) v
        (total_amount r) (customer_id r) (order_date r) (region r).
Definition set_total_amount v r :=
  mkRow (order_id r) (product_name r) (category r) (quantity r) (unit_price r)
        v (customer_id r) (order_date r) (region r).
Definition set_customer_id v r :=
  mkRow (order_id r) (product_name r) (category r) (quantity r) (unit_price r)
        (total_amount r) v (order_date r) (region r).
Definition set_order_date v r :=
  mkRow (order_id r) (product_name r) (category r) (quantity r) (unit_price r)
        (total_amount r) (customer_id r) v (region r).
Definition set_region v r :=
  mkRow (order_id r) (product_name r) (category r) (quantity r) (unit_price r)
        (total_amount r) (customer_id r) (order_date r) v.

(** [df.isnull()] on one row: some cell of the row is missing. *)
Definition isnull (r : Row) : bool :=
  Float.isnull (order_id r) || Float.isnull (product_name r)
  || Float.isnull (category r) || Float.isnull (quantity r)
  || Float.isnull (unit_price r) || Float.isnull (total_amount r)
  || Float.isnull (customer_id r) || Float.isnull (order_date r)
  || Float.isnull (region r).

End Raw.

(* ================================================================== *)
(** * The cleaner, [clean.py] *)

(** The frame after the conversion of types (lines 62-67): [quantity] is
    an integer and [order_date] a timestamp. *)
Record Row : Type := mkRow {
  order_id : Text.t;
  product_name : Text.t;
  category : Text.t;
  quantity : Z;
  unit_price : Float.t;
  total_amount : Float.t;
  customer_id : Text.t;
  order_date : date;
  region : Text.t
}.

(** The frame [clean_sales_data] returns: the columns above and the three
    derived ones. *)
Record CleanRow : Type := mkClean {
  base :> Row;
  month : Z;
  year : Z;
  month_year : Z * Z
}.

Section Imputation.

Variable A : Type.
Variable get : Raw.Row -> option A.
Variable set : option A -> Raw.Row -> Raw.Row.

(** [df[col].fillna(value, inplace=True)] *)
Definition fillna (value : option A) (df : list Raw.Row) : list Raw.Row :=
  map (fun r => if Float.isnull (get r) then set value r else r) df.

(** [df[col].isnull().sum() > 0] *)
Definition col_has_null (df : list Raw.Row) : bool :=
  existsb (fun r => Float.isnull (get r)) df.

End Imputation.

(** Lines 43-46: a numeric column with a missing value is filled with its
    median. *)
Definition fill_median (get : Raw.Row -> Float.t) set (df : list Raw.Row) :=
  if col_has_null get df
  then fillna get set (Pandas.median (map get df)) df
  else df.

(** The dtype [read_csv] gives a text column: object when some row has a
    text (or the file has no row), float64 when the file has rows and none
    has a value in the column. *)
Definition is_object {A : Type} (column : list (option A)) : bool :=
  match column with
  | [] => true
  | _ :: _ => existsb (fun c => negb (Float.isnull c)) column
  end.

(** Lines 42-54 for a text column with a missing value.  A column of dtype
    object is among the categorical columns (line 49) and is filled with
    its mode; [mode()] of a column that has a text is not empty, so the
    default ['Unknown'] of line 52 is written down here and never taken.
    A column of dtype float64 is among the numeric columns (line 42): its
    median is NaN and [fillna] changes nothing. *)
Definition fill_mode (get : Raw.Row -> Text.t) set (df : list Raw.Row) :=
  if col_has_null get df
  then
    if is_object (map get df) then
      let mode_value :=
        match Pandas.mode String.eqb String.leb (Pandas.dropna (map get df)) with
        | v :: _ => v
        | [] => "Unknown"%string
        end in
      fillna get set (Some mode_value) df
    else df
  else df.

(** The same for [order_date], which is a text column at that point: a
    column that has a date is filled with its mode, a column without any
    is of dtype float64 and stays as it is. *)
Definition fill_mode_date (df : list Raw.Row) :=
  if col_has_null Raw.order_date df
  then
    if is_object (map Raw.order_date df) then
      fillna Raw.order_date Raw.set_order_date
        (hd_error (Pandas.mode Date.eqb Date.leb
                     (Pandas.dropna (map Raw.order_date df)))) df
    else df
  else df.

(** Lines 38-54. *)
Definition handle_missing (df : list Raw.Row) : list Raw.Row :=
  if existsb Raw.isnull df then
    let df := fill_median Raw.quantity Raw.set_quantity df in
    let df := fill_median Raw.unit_price Raw.set_unit_price df in
    let df := fill_median Raw.total_amount Raw.set_total_amount df in
    let df := fill_mode Raw.order_id Raw.set_order_id df in
    let df := fill_mode Raw.product_name Raw.set_product_name df in
    let df := fill_mode Raw.category Raw.set_category df in
    let df := fill_mode Raw.customer_id Raw.set_customer_id df in
    let df := fill_mode_date df in
    fill_mode Raw.region Raw.set_region df
  else df.

Fixpoint mapM {A B : Type} (f : A -> result B) (l : list A) : result (list B) :=
  match l with
  | [] => Ok []
  | x :: t => y <- f x ;; ys <- mapM f t ;; Ok (y :: ys)
  end.

(** [pd.to_datetime] of a cell.  A missing cell is met only in a column
    that has no date in any row; [to_datetime] makes it NaT, which the
    typed frame below, with a date in every row, does not hold: the
    cleaner is followed no further than this on such a file. *)
Definition to_datetime (c : option date) : result date :=
  match c with
  | Some d => Ok d
  | None => Raise "order_date holds no date: NaT in every row"
  end.

(** Truncation toward zero. *)
Definition Qtrunc (q : Q) : Z := Z.quot (Qnum q) (Zpos (Qden q)).

(** [astype(int)] of a numeric column *)
Definition astype_int (c : Float.t) : result Z :=
  match c with
  | Some q => Ok (Qtrunc q)
  | None => Raise "Cannot convert non-finite values (NA or inf) to integer"
  end.

(** Lines 62-67; [astype(float)] leaves a numeric column as it is. *)
Definition convert_types (df : list Raw.Row) : result (list Row) :=
  dated <- mapM (fun r => d <- to_datetime (Raw.order_date r) ;; Ok (r, d)) df ;;
  mapM (fun rd : Raw.Row * date =>
          let (r, d) := rd in
          q <- astype_int (Raw.quantity r) ;;
          Ok (mkRow (Raw.order_id r) (Raw.product_name r) (Raw.category r) q
                    (Raw.unit_price r) (Raw.total_amount r)
                    (Raw.customer_id r) d (Raw.region r)))
       dated.

Definition set_total_amount (v : Float.t) (r : Row) : Row :=
  mkRow (order_id r) (product_name r) (category r) (quantity r) (unit_price r)
        v (customer_id r) (order_date r) (region r).

(** Line 73: [df['quantity'] * df['unit_price']] *)
Definition calculated_total (r : Row) : Float.t :=
  Float.mul (Float.of_int (quantity r)) (unit_price r).

Definition tolerance : Q := 1 # 100.

(** Line 74: [abs(df['total_amount'] - calculated_total) > 0.01] *)
Definition inconsistent (r : Row) : bool :=
  Float.gtb (Float.abs (Float.sub (total_amount r) (calculated_total r)))
            (Some tolerance).

(** What line 77 does to one row. *)
Definition repair_row (r : Row) : Row :=
  if inconsistent r then set_total_amount (calculated_total r) r else r.

(** Lines 75-78 *)
Definition repair_totals (df : list Row) : list Row :=
  if existsb inconsistent df
  then map (fun r => if inconsistent r
                     then set_total_amount (calculated_total r) r else r) df
  else df.

(** Line 81 *)
Definition negative (r : Row) : bool :=
  (quantity r <? 0)%Z
  || Float.ltb (unit_price r) (Some 0%Q)
  || Float.ltb (total_amount r) (Some 0%Q).

(** Lines 82-84 *)
Definition drop_negative (df : list Row) : list Row :=
  if existsb negative df
  then filter (fun r => negb (negative r)) df
  else df.

(** Lines 88-90 *)
Definition strip_text (r : Row) : Row :=
  mkRow (order_id r) (Text.str_strip (product_name r))
        (Text.str_strip (category r)) (quantity r) (unit_price r)
        (total_amount r) (customer_id r) (order_date r)
        (Text.str_strip (region r)).

(** Lines 93-95 *)
Definition add_derived (r : Row) : CleanRow :=
  let d := order_date r in
  mkClean r (d_month d) (d_year d) (d_year d, d_month d).

(** [df[col].str] of lines 88-90: only a column of dtype object has the
    accessor; on a column of dtype float64 it raises an [AttributeError]. *)
Definition str_accessor (column : list Text.t) : result unit :=
  if is_object column then Ok tt
  else Raise "Can only use .str accessor with string values!".

(** [clean_sales_data], from the frame read at line 25 to the frame
    returned at line 110.  The dtype of a column is that of the frame read:
    filling, filtering and deduplication do not change it.  The [except]
    clause of line 112 logs and raises the exception again. *)
Definition clean_sales_data (raw : list Raw.Row) : result (list CleanRow) :=
  let df := handle_missing raw in
  let df := Pandas.drop_duplicates Raw.eqb df in
  df <- convert_types df ;;
  let df := repair_totals df in
  let df := drop_negative df in
  _ <- str_accessor (map Raw.product_name raw) ;;
  _ <- str_accessor (map Raw.category raw) ;;
  _ <- str_accessor (map Raw.region raw) ;;
  let df := map strip_text df in
  Ok (map add_derived df).


(* ================================================================== *)
(** * A frame written by [to_csv] and read by [read_csv]

    [clean_sales_data] writes [cleaned_sales.csv] (line 98); a second run of
    the cleaner and the transformer read that file (line 25 of each).  A
    number and a date come back as they were written.  In a column that
    comes back as a text column, a text comes back as it was written unless
    it is the empty text or one of the texts [read_csv] takes for a missing
    value, which come back missing.  A column whose texts all read as
    numbers or as truth values comes back with another dtype, which the
    typed frames here do not hold: [comes_back_as_text] below is the
    condition under which a column of the file is followed. *)

Module Csv.

(** The default [na_values] of [read_csv]. *)
Definition na_values : list string :=
  [""; "#N/A"; "#N/A N/A"; "#NA"; "-1.#IND"; "-1.#QNAN"; "-NaN"; "-nan";
   "1.#IND"; "1.#QNAN"; "<NA>"; "N/A"; "NA"; "NULL"; "NaN"; "None"; "n/a";
   "nan"; "null"]%string.

Definition is_na (s : string) : bool := existsb (String.eqb s) na_values.




(** A text cell after [to_csv] and [read_csv], in a column that comes back
    as a text column and has no control character. *)
Definition read_text (c : Text.t) : Text.t :=
  match c with
  | Some s => if is_na s then None else Some s
  | None => None
  end.


(** The same row as the transformer reads it, lines 25-26 of
    [transform.py]. *)
Definition read_for_transform (r : CleanRow) : CleanRow :=
  mkClean (mkRow (read_text (order_id r)) (read_text (product_name r))
                 (read_text (category r)) (quantity r) (unit_price r)
                 (total_amount r) (read_text (customer_id r)) (order_date r)
                 (read_text (region r)))
          (month r) (year r) (month_year r).






End Csv.

(* ================================================================== *)
(** * The transformer, [transform.py] *)

Module Cut.

Inductive bound : Type :=
| Finite (q : Q)
| PosInf.

Definition ltb_bound (b : bound) (x : Q) : bool :=
  match b with
  | Finite q => Float.Qltb q x
  | PosInf => false
  end.

Definition leb_bound (x : Q) (b : bound) : bool :=
  match b with
  | Finite q => Qle_bool x q
  | PosInf => true
  end.

(** [pd.cut(x, bins, labels)] with its defaults [right=True] and
    [include_lowest=False]: the i-th label when [bins[i] < x <= bins[i+1]],
    no label when [x] lies in no bin. *)
Fixpoint cut_value (x : Q) (bins : list bound) (labels : list string) : option string :=
  match bins, labels with
  | lo :: ((hi :: _) as rest), l :: ls =>
      if ltb_bound lo x && leb_bound x hi then Some l
      else cut_value x rest ls
  | _, _ => None
  end.

(** A missing value receives no label. *)
Definition cut (x : Float.t) (bins : list bound) (labels : list string) : option string :=
  match x with
  | Some q => cut_value q bins labels
  | None => None
  end.

End Cut.

(** Lines 104-106 *)
Definition cut_revenue (total_amount : Float.t) : option string :=
  Cut.cut total_amount
    [Cut.Finite 0; Cut.Finite 100; Cut.Finite 500; Cut.Finite 1000; Cut.PosInf]
    ["Low"; "Medium"; "High"; "Very High"]%string.

(** Lines 109-111 *)
Definition cut_quantity (quantity : Z) : option string :=
  Cut.cut (Float.of_int quantity)
    [Cut.Finite 0; Cut.Finite 1; Cut.Finite 3; Cut.Finite 5; Cut.PosInf]
    ["Single"; "Small"; "Medium"; "Large"]%string.

(** Days since 1970-01-01 in the proleptic Gregorian calendar. *)
Definition days_from_civil (d : date) : Z :=
  let y := if (d_month d <=? 2)%Z then (d_year d - 1)%Z else d_year d in
  let era := (y / 400)%Z in
  let yoe := (y - era * 400)%Z in
  let mp := ((d_month d + 9) mod 12)%Z in
  let doy := ((153 * mp + 2) / 5 + d_day d - 1)%Z in
  let doe := (yoe * 365 + yoe / 4 - yoe / 100 + doy)%Z in
  (era * 146097 + doe - 719468)%Z.

(** [dt.dayofweek]: Monday is 0. *)
Definition dayofweek (d : date) : Z := ((days_from_civil d + 3) mod 7)%Z.

(** [dt.day_name()] *)
Definition day_name (d : date) : string :=
  nth (Z.to_nat (dayofweek d))
      ["Monday"; "Tuesday"; "Wednesday"; "Thursday"; "Friday"; "Saturday";
       "Sunday"]%string ""%string.

(** [dt.quarter] *)
Definition quarter_of (d : date) : Z := ((d_month d - 1) / 3 + 1)%Z.

(** A row of the frame after lines 96-111. *)
Record EnrichedRow : Type := mkEnriched {
  cleaned :> CleanRow;
  day_of_week : string;
  quarter : Z;
  is_weekend : bool;
  revenue_segment : option string;
  quantity_segment : option string
}.

Definition enrich (r : CleanRow) : EnrichedRow :=
  mkEnriched r
    (day_name (order_date r))
    (quarter_of (order_date r))
    (5 <=? dayofweek (order_date r))%Z
    (cut_revenue (total_amount r))
    (cut_quantity (quantity r)).

(** Rounding to the nearest integer, halves to the even neighbour. *)
Definition rint (q : Q) : Z :=
  let f := Qfloor q in
  let d := (q - inject_Z f)%Q in
  if Float.Qltb d (1 # 2) then f
  else if Float.Qltb (1 # 2) d then (f + 1)%Z
  else if Z.even f then f else (f + 1)%Z.

(** [round(2)] of a finite number *)
Definition round2 (q : Q) : Q := (rint (q * 100) # 100).

(** [round(2)] of a float64 cell *)
Definition round2_f (a : Float.t) : Float.t := option_map round2 a.

(** Division of a float64 by a count; the quotient by zero is not a
    finite number. *)
Definition div_count (a : Float.t) (n : nat) : Float.t :=
  match a, n with
  | Some x, S _ => Some (x / inject_Z (Z.of_nat n))%Q
  | _, _ => None
  end.

Section GroupBy.

Variable K : Type.
Variable eqb : K -> K -> bool.
Variable leb : K -> K -> bool.
Variable key : CleanRow -> option K.

(** The keys of [df.groupby(col)]: the distinct values of the column,
    missing ones left out, in ascending order. *)
Definition group_keys (df : list CleanRow) : list K :=
  Pandas.sort leb (Pandas.unique eqb (Pandas.dropna (map key df))).

Definition in_group (k : K) (r : CleanRow) : bool :=
  match key r with
  | Some k' => eqb k k'
  | None => false
  end.

Definition group (df : list CleanRow) (k : K) : list CleanRow :=
  filter (in_group k) df.

(** [df.groupby(col).agg(...)]: one aggregated row per key, by key. *)
Definition groupby_agg {S : Type} (agg : K -> list CleanRow -> S)
    (df : list CleanRow) : list S :=
  map (fun k => agg k (group df k)) (group_keys df).

End GroupBy.

Definition col {A : Type} (f : Row -> A) (g : list CleanRow) : list A :=
  map (fun r : CleanRow => f r) g.

Record ProductSummary : Type := mkProductSummary {
  ps_product_name : string;
  ps_total_quantity_sold : Z;
  ps_total_revenue : Q;
  ps_order_count : nat;
  ps_avg_unit_price : Float.t;
  ps_avg_order_value : Float.t
}.

(** Lines 31-40 *)
Definition product_summary (df : list CleanRow) : list ProductSummary :=
  groupby_agg String.eqb String.leb (fun r => product_name r)
    (fun k g =>
       let total_revenue := round2 (Pandas.sum (col total_amount g)) in
       let order_count := Pandas.count_notnull (col order_id g) in
       mkProductSummary k
         (Pandas.sum_int (col quantity g))
         total_revenue
         order_count
         (round2_f (Pandas.mean (col unit_price g)))
         (round2_f (div_count (Some total_revenue) order_count)))
    df.

Record CategorySummary : Type := mkCategorySummary {
  cs_category : string;
  cs_total_quantity_sold : Z;
  cs_total_revenue : Q;
  cs_order_count : nat;
  cs_unique_products : nat;
  cs_avg_order_value : Float.t
}.

(** Lines 44-53 *)
Definition category_summary (df : list CleanRow) : list CategorySummary :=
  groupby_agg String.eqb String.leb (fun r => category r)
    (fun k g =>
       let total_revenue := round2 (Pandas.sum (col total_amount g)) in
       let order_count := Pandas.count_notnull (col order_id g) in
       mkCategorySummary k
         (Pandas.sum_int (col quantity g))
         total_revenue
         order_count
         (Pandas.nunique String.eqb (col product_name g))
         (round2_f (div_count (Some total_revenue) order_count)))
    df.

Definition pair_eqb (a b : Z * Z) : bool :=
  ((fst a =? fst b) && (snd a =? snd b))%Z.

Definition pair_leb (a b : Z * Z) : bool :=
  ((fst a <? fst b) || (fst a =? fst b) && (snd a <=? snd b))%Z.

Record MonthlySales : Type := mkMonthlySales {
  ms_year : Z;
  ms_month : Z;
  ms_monthly_revenue : Q;
  ms_monthly_quantity : Z;
  ms_monthly_orders : nat;
  ms_unique_customers : nat;
  ms_avg_order_value : Float.t
}.

(** Lines 57-66 *)
Definition monthly_sales (df : list CleanRow) : list MonthlySales :=
  groupby_agg pair_eqb pair_leb (fun r => Some (year r, month r))
    (fun k g =>
       let monthly_revenue := round2 (Pandas.sum (col total_amount g)) in
       let monthly_orders := Pandas.count_notnull (col order_id g) in
       mkMonthlySales (fst k) (snd k)
         monthly_revenue
         (Pandas.sum_int (col quantity g))
         monthly_orders
         (Pandas.nunique String.eqb (col customer_id g))
         (round2_f (div_count (Some monthly_revenue) monthly_orders)))
    df.

Record RegionSummary : Type := mkRegionSummary {
  rs_region : string;
  rs_total_revenue : Q;
  rs_total_quantity : Z;
  rs_total_orders : nat;
  rs_unique_customers : nat;
  rs_unique_products : nat;
  rs_avg_order_value : Float.t
}.

(** Lines 70-80 *)
Definition region_summary (df : list CleanRow) : list RegionSummary :=
  groupby_agg String.eqb String.leb (fun r => region r)
    (fun k g =>
       let total_revenue := round2 (Pandas.sum (col total_amount g)) in
       let total_orders := Pandas.count_notnull (col order_id g) in
       mkRegionSummary k
         total_revenue
         (Pandas.sum_int (col quantity g))
         total_orders
         (Pandas.nunique String.eqb (col customer_id g))
         (Pandas.nunique String.eqb (col product_name g))
         (round2_f (div_count (Some total_revenue) total_orders)))
    df.

Record CustomerSummary : Type := mkCustomerSummary {
  cu_customer_id : string;
  cu_total_spent : Q;
  cu_total_quantity : Z;
  cu_total_orders : nat;
  cu_unique_products : nat;
  cu_unique_categories : nat;
  cu_avg_order_value : Float.t
}.

(** Lines 84-94 *)
Definition customer_summary (df : list CleanRow) : list CustomerSummary :=
  groupby_agg String.eqb String.leb (fun r => customer_id r)
    (fun k g =>
       let total_spent := round2 (Pandas.sum (col total_amount g)) in
       let total_orders := Pandas.count_notnull (col order_id g) in
       mkCustomerSummary k
         total_spent
         (Pandas.sum_int (col quantity g))
         total_orders
         (Pandas.nunique String.eqb (col product_name g))
         (Pandas.nunique String.eqb (col category g))
         (round2_f (div_count (Some total_spent) total_orders)))
    df.

Section IdxMax.

Variable V : Type.
Variable ltb : V -> V -> bool.

(** [Series.idxmax()]: the index label of the first occurrence of the
    maximum. *)
Fixpoint idxmax_from (best : string * V) (s : list (string * V)) : string :=
  match s with
  | [] => fst best
  | kv :: t =>
      if ltb (snd best) (snd kv) then idxmax_from kv t
      else idxmax_from best t
  end.

Definition idxmax (s : list (string * V)) : result string :=
  match s with
  | [] => Raise "attempt to get argmax of an empty sequence"
  | kv :: t => Ok (idxmax_from kv t)
  end.

End IdxMax.

(** [df.groupby(key)['quantity'].sum()] *)
Definition quantity_by (key : CleanRow -> Text.t) (df : list CleanRow) : list (string * Z) :=
  groupby_agg String.eqb String.leb key
    (fun k g => (k, Pandas.sum_int (col quantity g))) df.

(** [df.groupby(key)['total_amount'].sum()] *)
Definition revenue_by (key : CleanRow -> Text.t) (df : list CleanRow) : list (string * Q) :=
  groupby_agg String.eqb String.leb key
    (fun k g => (k, Pandas.sum (col total_amount g))) df.

(** Line 124 *)
Definition most_popular_product (df : list CleanRow) : result string :=
  idxmax Z.ltb (quantity_by (fun r => product_name r) df).

(** Line 125 *)
Definition most_popular_category (df : list CleanRow) : result string :=
  idxmax Z.ltb (quantity_by (fun r => category r) df).

(** Line 126 *)
Definition top_region (df : list CleanRow) : result string :=
  idxmax Float.Qltb (revenue_by (fun r => region r) df).

Definition list_min_max (l : list Z) : option (Z * Z) :=
  match l with
  | [] => None
  | x :: t => Some (fold_right Z.min x t, fold_right Z.max x t)
  end.

Record SummaryStats : Type := mkSummaryStats {
  ss_total_revenue : Q;
  ss_total_orders : nat;
  ss_total_quantity : Z;
  ss_unique_customers : nat;
  ss_unique_products : nat;
  ss_unique_categories : nat;
  ss_avg_order_value : Float.t;
  ss_date_range_days : option Z;
  ss_most_popular_product : string;
  ss_most_popular_category : string;
  ss_top_region : string
}.

(** Lines 115-127 *)
Definition summary_stats (df : list CleanRow) : result SummaryStats :=
  p <- most_popular_product df ;;
  c <- most_popular_category df ;;
  g <- top_region df ;;
  Ok (mkSummaryStats
        (Pandas.sum (col total_amount df))
        (List.length df)
        (Pandas.sum_int (col quantity df))
        (Pandas.nunique String.eqb (col customer_id df))
        (Pandas.nunique String.eqb (col product_name df))
        (Pandas.nunique String.eqb (col category df))
        (Pandas.mean (col total_amount df))
        (option_map (fun mm : Z * Z => (snd mm - fst mm)%Z)
           (list_min_max (map days_from_civil (col order_date df))))
        p c g).

Record Summaries : Type := mkSummaries {
  by_product : list ProductSummary;
  by_category : list CategorySummary;
  by_month : list MonthlySales;
  by_region : list RegionSummary;
  by_customer : list CustomerSummary
}.

(** [transform_sales_data], from the frame read at lines 25-26 to the
    returned pair; the five summaries are what lines 134-138 write. *)
Definition transform_sales_data (df : list CleanRow)
  : result (list EnrichedRow * Summaries * SummaryStats) :=
  let summaries :=
    mkSummaries (product_summary df) (category_summary df) (monthly_sales df)
                (region_summary df) (customer_summary df) in
  let enriched := map enrich df in
  stats <- summary_stats df ;;
  Ok (enriched, summaries, stats).

(* ================================================================== *)
(** * The loader, [load.py], and the database *)

(** The database file [sales_analysis.db] as the query service finds it.
    [sqlite3.connect] or the query may fail ([Unreachable], with the
    message of the exception), the file may hold no table [sales_data]
    ([NoTable], as when the pipeline has not run), or the table holds the
    enriched rows. *)
Inductive store : Type :=
| Unreachable (msg : string)
| NoTable
| Table (rows : list EnrichedRow).

(** [load_to_database], lines 27-34: the table [sales_data] is replaced by
    the rows of the transformed frame. *)
Definition load_to_database (df : list EnrichedRow) : store := Table df.

(* ================================================================== *)
(** * The query service, [app.py]

    A query is read as SQLite runs it: [GROUP BY] makes one group per value
    of the column, [SUM] and [AVG] skip NULL and are NULL over nothing,
    [ORDER BY ... DESC] puts NULL last, and a negative [LIMIT] sets no
    bound. *)

(** [pd.read_sql_query(query, conn)] for a query over [sales_data]. *)
Definition read_sales_data (db : store) : result (list CleanRow) :=
  match db with
  | Unreachable msg => Raise msg
  | NoTable => Raise "no such table: sales_data"
  | Table rows => Ok (map cleaned rows)
  end.

Module Sql.

(** [SUM] over no value that is not NULL is NULL. *)
Definition sum (c : list Float.t) : Float.t :=
  match Pandas.dropna c with
  | [] => None
  | _ => Some (Pandas.sum c)
  end.

Definition sum_int (c : list Z) : option Z :=
  match c with
  | [] => None
  | _ => Some (Pandas.sum_int c)
  end.

Definition avg (c : list Float.t) : Float.t := Pandas.mean c.

Definition min_date (c : list date) : option date :=
  match c with
  | [] => None
  | d :: t => Some (fold_right (fun a b => if Date.leb a b then a else b) d t)
  end.

Definition max_date (c : list date) : option date :=
  match c with
  | [] => None
  | d :: t => Some (fold_right (fun a b => if Date.leb a b then b else a) d t)
  end.

(** Order of a key column: NULL comes first. *)
Definition key_leb (a b : Text.t) : bool :=
  match a, b with
  | None, _ => true
  | Some _, None => false
  | Some x, Some y => String.leb x y
  end.

(** [ORDER BY revenue DESC]: [a] may stand before [b]; NULL is the least
    value. *)
Definition desc (a b : Float.t) : bool :=
  match a, b with
  | _, None => true
  | None, Some _ => false
  | Some x, Some y => Qle_bool y x
  end.

(** [GROUP BY col]: one group per value of the column, NULL being a value
    like another.  Groups are taken in the order of their keys. *)
Definition group_by {S : Type} (key : CleanRow -> Text.t)
    (agg : Text.t -> list CleanRow -> S) (rows : list CleanRow) : list S :=
  groupby_agg Text.eqb key_leb (fun r => Some (key r)) agg rows.

(** [ORDER BY]: rows ordered by [before]; rows that compare equal keep the
    order they had, which SQL leaves open. *)
Definition order_by {S : Type} (before : S -> S -> bool) (rows : list S) : list S :=
  Pandas.sort before rows.

(** The integers SQLite holds: signed, of 64 bits. *)
Definition int64_min : Z := (- 2 ^ 63)%Z.
Definition int64_max : Z := (2 ^ 63 - 1)%Z.

(** The binding of a Python integer to a parameter [?] of a query:
    [sqlite3] raises an [OverflowError] on an integer SQLite cannot hold. *)
Definition bind_int (n : Z) : result Z :=
  if ((int64_min <=? n) && (n <=? int64_max))%Z then Ok n
  else Raise "Python int too large to convert to SQLite INTEGER".

(** [LIMIT n] for an integer [n] SQLite holds: at most [n] rows; a
    negative [n] sets no bound. *)
Definition limit {S : Type} (n : Z) (rows : list S) : list S :=
  if (n <? 0)%Z then rows else firstn (Z.to_nat n) rows.

End Sql.

(** [float(x)] and [int(x)] raise a [TypeError] on [None]. *)
Definition py_float (x : Float.t) : result Q :=
  match x with
  | Some q => Ok q
  | None => Raise "float() argument must be a string or a real number, not 'NoneType'"
  end.

Definition py_int (x : option Z) : result Z :=
  match x with
  | Some z => Ok z
  | None => Raise "int() argument must be a string, a bytes-like object or a real number, not 'NoneType'"
  end.

Module DataService.

Record OverallStats : Type := mkOverallStats {
  total_revenue : Q;
  total_orders : nat;
  total_quantity : Z;
  unique_customers : nat;
  unique_products : nat;
  unique_categories : nat;
  avg_order_value : Q;
  first_order_date : option date;
  last_order_date : option date
}.

(** Lines 37-73.  [None] is the empty dictionary of line 73. *)
Definition get_overall_stats (db : store) : option OverallStats :=
  try_except
    (rows <- read_sales_data db ;;
     revenue <- py_float (Sql.sum (col total_amount rows)) ;;
     quantity <- py_int (Sql.sum_int (col quantity rows)) ;;
     average <- py_float (Sql.avg (col total_amount rows)) ;;
     Ok (Some (mkOverallStats
                 revenue
                 (List.length rows)
                 quantity
                 (Pandas.nunique String.eqb (col customer_id rows))
                 (Pandas.nunique String.eqb (col product_name rows))
                 (Pandas.nunique String.eqb (col category rows))
                 average
                 (Sql.min_date (col order_date rows))
                 (Sql.max_date (col order_date rows)))))
    (fun _ => None).

Record MonthlyRow : Type := mkMonthlyRow {
  m_month_year : Z * Z;
  m_monthly_revenue : Float.t;
  m_monthly_orders : nat;
  m_monthly_quantity : Z;
  m_unique_customers : nat
}.

(** Lines 75-99.  The text [year-month] is kept as the pair it prints. *)
Definition get_monthly_data (db : store) : list MonthlyRow :=
  try_except
    (rows <- read_sales_data db ;;
     Ok (groupby_agg pair_eqb pair_leb (fun r => Some (year r, month r))
           (fun k g =>
              mkMonthlyRow k
                (Sql.sum (col total_amount g))
                (List.length g)
                (Pandas.sum_int (col quantity g))
                (Pandas.nunique String.eqb (col customer_id g)))
           rows))
    (fun _ => []).

Record CategoryRow : Type := mkCategoryRow {
  c_category : Text.t;
  c_category_revenue : Float.t;
  c_category_quantity : Z;
  c_category_orders : nat;
  c_unique_products : nat
}.

(** Lines 101-125 *)
Definition get_category_data (db : store) : list CategoryRow :=
  try_except
    (rows <- read_sales_data db ;;
     Ok (Sql.order_by (fun a b => Sql.desc (c_category_revenue a) (c_category_revenue b))
           (Sql.group_by (fun r => category r)
              (fun k g =>
                 mkCategoryRow k
                   (Sql.sum (col total_amount g))
                   (Pandas.sum_int (col quantity g))
                   (List.length g)
                   (Pandas.nunique String.eqb (col product_name g)))
              rows)))
    (fun _ => []).

Record RegionRow : Type := mkRegionRow {
  r_region : Text.t;
  r_region_revenue : Float.t;
  r_region_quantity : Z;
  r_region_orders : nat;
  r_unique_customers : nat
}.

(** Lines 127-151 *)
Definition get_region_data (db : store) : list RegionRow :=
  try_except
    (rows <- read_sales_data db ;;
     Ok (Sql.order_by (fun a b => Sql.desc (r_region_revenue a) (r_region_revenue b))
           (Sql.group_by (fun r => region r)
              (fun k g =>
                 mkRegionRow k
                   (Sql.sum (col total_amount g))
                   (Pandas.sum_int (col quantity g))
                   (List.length g)
                   (Pandas.nunique String.eqb (col customer_id g)))
              rows)))
    (fun _ => []).

Record ProductRow : Type := mkProductRow {
  p_product_name : Text.t;
  p_total_revenue : Float.t;
  p_total_quantity : Z;
  p_order_count : nat;
  p_avg_unit_price : Float.t
}.

(** The query of lines 158-169 before its [LIMIT]. *)
Definition products_by_revenue (rows : list CleanRow) : list ProductRow :=
  Sql.order_by (fun a b => Sql.desc (p_total_revenue a) (p_total_revenue b))
    (Sql.group_by (fun r => product_name r)
       (fun k g =>
          mkProductRow k
            (Sql.sum (col total_amount g))
            (Pandas.sum_int (col quantity g))
            (List.length g)
            (Sql.avg (col unit_price g)))
       rows).

(** Lines 153-178: [limit] is any Python integer; it is bound to the
    parameter of [LIMIT ?] when the query is run (line 171), inside the
    [try]. *)
Definition get_top_products (db : store) (limit : Z) : list ProductRow :=
  try_except
    (rows <- read_sales_data db ;;
     n <- Sql.bind_int limit ;;
     Ok (Sql.limit n (products_by_revenue rows)))
    (fun _ => []).

Record CustomerRow : Type := mkCustomerRow {
  k_customer_id : Text.t;
  k_total_spent : Float.t;
  k_total_quantity : Z;
  k_total_orders : nat;
  k_unique_products : nat;
  k_unique_categories : nat
}.

(** Lines 180-206 *)
Definition get_customer_analysis (db : store) : list CustomerRow :=
  try_except
    (rows <- read_sales_data db ;;
     Ok (Sql.limit 10
           (Sql.order_by (fun a b => Sql.desc (k_total_spent a) (k_total_spent b))
              (Sql.group_by (fun r => customer_id r)
                 (fun k g =>
                    mkCustomerRow k
                      (Sql.sum (col total_amount g))
                      (Pandas.sum_int (col quantity g))
                      (List.length g)
                      (Pandas.nunique String.eqb (col product_name g))
                      (Pandas.nunique String.eqb (col category g)))
                 rows))))
    (fun _ => []).

End DataService.

(** The JSON body of a response and its HTTP status. *)
Record response (D : Type) : Type := mkResponse {
  success : bool;
  data : option D;
  error : option string;
  status : Z
}.

Arguments mkResponse {D} _ _ _ _.

(** [jsonify({'success': True, 'data': d})] *)
Definition ok_response {D : Type} (d : D) : response D :=
  mkResponse true (Some d) None 200.

(** [jsonify({'success': False, 'error': str(e)}), 500] *)
Definition error_response {D : Type} (e : string) : response D :=
  mkResponse false None (Some e) 500.

(** The query parameter [limit] of a request: absent, present with a text
    that [int] rejects, or present with an integer. *)
Inductive limit_arg : Type :=
| Absent
| NotAnInteger
| Integer (n : Z).

(** [request.args.get('limit', 10, type=int)] *)
Definition args_get_limit (a : limit_arg) : Z :=
  match a with
  | Integer n => n
  | Absent | NotAnInteger => 10%Z
  end.

Module Routes.

(** Lines 216-230 *)
Definition get_stats (db : store) : response (option DataService.OverallStats) :=
  try_except
    (stats <- Ok (DataService.get_overall_stats db) ;;
     Ok (ok_response stats))
    error_response.

(** Lines 232-246 *)
Definition get_monthly (db : store) : response (list DataService.MonthlyRow) :=
  try_except
    (monthly_data <- Ok (DataService.get_monthly_data db) ;;
     Ok (ok_response monthly_data))
    error_response.

(** Lines 248-262 *)
Definition get_categories (db : store) : response (list DataService.CategoryRow) :=
  try_except
    (category_data <- Ok (DataService.get_category_data db) ;;
     Ok (ok_response category_data))
    error_response.

(** Lines 264-278 *)
Definition get_regions (db : store) : response (list DataService.RegionRow) :=
  try_except
    (region_data <- Ok (DataService.get_region_data db) ;;
     Ok (ok_response region_data))
    error_response.

(** Lines 280-295 *)
Definition get_top_products (db : store) (a : limit_arg)
  : response (list DataService.ProductRow) :=
  try_except
    (let limit := args_get_limit a in
     top_products <- Ok (DataService.get_top_products db limit) ;;
     Ok (ok_response top_products))
    error_response.

(** Lines 297-311 *)
Definition get_customers (db : store) : response (list DataService.CustomerRow) :=
  try_except
    (customer_data <- Ok (DataService.get_customer_analysis db) ;;
     Ok (ok_response customer_data))
    error_response.

Record CompleteData : Type := mkCompleteData {
  cd_stats : option DataService.OverallStats;
  cd_monthly : list DataService.MonthlyRow;
  cd_categories : list DataService.CategoryRow;
  cd_regions : list DataService.RegionRow;
  cd_top_products : list DataService.ProductRow;
  cd_customers : list DataService.CustomerRow;
  cd_timestamp : string
}.

(** Lines 313-336; [now] is the text of [datetime.now().isoformat()]. *)
Definition get_complete_data (now : string) (db : store) : response CompleteData :=
  try_except
    (Ok (ok_response
           (mkCompleteData
              (DataService.get_overall_stats db)
              (DataService.get_monthly_data db)
              (DataService.get_category_data db)
              (DataService.get_region_data db)
              (DataService.get_top_products db 10)
              (DataService.get_customer_analysis db)
              now)))
    error_response.

End Routes.

(* ================================================================== *)
(** * Frames of the scenarios *)

(** A row of [sales.csv] with nothing missing. *)
Definition order (id product : string) (quantity : Z) (unit_price total_amount : Q)
  : Raw.Row :=
  Raw.mkRow (Some id) (Some product) (Some "Electronics"%string)
            (Float.of_int quantity) (Some unit_price) (Some total_amount)
            (Some "C001"%string) (Some (mkDate 2024 1 5)) (Some "North"%string).

(** The same row as the cleaner returns it. *)
Definition cleaned_order (id product : string) (quantity : Z)
    (unit_price total_amount : Q) : CleanRow :=
  mkClean (mkRow (Some id) (Some product) (Some "Electronics"%string)
                 quantity (Some unit_price) (Some total_amount)
                 (Some "C001"%string) (mkDate 2024 1 5) (Some "North"%string))
          1 2024 (2024%Z, 1%Z).

(* ================================================================== *)
(** * Predicates of the statements *)

(** A text that does not begin with a blank. *)
Definition no_leading_space (s : string) : Prop :=
  match s with
  | EmptyString => True
  | String c _ => Text.is_space c = false
  end.

(** A column with no missing value, and one with nothing but missing
    values. *)
Definition all_some {A : Type} (c : list (option A)) : Prop :=
  Forall (fun x => x <> None) c.

Definition all_none {A : Type} (c : list (option A)) : Prop :=
  Forall (fun x => x = None) c.

Definition uniform {A : Type} (c : list (option A)) : Prop :=
  all_none c \/ all_some c.


(** A row as lines 72-95 leave it: it passes the tests of lines 74 and 81,
    its three trimmed texts are trimmed and present, and its derived
    columns are those of its date. *)
Definition cleaned_row (r : CleanRow) : Prop :=
  inconsistent r = false
  /\ negative r = false
  /\ strip_text r = base r
  /\ add_derived r = r
  /\ product_name r <> None /\ category r <> None /\ region r <> None.

(** A frame of such rows in which [unit_price] is missing in all rows or
    in none, and [total_amount], [order_id] and [customer_id] likewise. *)
Definition cleaned_frame (fr : list CleanRow) : Prop :=
  (forall r, In r fr -> cleaned_row r)
  /\ uniform (map (fun r : CleanRow => unit_price r) fr)
  /\ uniform (map (fun r : CleanRow => total_amount r) fr)
  /\ uniform (map (fun r : CleanRow => order_id r) fr)
  /\ uniform (map (fun r : CleanRow => customer_id r) fr).



(** What [convert_types] keeps of a row. *)
Definition typed_of (r : Raw.Row) (t : Row) : Prop :=
  order_id t = Raw.order_id r /\ product_name t = Raw.product_name r
  /\ category t = Raw.category r /\ unit_price t = Raw.unit_price r
  /\ total_amount t = Raw.total_amount r /\ customer_id t = Raw.customer_id r
  /\ region t = Raw.region r.

(** The binning as the specification words it: thresholds 100, 500 and
    1000 (1, 3 and 5 for quantities), a bin holding its lower edge and not
    its upper one, the last bin open-ended. *)
Definition spec_revenue_segment (x : Q) : string :=
  if Float.Qltb x 100 then "Low"
  else if Float.Qltb x 500 then "Medium"
  else if Float.Qltb x 1000 then "High"
  else "Very High".

Definition spec_quantity_segment (q : Z) : string :=
  if (q <? 1)%Z then "Single"
  else if (q <? 3)%Z then "Small"
  else if (q <? 5)%Z then "Medium"
  else "Large".



(* ================================================================== *)
(** * Further definitions: the cleaner *)

(** What [fillna(v)] makes of one cell. *)
Definition fill_cell {A : Type} (v : option A) (c : option A) : option A :=
  match c with
  | Some _ => c
  | None => v
  end.

(** A column with a cell that is not missing. *)
Definition has_value {A : Type} (column : list (option A)) : Prop :=
  exists a, In (Some a) column.

(** Line 52: the value a text column is filled with. *)
Definition mode_value (column : list Text.t) : string :=
  match Pandas.mode String.eqb String.leb (Pandas.dropna column) with
  | v :: _ => v
  | [] => "Unknown"%string
  end.

(** Line 59: [initial_rows - len(df)] *)
Definition duplicates_removed (df : list Raw.Row) : nat :=
  List.length df - List.length (Pandas.drop_duplicates Raw.eqb df).

(** Line 83: [negative_rows.sum()] *)
Definition negatives_removed (df : list Row) : nat :=
  List.length (filter negative df).

Fixpoint last_char (s : string) : option ascii :=
  match s with
  | EmptyString => None
  | String c EmptyString => Some c
  | String _ s' => last_char s'
  end.

(** A text with no blank at either end. *)
Definition trimmed (s : string) : Prop :=
  no_leading_space s
  /\ match last_char s with
     | Some c => Text.is_space c = false
     | None => True
     end.

Definition trimmed_cell (a : Text.t) : Prop :=
  match a with
  | Some s => trimmed s
  | None => True
  end.

(* ================================================================== *)
(** * Further definitions: the transformer *)

(** A list in strictly ascending order. *)
Definition ascending {A : Type} (leb : A -> A -> bool) (l : list A) : Prop :=
  StronglySorted (fun a b => leb a b = true /\ a <> b) l.

(** The rows a [groupby] keeps: those whose key is not missing. *)
Definition with_key {K : Type} (key : CleanRow -> option K) (df : list CleanRow)
  : list CleanRow :=
  filter (fun r => negb (Float.isnull (key r))) df.

(* ================================================================== *)
(** * The pipeline, [fde_pipeline.py]

    [FDEPipeline] runs four phases in turn; each stores its outcome in the
    dictionary [self.results], and an exception of a phase is stored,
    raised again and ends the run.  The modules are taken as the file
    imports them.  Reading of [sales.csv] is a parameter of the model; so
    are the bodies of [load_all_data] and [run_complete_analysis], which
    write files and draw charts.  Logging, the times and the printed
    summary are left out. *)

From Stdlib Require DecimalString.

(** A call [f(a1, ..., an)] of a function declared without parameter
    ([def f():]): Python binds the arguments before it runs the body and
    raises a [TypeError] when there is one. *)
Definition call_nullary {A : Type} (name : string) (args : nat) (body : result A)
  : result A :=
  match args with
  | O => body
  | S O => Raise (name ++ "() takes 0 positional arguments but 1 was given")
  | _ => Raise (name ++ "() takes 0 positional arguments but "
                ++ DecimalString.NilEmpty.string_of_uint (Nat.to_uint args)
                ++ " were given")
  end.

Module FDEPipeline.

(** The file [sales.csv] *)
Inductive source : Type :=
| NoFile
| Unreadable (msg : string)
| Frame (df : list Raw.Row).

(** [pd.read_csv(input_file)] *)
Definition read_csv (f : source) : result (list Raw.Row) :=
  match f with
  | NoFile => Raise "[Errno 2] No such file or directory: 'sales.csv'"
  | Unreadable msg => Raise msg
  | Frame df => Ok df
  end.

(** An entry of [self.results]: the counts a phase stores with the status
    ['success'], or the status ['failed'] with the message. *)
Inductive phase_result : Type :=
| ExtractSuccess (rows : nat)
| TransformSuccess (cleaned_rows transformed_rows : nat) (summary_stats : SummaryStats)
| LoadSuccess
| AnalyzeSuccess
| PipelineSuccess (phases_completed : nat)
| Failed (error : string).

(** [self.results], a dictionary with the keys below; [None] is a key not
    set. *)
Record results : Type := mkResults {
  extract_result : option phase_result;
  transform_result : option phase_result;
  load_result : option phase_result;
  analyze_result : option phase_result;
  pipeline_result : option phase_result
}.

(** Line 56 *)
Definition no_results : results := mkResults None None None None None.

Definition set_extract (v : phase_result) (r : results) : results :=
  mkResults (Some v) (transform_result r) (load_result r) (analyze_result r)
            (pipeline_result r).

Definition set_transform (v : phase_result) (r : results) : results :=
  mkResults (extract_result r) (Some v) (load_result r) (analyze_result r)
            (pipeline_result r).

Definition set_load (v : phase_result) (r : results) : results :=
  mkResults (extract_result r) (transform_result r) (Some v) (analyze_result r)
            (pipeline_result r).

Definition set_analyze (v : phase_result) (r : results) : results :=
  mkResults (extract_result r) (transform_result r) (load_result r) (Some v)
            (pipeline_result r).

Definition set_pipeline (v : phase_result) (r : results) : results :=
  mkResults (extract_result r) (transform_result r) (load_result r)
            (analyze_result r) (Some v).

(** A method: it may change [self.results], and returns or raises. *)
Definition method (A : Type) : Type := results -> results * result A.

(** The frame of every phase: [try: body; results[phase] = success;
    return; except Exception as e: results[phase] = failed; raise]. *)
Definition phase {A : Type} (set : phase_result -> results -> results)
    (success : A -> phase_result) (body : result A) : method A :=
  fun r =>
    match body with
    | Ok a => (set (success a) r, Ok a)
    | Raise e => (set (Failed e) r, Raise e)
    end.

(** Sequencing of two methods: an exception of the first ends the run. *)
Definition and_then {A B : Type} (m : method A) (k : A -> method B) : method B :=
  fun r =>
    match m r with
    | (r', Ok a) => k a r'
    | (r', Raise e) => (r', Raise e)
    end.

Section Environment.

Variable input_file : source.
Variable LoadResults : Type.
Variable AnalysisResults : Type.
Variable load_all_data_body : result LoadResults.
Variable run_complete_analysis_body : result AnalysisResults.

(** Lines 64-101 *)
Definition extract : method (list Raw.Row) :=
  phase set_extract (fun raw_data => ExtractSuccess (List.length raw_data))
    (match input_file with
     | NoFile => Raise "Input file sales.csv not found!"
     | _ => read_csv input_file
     end).

(** Lines 103-139: the cleaner reads the input file itself, and the
    transformer reads [cleaned_sales.csv], the file the cleaner wrote. *)
Definition transform (raw_data : list Raw.Row) : method (list EnrichedRow) :=
  fun r =>
    match
      phase set_transform
        (fun ct : list CleanRow * (list EnrichedRow * SummaryStats) =>
           TransformSuccess (List.length (fst ct)) (List.length (fst (snd ct)))
                            (snd (snd ct)))
        (df <- read_csv input_file ;;
         cleaned_data <- clean_sales_data df ;;
         t <- transform_sales_data (map Csv.read_for_transform cleaned_data) ;;
         Ok (cleaned_data, (fst (fst t), snd t)))
        r
    with
    | (r', Ok ct) => (r', Ok (fst (snd ct)))
    | (r', Raise e) => (r', Raise e)
    end.

(** Lines 141-171; [load_all_data] is declared at line 195 of [load.py]. *)
Definition load (transformed_data : list EnrichedRow) : method LoadResults :=
  phase set_load (fun _ => LoadSuccess)
    (call_nullary "load_all_data" 1 load_all_data_body).

(** Lines 173-205; [run_complete_analysis] is declared at line 373 of
    [analyze.py]. *)
Definition analyze : method AnalysisResults :=
  phase set_analyze (fun _ => AnalyzeSuccess)
    (call_nullary "run_complete_analysis" 1 run_complete_analysis_body).

(** Lines 207-262 *)
Definition run_pipeline : method results :=
  fun r =>
    match
      and_then extract (fun raw_data =>
      and_then (transform raw_data) (fun transformed_data =>
      and_then (load transformed_data) (fun _ =>
      analyze))) r
    with
    | (r', Ok _) =>
        let r'' := set_pipeline (PipelineSuccess 4) r' in (r'', Ok r'')
    | (r', Raise e) => (set_pipeline (Failed e) r', Raise e)
    end.

(** Lines 307-325: the results of the run, or [None] when it raised. *)
Definition main : option results :=
  match snd (run_pipeline no_results) with
  | Ok res => Some res
  | Raise _ => None
  end.

End Environment.

End FDEPipeline.

Unset Implicit Arguments.

(* ================================================================== *)
(** * Facts on cells *)

Lemma Qltb_lt x y : Float.Qltb x y = true <-> (x < y)%Q.
Proof.
  unfold Float.Qltb. rewrite negb_true_iff. split.
  - intros H. apply Qnot_le_lt. intros Hle.
    apply Qle_bool_iff in Hle. congruence.
  - intros H. destruct (Qle_bool y x) eqn:E; [|reflexivity].
    apply Qle_bool_iff in E. exfalso. apply (Qlt_not_le _ _ H E).
Qed.

Lemma Qltb_ge x y : Float.Qltb x y = false <-> (y <= x)%Q.
Proof.
  unfold Float.Qltb. rewrite negb_false_iff. apply Qle_bool_iff.
Qed.

Lemma float_eqb_refl a : Float.eqb a a = true.
Proof. destruct a; simpl; [apply Qeq_bool_refl | reflexivity]. Qed.

Lemma float_eqb_sym a b : Float.eqb a b = Float.eqb b a.
Proof. destruct a, b; simpl; try reflexivity. apply Qeq_bool_comm. Qed.

Lemma text_eqb_eq a b : Text.eqb a b = true <-> a = b.
Proof.
  destruct a, b; simpl; split; intros H; try congruence.
  - apply String.eqb_eq in H. congruence.
  - inversion H. apply String.eqb_refl.
Qed.

Lemma text_eqb_refl a : Text.eqb a a = true.
Proof. apply text_eqb_eq. reflexivity. Qed.

Lemma date_eqb_eq a b : Date.eqb a b = true <-> a = b.
Proof.
  destruct a, b; unfold Date.eqb; simpl.
  rewrite !andb_true_iff, !Z.eqb_eq. split.
  - intros [[-> ->] ->]. reflexivity.
  - intros H. inversion H. auto.
Qed.

Lemma date_opt_eqb_eq a b : Date.opt_eqb a b = true <-> a = b.
Proof.
  destruct a, b; simpl; split; intros H; try congruence.
  - apply date_eqb_eq in H. congruence.
  - inversion H. apply date_eqb_eq. reflexivity.
Qed.

(* ================================================================== *)
(** * Facts on lists and on the frame primitives *)

Lemma map_if_id {A : Type} (c : A -> bool) (f : A -> A) (l : list A) :
  existsb c l = false -> map (fun x => if c x then f x else x) l = l.
Proof.
  induction l as [|x l IH]; simpl; intros H; [reflexivity|].
  apply orb_false_iff in H. destruct H as [Hx Hl].
  rewrite Hx, IH by assumption. reflexivity.
Qed.

Lemma filter_negb_id {A : Type} (c : A -> bool) (l : list A) :
  existsb c l = false -> filter (fun x => negb (c x)) l = l.
Proof.
  induction l as [|x l IH]; simpl; intros H; [reflexivity|].
  apply orb_false_iff in H. destruct H as [Hx Hl].
  rewrite Hx, IH by assumption. reflexivity.
Qed.

Lemma existsb_false_forall {A : Type} (c : A -> bool) (l : list A) :
  existsb c l = false <-> (forall x, In x l -> c x = false).
Proof.
  split.
  - intros H x Hx. destruct (c x) eqn:E; [|reflexivity].
    rewrite <- H. symmetry. apply existsb_exists. exists x. auto.
  - intros H. destruct (existsb c l) eqn:E; [|reflexivity].
    apply existsb_exists in E. destruct E as [x [Hx Hc]].
    rewrite (H x Hx) in Hc. discriminate.
Qed.


Lemma mapM_Ok_Forall2 {A B : Type} (f : A -> result B) (l : list A) (out : list B) :
  mapM f l = Ok out -> Forall2 (fun x y => f x = Ok y) l out.
Proof.
  revert out. induction l as [|x l IH]; simpl; intros out H.
  - inversion H. constructor.
  - destruct (f x) as [y|] eqn:Ef; simpl in H; [|discriminate].
    destruct (mapM f l) as [ys|] eqn:El; simpl in H; [|discriminate].
    inversion H; subst. constructor; auto.
Qed.

(* ================================================================== *)
(** * The cleaner: repair of totals and removal of negative rows *)

Lemma repair_totals_map (df : list Row) :
  repair_totals df = map repair_row df.
Proof.
  unfold repair_totals, repair_row.
  destruct (existsb inconsistent df) eqn:E; [reflexivity|].
  symmetry. apply map_if_id. exact E.
Qed.

Lemma drop_negative_filter (df : list Row) :
  drop_negative df = filter (fun r => negb (negative r)) df.
Proof.
  unfold drop_negative.
  destruct (existsb negative df) eqn:E; [reflexivity|].
  symmetry. apply filter_negb_id. exact E.
Qed.

Lemma Qabs_diag_tolerance (c : Q) : (Qabs (c - c) <= tolerance)%Q.
Proof.
  apply Qabs_Qle_condition. unfold tolerance. split; lra.
Qed.

Lemma inconsistent_repair_row (r : Row) : inconsistent (repair_row r) = false.
Proof.
  unfold repair_row. destruct (inconsistent r) eqn:E; [|exact E].
  unfold inconsistent.
  change (calculated_total (set_total_amount (calculated_total r) r))
    with (calculated_total r).
  change (total_amount (set_total_amount (calculated_total r) r))
    with (calculated_total r).
  destruct (calculated_total r) as [c|]; [|reflexivity].
  apply Qltb_ge. apply Qabs_diag_tolerance.
Qed.

(** The numeric reading of the test of line 74 on a row whose price and
    total are numbers. *)
Lemma inconsistent_false_bound (r : Row) (p t : Q) :
  inconsistent r = false ->
  unit_price r = Some p -> total_amount r = Some t ->
  (Qabs (t - inject_Z (quantity r) * p) <= 1 # 100)%Q.
Proof.
  unfold inconsistent, calculated_total. intros H Hp Ht.
  rewrite Hp, Ht in H. simpl in H. unfold Float.gtb in H. simpl in H.
  apply Qltb_ge in H. exact H.
Qed.

Lemma negative_false_bounds (r : Row) :
  negative r = false ->
  (0 <= quantity r)%Z
  /\ (forall p, unit_price r = Some p -> (0 <= p)%Q)
  /\ (forall t, total_amount r = Some t -> (0 <= t)%Q).
Proof.
  unfold negative. intros H.
  apply orb_false_iff in H. destruct H as [H Ht].
  apply orb_false_iff in H. destruct H as [Hq Hp].
  split; [apply Z.ltb_ge; exact Hq|]. split.
  - intros p E. rewrite E in Hp. simpl in Hp. apply Qltb_ge in Hp. exact Hp.
  - intros t E. rewrite E in Ht. simpl in Ht. apply Qltb_ge in Ht. exact Ht.
Qed.

(** The frame returned by the cleaner is the typed frame of line 67 put
    through lines 72-95. *)
Lemma clean_sales_data_Ok (raw : list Raw.Row) (out : list CleanRow) :
  clean_sales_data raw = Ok out ->
  exists typed,
    convert_types (Pandas.drop_duplicates Raw.eqb (handle_missing raw)) = Ok typed
    /\ out = map add_derived
               (map strip_text
                  (filter (fun r => negb (negative r)) (map repair_row typed))).
Proof.
  unfold clean_sales_data. intros H.
  destruct (convert_types _) as [typed|] eqn:E; simpl in H; [|discriminate].
  destruct (str_accessor (map Raw.product_name raw)); simpl in H; [|discriminate].
  destruct (str_accessor (map Raw.category raw)); simpl in H; [|discriminate].
  destruct (str_accessor (map Raw.region raw)); simpl in H; [|discriminate].
  exists typed. split; [reflexivity|].
  inversion H. rewrite repair_totals_map, drop_negative_filter. reflexivity.
Qed.

(** The cleaner returns only when the three columns it trims are of dtype
    object. *)
Lemma clean_sales_data_objects (raw : list Raw.Row) (out : list CleanRow) :
  clean_sales_data raw = Ok out ->
  is_object (map Raw.product_name raw) = true
  /\ is_object (map Raw.category raw) = true
  /\ is_object (map Raw.region raw) = true.
Proof.
  unfold clean_sales_data, str_accessor. intros H.
  destruct (convert_types _) as [typed|]; simpl in H; [|discriminate].
  destruct (is_object (map Raw.product_name raw)); simpl in H; [|discriminate].
  destruct (is_object (map Raw.category raw)); simpl in H; [|discriminate].
  destruct (is_object (map Raw.region raw)); simpl in H; [|discriminate].
  auto.
Qed.

Lemma clean_row_shape (raw : list Raw.Row) (out : list CleanRow) (r : CleanRow) :
  clean_sales_data raw = Ok out -> In r out ->
  exists r0, r = add_derived (strip_text (repair_row r0))
             /\ negative (repair_row r0) = false.
Proof.
  intros H Hr. apply clean_sales_data_Ok in H. destruct H as [typed [_ ->]].
  apply in_map_iff in Hr. destruct Hr as [r1 [<- Hr1]].
  apply in_map_iff in Hr1. destruct Hr1 as [r2 [<- Hr2]].
  apply filter_In in Hr2. destruct Hr2 as [Hr2 Hneg].
  apply in_map_iff in Hr2. destruct Hr2 as [r0 [<- _]].
  exists r0. split; [reflexivity|]. apply negb_true_iff. exact Hneg.
Qed.

(** C1.  Every row of the cleaner's output passes the consistency test of
    line 74, and when its unit_price and total_amount are numbers,
    |total_amount - quantity * unit_price| <= 0.01.  The repair keeps every
    row and overwrites total_amount with quantity * unit_price exactly in
    the rows that fail the test.  The row with unit_price = 10,
    quantity = 5 and total_amount = 40 comes out with total_amount = 50. *)
Theorem clean_total_amount_consistent :
  (forall (raw : list Raw.Row) (out : list CleanRow) (r : CleanRow),
      clean_sales_data raw = Ok out -> In r out ->
      inconsistent r = false
      /\ forall p t : Q,
          unit_price r = Some p -> total_amount r = Some t ->
          (Qabs (t - inject_Z (quantity r) * p) <= 1 # 100)%Q)
  /\ (forall df : list Row,
         repair_totals df
         = map (fun r => if inconsistent r
                         then set_total_amount (calculated_total r) r
                         else r) df)
  /\ clean_sales_data [order "1001" "Laptop" 5 10 40]
     = Ok [cleaned_order "1001" "Laptop" 5 10 50].
Proof.
  split; [|split].
  - intros raw out r H Hr.
    destruct (clean_row_shape raw out r H Hr) as [r0 [-> _]].
    assert (Hi : inconsistent (add_derived (strip_text (repair_row r0))) = false)
      by apply inconsistent_repair_row.
    split; [exact Hi|].
    intros p t Hp Ht. exact (inconsistent_false_bound _ p t Hi Hp Ht).
  - intros df. apply repair_totals_map.
  - vm_compute. reflexivity.
Qed.

Lemma clean_total_amount_consistent_witness :
  inconsistent (cleaned_order "1001" "Laptop" 5 10 50) = false
  /\ forall p t : Q,
      unit_price (cleaned_order "1001" "Laptop" 5 10 50) = Some p ->
      total_amount (cleaned_order "1001" "Laptop" 5 10 50) = Some t ->
      (Qabs (t - inject_Z (quantity (cleaned_order "1001" "Laptop" 5 10 50)) * p)
       <= 1 # 100)%Q.
Proof.
  destruct clean_total_amount_consistent as [H _].
  apply (H [order "1001" "Laptop" 5 10 40]
           [cleaned_order "1001" "Laptop" 5 10 50]).
  - vm_compute. reflexivity.
  - left. reflexivity.
Defined.

(** C2.  No row of the cleaner's output has a negative quantity,
    unit_price or total_amount: the output is the repaired frame without
    its rows that have a negative value, these rows being removed, not
    altered.  A row with quantity = -1 is in no output. *)
Theorem clean_no_negative_values :
  (forall (raw : list Raw.Row) (out : list CleanRow) (r : CleanRow),
      clean_sales_data raw = Ok out -> In r out ->
      negative r = false
      /\ (0 <= quantity r)%Z
      /\ (forall p : Q, unit_price r = Some p -> (0 <= p)%Q)
      /\ (forall t : Q, total_amount r = Some t -> (0 <= t)%Q)
      /\ quantity r <> (-1)%Z)
  /\ (forall (raw : list Raw.Row) (out : list CleanRow),
         clean_sales_data raw = Ok out ->
         exists typed : list Row,
           convert_types (Pandas.drop_duplicates Raw.eqb (handle_missing raw))
           = Ok typed
           /\ out = map add_derived
                      (map strip_text
                         (filter (fun r => negb (negative r))
                                 (repair_totals typed))))
  /\ clean_sales_data [order "1001" "Laptop" (-1) 10 10;
                       order "1002" "Mouse" 2 10 20]
     = Ok [cleaned_order "1002" "Mouse" 2 10 20].
Proof.
  split; [|split].
  - intros raw out r H Hr.
    destruct (clean_row_shape raw out r H Hr) as [r0 [-> Hneg]].
    assert (Hn : negative (add_derived (strip_text (repair_row r0))) = false)
      by exact Hneg.
    destruct (negative_false_bounds _ Hn) as [Hq [Hp Ht]].
    repeat split; try assumption.
    intros E. rewrite E in Hq. lia.
  - intros raw out H. destruct (clean_sales_data_Ok raw out H) as [typed [Hc ->]].
    exists typed. split; [exact Hc|]. rewrite repair_totals_map. reflexivity.
  - vm_compute. reflexivity.
Qed.

Lemma clean_no_negative_values_witness :
  negative (cleaned_order "1002" "Mouse" 2 10 20) = false
  /\ (0 <= quantity (cleaned_order "1002" "Mouse" 2 10 20))%Z
  /\ (forall p : Q,
         unit_price (cleaned_order "1002" "Mouse" 2 10 20) = Some p -> (0 <= p)%Q)
  /\ (forall t : Q,
         total_amount (cleaned_order "1002" "Mouse" 2 10 20) = Some t -> (0 <= t)%Q)
  /\ quantity (cleaned_order "1002" "Mouse" 2 10 20) <> (-1)%Z.
Proof.
  destruct clean_no_negative_values as [H _].
  apply (H [order "1001" "Laptop" (-1) 10 10; order "1002" "Mouse" 2 10 20]
           [cleaned_order "1002" "Mouse" 2 10 20]).
  - vm_compute. reflexivity.
  - left. reflexivity.
Defined.

(* ================================================================== *)
(** * [drop_duplicates] *)

Section DropDuplicates.

Variable A : Type.
Variable eqb : A -> A -> bool.
Hypothesis eqb_refl : forall a, eqb a a = true.
Hypothesis eqb_sym : forall a b, eqb a b = eqb b a.

Lemma drop_seen_In (seen l : list A) (x : A) :
  In x (Pandas.drop_seen eqb seen l) ->
  In x l /\ existsb (eqb x) seen = false.
Proof.
  revert seen. induction l as [|y l IH]; simpl; intros seen H; [contradiction|].
  destruct (existsb (eqb y) seen) eqn:E.
  - destruct (IH _ H) as [H1 H2]. auto.
  - destruct H as [<-|H]; [auto|].
    destruct (IH _ H) as [H1 H2]. simpl in H2.
    apply orb_false_iff in H2. destruct H2 as [_ H2]. auto.
Qed.

Lemma drop_seen_pairwise (seen l : list A) :
  ForallOrdPairs (fun a b => eqb a b = false) (Pandas.drop_seen eqb seen l).
Proof.
  revert seen. induction l as [|y l IH]; simpl; intros seen; [constructor|].
  destruct (existsb (eqb y) seen) eqn:E; [apply IH|].
  constructor; [|apply IH].
  apply Forall_forall. intros b Hb.
  apply drop_seen_In in Hb. destruct Hb as [_ Hb]. simpl in Hb.
  apply orb_false_iff in Hb. destruct Hb as [Hb _].
  rewrite eqb_sym. exact Hb.
Qed.

Lemma drop_seen_covers (seen l : list A) (x : A) :
  In x l ->
  existsb (eqb x) seen = true
  \/ exists y, In y (Pandas.drop_seen eqb seen l) /\ eqb x y = true.
Proof.
  revert seen. induction l as [|y l IH]; simpl; intros seen H; [contradiction|].
  destruct H as [->|H].
  - destruct (existsb (eqb x) seen) eqn:E; [left; reflexivity|].
    right. exists x. split; [left; reflexivity | apply eqb_refl].
  - destruct (existsb (eqb y) seen) eqn:E.
    + apply IH. exact H.
    + destruct (IH (y :: seen) H) as [Hs|[z [Hz Hxz]]].
      * simpl in Hs. apply orb_true_iff in Hs. destruct Hs as [Hs|Hs].
        -- right. exists y. split; [left; reflexivity | exact Hs].
        -- left. exact Hs.
      * right. exists z. split; [right; exact Hz | exact Hxz].
Qed.


Lemma drop_duplicates_pairwise (l : list A) :
  ForallOrdPairs (fun a b => eqb a b = false) (Pandas.drop_duplicates eqb l).
Proof. apply drop_seen_pairwise. Qed.

Lemma drop_duplicates_In (l : list A) (x : A) :
  In x (Pandas.drop_duplicates eqb l) -> In x l.
Proof. intros H. apply drop_seen_In in H. tauto. Qed.

Lemma drop_duplicates_covers (l : list A) (x : A) :
  In x l -> exists y, In y (Pandas.drop_duplicates eqb l) /\ eqb x y = true.
Proof.
  intros H. destruct (drop_seen_covers [] l x H) as [Hs|Hy]; [discriminate|exact Hy].
Qed.



Lemma pairwise_NoDup (l : list A) :
  ForallOrdPairs (fun a b => eqb a b = false) l -> NoDup l.
Proof.
  induction 1 as [|a l Ha _ IH]; constructor; [|exact IH].
  intros Hin. rewrite Forall_forall in Ha.
  specialize (Ha a Hin). rewrite eqb_refl in Ha. discriminate.
Qed.

End DropDuplicates.

Lemma existsb_map_compose {A B : Type} (c : B -> bool) (f : A -> B) (l : list A) :
  existsb c (map f l) = existsb (fun a => c (f a)) l.
Proof.
  induction l as [|x l IH]; simpl; [reflexivity|]. rewrite IH. reflexivity.
Qed.



Lemma raw_eqb_refl (r : Raw.Row) : Raw.eqb r r = true.
Proof.
  unfold Raw.eqb.
  rewrite !text_eqb_refl, !float_eqb_refl.
  rewrite (proj2 (date_opt_eqb_eq _ _) eq_refl). reflexivity.
Qed.

Lemma raw_eqb_sym (a b : Raw.Row) : Raw.eqb a b = Raw.eqb b a.
Proof.
  unfold Raw.eqb.
  rewrite (float_eqb_sym (Raw.quantity a)), (float_eqb_sym (Raw.unit_price a)),
    (float_eqb_sym (Raw.total_amount a)).
  assert (T : forall x y, Text.eqb x y = Text.eqb y x).
  { intros x y. destruct (Text.eqb x y) eqn:E.
    - apply text_eqb_eq in E. subst. symmetry. apply text_eqb_refl.
    - destruct (Text.eqb y x) eqn:E'; [|reflexivity].
      apply text_eqb_eq in E'. subst. rewrite text_eqb_refl in E. discriminate. }
  assert (D : forall x y, Date.opt_eqb x y = Date.opt_eqb y x).
  { intros x y. destruct (Date.opt_eqb x y) eqn:E.
    - apply date_opt_eqb_eq in E. subst. symmetry. apply date_opt_eqb_eq. reflexivity.
    - destruct (Date.opt_eqb y x) eqn:E'; [|reflexivity].
      apply date_opt_eqb_eq in E'. subst.
      rewrite (proj2 (date_opt_eqb_eq _ _) eq_refl) in E. discriminate. }
  rewrite (T (Raw.order_id a)), (T (Raw.product_name a)), (T (Raw.category a)),
    (T (Raw.customer_id a)), (T (Raw.region a)), (D (Raw.order_date a)).
  reflexivity.
Qed.

Lemma pairwise_NoDup_map {A B : Type} (f : A -> B) (l : list A) :
  ForallOrdPairs (fun a b => f a <> f b) l -> NoDup (map f l).
Proof.
  induction 1 as [|a l Ha _ IH]; simpl; constructor; [|exact IH].
  intros Hin. apply in_map_iff in Hin. destruct Hin as [b [E Hb]].
  rewrite Forall_forall in Ha. apply (Ha b Hb). symmetry. exact E.
Qed.

Lemma ForallOrdPairs_impl {A : Type} (P Q : A -> A -> Prop) (l : list A) :
  (forall a b, In a l -> In b l -> P a b -> Q a b) ->
  ForallOrdPairs P l -> ForallOrdPairs Q l.
Proof.
  intros H Hp. induction Hp as [|a l Ha Hp IH]; constructor.
  - rewrite Forall_forall in *. intros b Hb.
    apply H; [left; reflexivity | right; exact Hb | apply Ha; exact Hb].
  - apply IH. intros x y Hx Hy. apply H; right; assumption.
Qed.

(** C4.  After the deduplication step no two retained rows are the same
    row on all columns, every retained row is a row of the input, and every
    row of the input has a retained row equal to it on all columns: only
    exact duplicates of an earlier row are removed.  The order_id values of
    the retained rows are pairwise distinct when the rows that shared an
    order_id were exact duplicates. *)
Theorem drop_duplicates_rows_distinct (df : list Raw.Row) :
  ForallOrdPairs (fun a b => Raw.eqb a b = false)
                 (Pandas.drop_duplicates Raw.eqb df)
  /\ NoDup (Pandas.drop_duplicates Raw.eqb df)
  /\ (forall r, In r (Pandas.drop_duplicates Raw.eqb df) -> In r df)
  /\ (forall r, In r df ->
        exists r', In r' (Pandas.drop_duplicates Raw.eqb df)
                   /\ Raw.eqb r r' = true)
  /\ ((forall a b, In a df -> In b df ->
         Raw.order_id a = Raw.order_id b -> Raw.eqb a b = true) ->
      NoDup (map Raw.order_id (Pandas.drop_duplicates Raw.eqb df))).
Proof.
  assert (P : ForallOrdPairs (fun a b => Raw.eqb a b = false)
                (Pandas.drop_duplicates Raw.eqb df))
    by (apply drop_duplicates_pairwise; apply raw_eqb_sym).
  split; [exact P|]. split; [|split; [|split]].
  - apply (pairwise_NoDup _ Raw.eqb raw_eqb_refl). exact P.
  - apply drop_duplicates_In.
  - apply drop_duplicates_covers. apply raw_eqb_refl.
  - intros H. apply pairwise_NoDup_map.
    apply (ForallOrdPairs_impl (fun a b => Raw.eqb a b = false)); [|exact P].
    intros a b Ha Hb Hab E.
    apply drop_duplicates_In in Ha. apply drop_duplicates_In in Hb.
    rewrite (H a b Ha Hb E) in Hab. discriminate.
Qed.

Lemma drop_duplicates_rows_distinct_witness :
  NoDup (map Raw.order_id
           (Pandas.drop_duplicates Raw.eqb
              [order "1001" "Laptop" 1 10 10; order "1002" "Mouse" 2 10 20;
               order "1001" "Laptop" 1 10 10])).
Proof.
  destruct (drop_duplicates_rows_distinct
              [order "1001" "Laptop" 1 10 10; order "1002" "Mouse" 2 10 20;
               order "1001" "Laptop" 1 10 10]) as (_ & _ & _ & _ & H).
  apply H. intros a b Ha Hb E.
  simpl in Ha, Hb.
  destruct Ha as [<-|[<-|[<-|[]]]]; destruct Hb as [<-|[<-|[<-|[]]]];
    try reflexivity; vm_compute in E; discriminate.
Defined.

(** Two orders with the same order_id and different products are both
    kept by the deduplication step and both in the cleaner's output. *)
Lemma order_id_shared_after_cleaning :
  Pandas.drop_duplicates Raw.eqb
    [order "1001" "Laptop" 1 10 10; order "1001" "Mouse" 1 10 10]
  = [order "1001" "Laptop" 1 10 10; order "1001" "Mouse" 1 10 10]
  /\ clean_sales_data
       [order "1001" "Laptop" 1 10 10; order "1001" "Mouse" 1 10 10]
     = Ok [cleaned_order "1001" "Laptop" 1 10 10;
           cleaned_order "1001" "Mouse" 1 10 10]
  /\ order_id (cleaned_order "1001" "Laptop" 1 10 10)
     = order_id (cleaned_order "1001" "Mouse" 1 10 10)
  /\ ~ NoDup (map (fun r : CleanRow => order_id r)
                  [cleaned_order "1001" "Laptop" 1 10 10;
                   cleaned_order "1001" "Mouse" 1 10 10]).
Proof.
  split; [vm_compute; reflexivity|].
  split; [vm_compute; reflexivity|].
  split; [reflexivity|].
  intros H. inversion H as [|? ? Hn _]; subst. apply Hn. left. reflexivity.
Qed.

(* ================================================================== *)
(** * [str.strip] *)

Lemma rstrip_idem (s : string) : Text.rstrip (Text.rstrip s) = Text.rstrip s.
Proof.
  induction s as [|c s IH]; simpl; [reflexivity|].
  destruct (Text.rstrip s) as [|c' t] eqn:E.
  - destruct (Text.is_space c) eqn:Ec; simpl; [reflexivity|].
    rewrite Ec. reflexivity.
  - simpl. simpl in IH.
    destruct (Text.rstrip t) as [|c'' t'] eqn:Et.
    + destruct (Text.is_space c') eqn:Ec'; [discriminate|].
      rewrite IH. reflexivity.
    + rewrite IH. reflexivity.
Qed.

Lemma lstrip_no_leading_space (s : string) : no_leading_space (Text.lstrip s).
Proof.
  induction s as [|c s IH]; simpl; [exact I|].
  destruct (Text.is_space c) eqn:E; [exact IH | exact E].
Qed.

Lemma lstrip_id (s : string) : no_leading_space s -> Text.lstrip s = s.
Proof.
  destruct s as [|c s]; simpl; [reflexivity|]. intros ->. reflexivity.
Qed.

Lemma rstrip_no_leading_space (s : string) :
  no_leading_space s -> no_leading_space (Text.rstrip s).
Proof.
  destruct s as [|c s]; simpl; [auto|]. intros H.
  destruct (Text.rstrip s); [rewrite H|]; simpl; exact H.
Qed.

Lemma strip_idem (s : string) : Text.strip (Text.strip s) = Text.strip s.
Proof.
  unfold Text.strip.
  rewrite (lstrip_id (Text.rstrip (Text.lstrip s))).
  - apply rstrip_idem.
  - apply rstrip_no_leading_space, lstrip_no_leading_space.
Qed.

Lemma str_strip_idem (a : Text.t) :
  Text.str_strip (Text.str_strip a) = Text.str_strip a.
Proof. destruct a; simpl; [rewrite strip_idem|]; reflexivity. Qed.

Lemma strip_text_idem (r : Row) : strip_text (strip_text r) = strip_text r.
Proof.
  unfold strip_text. simpl. rewrite !str_strip_idem. reflexivity.
Qed.

(* ================================================================== *)
(** * Missing values *)

Lemma sort_length {A : Type} (leb : A -> A -> bool) (l : list A) :
  List.length (Pandas.sort leb l) = List.length l.
Proof.
  assert (I : forall x l, List.length (Pandas.insert leb x l) = S (List.length l)).
  { intros x l0. induction l0 as [|y t IH]; simpl; [reflexivity|].
    destruct (leb x y); simpl; [reflexivity | rewrite IH; reflexivity]. }
  induction l as [|x l IH]; simpl; [reflexivity|]. rewrite I, IH. reflexivity.
Qed.

Lemma div2_lt (n : nat) : (0 < n)%nat -> (Nat.div2 n < n)%nat.
Proof. intros H. apply Nat.lt_div2. exact H. Qed.

Lemma median_some (c : list Float.t) :
  Pandas.dropna c <> [] -> Pandas.median c <> None.
Proof.
  intros H. unfold Pandas.median.
  pose proof (sort_length Qle_bool (Pandas.dropna c)) as L.
  set (s := Pandas.sort Qle_bool (Pandas.dropna c)) in *.
  destruct (List.length s) as [|n] eqn:En.
  - destruct (Pandas.dropna c); [congruence | discriminate].
  - assert (H1 : (Nat.div2 (S n) < List.length s)%nat)
      by (rewrite En; apply div2_lt; lia).
    assert (H2 : (Nat.div2 (S n) - 1 < List.length s)%nat) by lia.
    destruct (nth_error s (Nat.div2 (S n))) eqn:E1;
      [|apply nth_error_None in E1; lia].
    destruct (nth_error s (Nat.div2 (S n) - 1)) eqn:E2;
      [|apply nth_error_None in E2; lia].
    destruct (Nat.odd (S n)); discriminate.
Qed.

Lemma dropna_nil_all_none {A : Type} (c : list (option A)) :
  Pandas.dropna c = [] -> all_none c.
Proof.
  unfold all_none.
  induction c as [|[x|] c IH]; simpl; intros H.
  - constructor.
  - discriminate.
  - constructor; [reflexivity | apply IH; exact H].
Qed.

Lemma no_null_all_some {A : Type} (c : list (option A)) :
  existsb Float.isnull c = false -> all_some c.
Proof.
  unfold all_some.
  induction c as [|[x|] c IH]; simpl; intros H.
  - constructor.
  - constructor; [discriminate | apply IH; exact H].
  - discriminate.
Qed.

Section Fill.

Variables A B : Type.
Variable get : Raw.Row -> option A.
Variable set : option A -> Raw.Row -> Raw.Row.
Variable g : Raw.Row -> B.
Hypothesis get_set : forall v r, get (set v r) = v.
Hypothesis g_set : forall v r, g (set v r) = g r.

Lemma fillna_other (v : option A) (df : list Raw.Row) :
  map g (fillna get set v df) = map g df.
Proof.
  unfold fillna. rewrite map_map. apply map_ext. intros r.
  destruct (Float.isnull (get r)); [apply g_set | reflexivity].
Qed.

Lemma fillna_get (v : option A) (df : list Raw.Row) :
  map get (fillna get set v df)
  = map (fun c => if Float.isnull c then v else c) (map get df).
Proof.
  unfold fillna. rewrite !map_map. apply map_ext. intros r.
  destruct (Float.isnull (get r)); [apply get_set | reflexivity].
Qed.

Lemma col_has_null_map (df : list Raw.Row) :
  col_has_null get df = existsb Float.isnull (map get df).
Proof. unfold col_has_null. rewrite existsb_map_compose. reflexivity. Qed.

Lemma fill_some_all_some (x : A) (c : list (option A)) :
  all_some (map (fun a => if Float.isnull a then Some x else a) c).
Proof.
  unfold all_some.
  induction c as [|[y|] c IH]; simpl; constructor; auto; discriminate.
Qed.

Lemma fill_none_id (c : list (option A)) :
  map (fun a => if Float.isnull a then None else a) c = c.
Proof.
  induction c as [|[y|] c IH]; simpl; rewrite ?IH; reflexivity.
Qed.

End Fill.

Lemma fill_median_other {B : Type} get set (g : Raw.Row -> B) df :
  (forall v r, g (set v r) = g r) ->
  map g (fill_median get set df) = map g df.
Proof.
  intros H. unfold fill_median. destruct (col_has_null get df); [|reflexivity].
  apply fillna_other. exact H.
Qed.

Lemma fill_mode_other {B : Type} get set (g : Raw.Row -> B) df :
  (forall v r, g (set v r) = g r) ->
  map g (fill_mode get set df) = map g df.
Proof.
  intros H. unfold fill_mode. destruct (col_has_null get df); [|reflexivity].
  destruct (is_object (map get df)); [|reflexivity].
  apply fillna_other. exact H.
Qed.

Lemma fill_mode_date_other {B : Type} (g : Raw.Row -> B) df :
  (forall v r, g (Raw.set_order_date v r) = g r) ->
  map g (fill_mode_date df) = map g df.
Proof.
  intros H. unfold fill_mode_date.
  destruct (col_has_null Raw.order_date df); [|reflexivity].
  destruct (is_object (map Raw.order_date df)); [|reflexivity].
  apply fillna_other. exact H.
Qed.

(** A column of dtype float64 has no value, a column of dtype object in a
    frame with rows has one. *)
Lemma is_object_false {A : Type} (c : list (option A)) :
  is_object c = false -> c <> [] /\ all_none c.
Proof.
  destruct c as [|x c]; [discriminate|]. unfold is_object. intros H.
  split; [discriminate|]. unfold all_none.
  rewrite existsb_false_forall in H. apply Forall_forall.
  intros a Ha. specialize (H a Ha). destruct a; [discriminate | reflexivity].
Qed.


Lemma has_value_is_object {A : Type} (c : list (option A)) (x : A) :
  In (Some x) c -> is_object c = true.
Proof.
  intros H. destruct c as [|y c]; [reflexivity|]. unfold is_object.
  apply existsb_exists. exists (Some x). split; [exact H | reflexivity].
Qed.

Lemma fill_median_uniform get set df :
  (forall v r, get (set v r) = v) ->
  uniform (map get (fill_median get set df)).
Proof.
  intros H. unfold fill_median.
  destruct (col_has_null get df) eqn:E; rewrite col_has_null_map in E.
  - rewrite fillna_get by exact H.
    destruct (Pandas.median (map get df)) as [m|] eqn:Em.
    + right. apply fill_some_all_some.
    + left. rewrite fill_none_id. apply dropna_nil_all_none.
      destruct (Pandas.dropna (map get df)) eqn:Ed; [reflexivity|].
      exfalso. apply (median_some (map get df)); [rewrite Ed; discriminate | exact Em].
  - right. apply no_null_all_some. exact E.
Qed.

Lemma fill_mode_all_some get set df :
  (forall v r, get (set v r) = v) ->
  is_object (map get df) = true ->
  all_some (map get (fill_mode get set df)).
Proof.
  intros H Ho. unfold fill_mode.
  destruct (col_has_null get df) eqn:E; rewrite col_has_null_map in E.
  - rewrite Ho. rewrite fillna_get by exact H. apply fill_some_all_some.
  - apply no_null_all_some. exact E.
Qed.

Lemma fill_mode_uniform get set df :
  (forall v r, get (set v r) = v) ->
  uniform (map get (fill_mode get set df)).
Proof.
  intros H. destruct (is_object (map get df)) eqn:Ho.
  - right. apply fill_mode_all_some; assumption.
  - unfold fill_mode. rewrite Ho.
    left. apply is_object_false in Ho.
    destruct (col_has_null get df); apply Ho.
Qed.

Ltac peel_fills :=
  repeat first
    [ rewrite fill_mode_other by (intros; reflexivity)
    | rewrite fill_median_other by (intros; reflexivity)
    | rewrite fill_mode_date_other by (intros; reflexivity) ].

Lemma no_null_row_cols (df : list Raw.Row) :
  existsb Raw.isnull df = false ->
  all_some (map Raw.order_id df) /\ all_some (map Raw.product_name df)
  /\ all_some (map Raw.category df) /\ all_some (map Raw.unit_price df)
  /\ all_some (map Raw.total_amount df) /\ all_some (map Raw.customer_id df)
  /\ all_some (map Raw.region df).
Proof.
  intros H. rewrite existsb_false_forall in H.
  unfold all_some. rewrite !Forall_map, !Forall_forall.
  repeat split; intros r Hr E; specialize (H r Hr); unfold Raw.isnull in H;
    rewrite E in H; simpl in H; rewrite ?orb_true_r in H; discriminate.
Qed.

(** The frame after lines 38-54: in each column but [quantity] and
    [order_date] the cells are all present or all missing, and a text
    column of dtype object has no missing cell. *)
Lemma handle_missing_cols (df : list Raw.Row) :
  uniform (map Raw.order_id (handle_missing df))
  /\ uniform (map Raw.product_name (handle_missing df))
  /\ uniform (map Raw.category (handle_missing df))
  /\ uniform (map Raw.customer_id (handle_missing df))
  /\ uniform (map Raw.region (handle_missing df))
  /\ uniform (map Raw.unit_price (handle_missing df))
  /\ uniform (map Raw.total_amount (handle_missing df)).
Proof.
  unfold handle_missing. destruct (existsb Raw.isnull df) eqn:E.
  - repeat split; peel_fills;
      first [ apply fill_mode_uniform; intros; reflexivity
            | apply fill_median_uniform; intros; reflexivity ].
  - apply no_null_row_cols in E. unfold uniform. tauto.
Qed.

Lemma handle_missing_objects (df : list Raw.Row) :
  (is_object (map Raw.product_name df) = true ->
   all_some (map Raw.product_name (handle_missing df)))
  /\ (is_object (map Raw.category df) = true ->
      all_some (map Raw.category (handle_missing df)))
  /\ (is_object (map Raw.region df) = true ->
      all_some (map Raw.region (handle_missing df))).
Proof.
  unfold handle_missing. destruct (existsb Raw.isnull df) eqn:E.
  - repeat split; intros Ho; peel_fills;
      (apply fill_mode_all_some; [intros; reflexivity|]); peel_fills; exact Ho.
  - apply no_null_row_cols in E. tauto.
Qed.

(* ================================================================== *)
(** * The frame the cleaner returns, and a second run on it *)

Lemma uniform_map_iff {X A : Type} (g : X -> option A) (l : list X) :
  uniform (map g l)
  <-> (forall r, In r l -> g r = None) \/ (forall r, In r l -> g r <> None).
Proof.
  unfold uniform, all_none, all_some. rewrite !Forall_map, !Forall_forall.
  reflexivity.
Qed.

Lemma all_some_map_iff {X A : Type} (g : X -> option A) (l : list X) :
  all_some (map g l) <-> (forall r, In r l -> g r <> None).
Proof.
  unfold all_some. rewrite Forall_map, Forall_forall. reflexivity.
Qed.

Lemma uniform_sub {X Y A : Type} (g : X -> option A) (h : Y -> option A)
    (l : list X) (l' : list Y) :
  (forall y, In y l' -> exists x, In x l /\ Float.isnull (h y) = Float.isnull (g x)) ->
  uniform (map g l) -> uniform (map h l').
Proof.
  intros S. rewrite !uniform_map_iff. intros [H|H]; [left|right]; intros y Hy;
    destruct (S y Hy) as [x [Hx E]]; specialize (H x Hx).
  - rewrite H in E. destruct (h y); [discriminate | reflexivity].
  - destruct (g x); [|congruence]. destruct (h y); [discriminate | discriminate].
Qed.

Lemma Forall2_In_right {X Y : Type} (R : X -> Y -> Prop) (l : list X)
    (l' : list Y) (y : Y) :
  Forall2 R l l' -> In y l' -> exists x, In x l /\ R x y.
Proof.
  induction 1 as [|x y' l l' Hxy _ IH]; simpl; [contradiction|].
  intros [<-|Hy].
  - exists x. auto.
  - destruct (IH Hy) as [x' [Hx' Hr]]. exists x'. auto.
Qed.

Lemma convert_types_rows (df : list Raw.Row) (typed : list Row) :
  convert_types df = Ok typed ->
  forall t, In t typed -> exists r, In r df /\ typed_of r t.
Proof.
  unfold convert_types. intros H.
  destruct (mapM _ df) as [dated|] eqn:E1; simpl in H; [|discriminate].
  apply mapM_Ok_Forall2 in E1. apply mapM_Ok_Forall2 in H.
  intros t Ht.
  destruct (Forall2_In_right _ _ _ _ H Ht) as [[r d] [Hrd Hconv]].
  destruct (Forall2_In_right _ _ _ _ E1 Hrd) as [r' [Hr' Hd]].
  destruct (to_datetime (Raw.order_date r')) as [d'|]; simpl in Hd; [|discriminate].
  inversion Hd; subst r' d'.
  destruct (astype_int (Raw.quantity r)) as [q|]; simpl in Hconv; [|discriminate].
  inversion Hconv; subst t.
  exists r. split; [exact Hr'|]. unfold typed_of. simpl. tauto.
Qed.

Lemma clean_row_origin (raw : list Raw.Row) (out : list CleanRow) (r : CleanRow) :
  clean_sales_data raw = Ok out -> In r out ->
  exists x r0,
    In x (handle_missing raw) /\ typed_of x r0
    /\ r = add_derived (strip_text (repair_row r0))
    /\ negative (repair_row r0) = false.
Proof.
  intros H Hr. apply clean_sales_data_Ok in H. destruct H as [typed [Hc ->]].
  apply in_map_iff in Hr. destruct Hr as [r1 [<- Hr1]].
  apply in_map_iff in Hr1. destruct Hr1 as [r2 [<- Hr2]].
  apply filter_In in Hr2. destruct Hr2 as [Hr2 Hneg].
  apply in_map_iff in Hr2. destruct Hr2 as [r0 [<- Hr0]].
  destruct (convert_types_rows _ _ Hc r0 Hr0) as [x [Hx Hxt]].
  apply drop_duplicates_In in Hx.
  exists x, r0. split; [exact Hx|]. split; [exact Hxt|].
  split; [reflexivity|]. apply negb_true_iff. exact Hneg.
Qed.

Lemma inconsistent_true_some (r : Row) :
  inconsistent r = true ->
  total_amount r <> None /\ calculated_total r <> None.
Proof.
  unfold inconsistent.
  destruct (total_amount r), (calculated_total r); simpl; intros H;
    try discriminate; split; discriminate.
Qed.

Lemma repair_row_fields (r : Row) :
  order_id (repair_row r) = order_id r
  /\ product_name (repair_row r) = product_name r
  /\ category (repair_row r) = category r
  /\ quantity (repair_row r) = quantity r
  /\ unit_price (repair_row r) = unit_price r
  /\ customer_id (repair_row r) = customer_id r
  /\ order_date (repair_row r) = order_date r
  /\ region (repair_row r) = region r
  /\ Float.isnull (total_amount (repair_row r)) = Float.isnull (total_amount r).
Proof.
  unfold repair_row. destruct (inconsistent r) eqn:E;
    repeat (split; [reflexivity|]); [|reflexivity].
  apply inconsistent_true_some in E. destruct E as [Ht Hc].
  change (total_amount (set_total_amount (calculated_total r) r))
    with (calculated_total r).
  destruct (total_amount r), (calculated_total r); simpl; congruence.
Qed.

Lemma str_strip_isnull (a : Text.t) :
  Float.isnull (Text.str_strip a) = Float.isnull a.
Proof. destruct a; reflexivity. Qed.

Lemma isnull_false_iff {A : Type} (a : option A) :
  Float.isnull a = false <-> a <> None.
Proof. destruct a; simpl; split; congruence. Qed.

Lemma cleaned_row_intro (r0 : Row) :
  negative (repair_row r0) = false ->
  product_name r0 <> None -> category r0 <> None -> region r0 <> None ->
  cleaned_row (add_derived (strip_text (repair_row r0))).
Proof.
  intros Hneg Hp Hc Hr.
  destruct (repair_row_fields r0) as (_ & Fp & Fc & _ & _ & _ & _ & Fr & _).
  unfold cleaned_row.
  split; [exact (inconsistent_repair_row r0)|].
  split; [exact Hneg|].
  split; [exact (strip_text_idem (repair_row r0))|].
  split; [reflexivity|].
  change (Text.str_strip (product_name (repair_row r0)) <> None
          /\ Text.str_strip (category (repair_row r0)) <> None
          /\ Text.str_strip (region (repair_row r0)) <> None).
  rewrite Fp, Fc, Fr.
  repeat split;
    apply isnull_false_iff; rewrite str_strip_isnull; apply isnull_false_iff;
    assumption.
Qed.

Lemma clean_sales_data_cleaned_frame (raw : list Raw.Row) (out : list CleanRow) :
  clean_sales_data raw = Ok out -> cleaned_frame out.
Proof.
  intros H.
  destruct (handle_missing_cols raw) as (Ho & _ & _ & Hcu & _ & Hup & Hta).
  destruct (clean_sales_data_objects raw out H) as (Op & Oc & Or).
  destruct (handle_missing_objects raw) as (Hp & Hc & Hr).
  specialize (Hp Op). specialize (Hc Oc). specialize (Hr Or).
  rewrite all_some_map_iff in Hp, Hc, Hr.
  split; [|split; [|split; [|split]]].
  - intros r Hr0.
    destruct (clean_row_origin raw out r H Hr0) as (x & r0 & Hx & Ht & -> & Hneg).
    destruct Ht as (_ & Tp & Tc & _ & _ & _ & Tr).
    apply cleaned_row_intro; [exact Hneg|..].
    + rewrite Tp. auto.
    + rewrite Tc. auto.
    + rewrite Tr. auto.
  - apply (uniform_sub Raw.unit_price _ (handle_missing raw)); [|exact Hup].
    intros r Hr0.
    destruct (clean_row_origin raw out r H Hr0) as (x & r0 & Hx & Ht & -> & _).
    exists x. split; [exact Hx|].
    destruct Ht as (_ & _ & _ & Tu & _).
    destruct (repair_row_fields r0) as (_ & _ & _ & _ & Fu & _).
    change (Float.isnull (unit_price (repair_row r0)) = Float.isnull (Raw.unit_price x)).
    rewrite Fu, Tu. reflexivity.
  - apply (uniform_sub Raw.total_amount _ (handle_missing raw)); [|exact Hta].
    intros r Hr0.
    destruct (clean_row_origin raw out r H Hr0) as (x & r0 & Hx & Ht & -> & _).
    exists x. split; [exact Hx|].
    destruct Ht as (_ & _ & _ & _ & Tt & _).
    destruct (repair_row_fields r0) as (_ & _ & _ & _ & _ & _ & _ & _ & Ft).
    change (Float.isnull (total_amount (repair_row r0))
            = Float.isnull (Raw.total_amount x)).
    rewrite Ft, Tt. reflexivity.
  - apply (uniform_sub Raw.order_id _ (handle_missing raw)); [|exact Ho].
    intros r Hr0.
    destruct (clean_row_origin raw out r H Hr0) as (x & r0 & Hx & Ht & -> & _).
    exists x. split; [exact Hx|].
    destruct Ht as (To & _).
    destruct (repair_row_fields r0) as (Fo & _).
    change (Float.isnull (order_id (repair_row r0)) = Float.isnull (Raw.order_id x)).
    rewrite Fo, To. reflexivity.
  - apply (uniform_sub Raw.customer_id _ (handle_missing raw)); [|exact Hcu].
    intros r Hr0.
    destruct (clean_row_origin raw out r H Hr0) as (x & r0 & Hx & Ht & -> & _).
    exists x. split; [exact Hx|].
    destruct Ht as (_ & _ & _ & _ & _ & Tcu & _).
    destruct (repair_row_fields r0) as (_ & _ & _ & _ & _ & Fcu & _).
    change (Float.isnull (customer_id (repair_row r0))
            = Float.isnull (Raw.customer_id x)).
    rewrite Fcu, Tcu. reflexivity.
Qed.



Lemma median_all_none (c : list Float.t) : all_none c -> Pandas.median c = None.
Proof.
  intros H. unfold Pandas.median.
  assert (E : Pandas.dropna c = []).
  { induction H as [|x c Hx _ IH]; simpl; [reflexivity|]. rewrite Hx. exact IH. }
  rewrite E. reflexivity.
Qed.



















(* ================================================================== *)
(** * Sorting and the order of keys *)

Section SortFacts.

Variable A : Type.
Variable leb : A -> A -> bool.

Lemma insert_In (x y : A) (l : list A) :
  In y (Pandas.insert leb x l) <-> y = x \/ In y l.
Proof.
  induction l as [|z l IH]; simpl.
  - intuition.
  - destruct (leb x z); simpl; [intuition | rewrite IH; intuition].
Qed.

Lemma sort_In (y : A) (l : list A) : In y (Pandas.sort leb l) <-> In y l.
Proof.
  induction l as [|x l IH]; simpl; [reflexivity|].
  rewrite insert_In, IH. intuition.
Qed.

Hypothesis leb_total : forall a b, leb a b = true \/ leb b a = true.
Hypothesis leb_trans : forall a b c, leb a b = true -> leb b c = true -> leb a c = true.

Lemma insert_sorted (x : A) (l : list A) :
  StronglySorted (fun a b => leb a b = true) l ->
  StronglySorted (fun a b => leb a b = true) (Pandas.insert leb x l).
Proof.
  induction 1 as [|z l Hs IH Hz]; simpl.
  - constructor; constructor.
  - destruct (leb x z) eqn:E.
    + constructor; [constructor; assumption|].
      constructor; [exact E|].
      rewrite Forall_forall in *. intros y Hy. apply (leb_trans _ z); auto.
    + constructor; [exact IH|].
      rewrite Forall_forall in *. intros y Hy. apply insert_In in Hy.
      destruct Hy as [->|Hy]; [|auto].
      destruct (leb_total x z) as [H|H]; [congruence | exact H].
Qed.

Lemma sort_sorted (l : list A) :
  StronglySorted (fun a b => leb a b = true) (Pandas.sort leb l).
Proof.
  induction l as [|x l IH]; simpl; [constructor | apply insert_sorted, IH].
Qed.

End SortFacts.

Lemma string_leb_trans (a b c : string) :
  String.leb a b = true -> String.leb b c = true -> String.leb a c = true.
Proof.
  unfold String.leb. revert b c.
  induction a as [|x a IH]; intros [|y b] [|z c]; simpl; try congruence.
  unfold Ascii.compare.
  destruct (N.compare_spec (N_of_ascii x) (N_of_ascii y)) as [Exy|Exy|Exy];
    destruct (N.compare_spec (N_of_ascii y) (N_of_ascii z)) as [Eyz|Eyz|Eyz];
    destruct (N.compare_spec (N_of_ascii x) (N_of_ascii z)) as [Exz|Exz|Exz];
    try congruence; try lia.
  apply IH.
Qed.

Lemma unique_In {A : Type} (eqb : A -> A -> bool) (l : list A) (x : A) :
  In x (Pandas.unique eqb l) -> In x l.
Proof. apply drop_duplicates_In. Qed.

Lemma dropna_In {A : Type} (c : list (option A)) (x : A) :
  In x (Pandas.dropna c) <-> In (Some x) c.
Proof.
  induction c as [|[y|] c IH]; simpl.
  - reflexivity.
  - rewrite IH. split; intros [H|H]; auto; left; congruence.
  - rewrite IH. split; [auto | intros [H|H]; [discriminate | exact H]].
Qed.

(** The keys of a [groupby] are the values of the key column. *)
Lemma group_keys_In {K : Type} (eqb leb : K -> K -> bool)
    (key : CleanRow -> option K) (df : list CleanRow) (k : K) :
  (forall a b, eqb a b = true <-> a = b) ->
  In k (group_keys eqb leb key df) <-> exists r, In r df /\ key r = Some k.
Proof.
  intros eqb_eq. unfold group_keys. rewrite sort_In. split.
  - intros H. apply unique_In in H. apply dropna_In in H.
    apply in_map_iff in H. destruct H as [r [E Hr]]. eauto.
  - intros [r [Hr E]].
    destruct (drop_duplicates_covers _ eqb (fun a => proj2 (eqb_eq a a) eq_refl)
                (Pandas.dropna (map key df)) k) as [k' [Hk' Ek]].
    + apply dropna_In. rewrite <- E. apply in_map. exact Hr.
    + apply eqb_eq in Ek. subst k'. exact Hk'.
Qed.

Lemma group_keys_text_In (key : CleanRow -> Text.t) (df : list CleanRow) (k : string) :
  In k (group_keys String.eqb String.leb key df)
  <-> exists r, In r df /\ key r = Some k.
Proof. apply group_keys_In. apply String.eqb_eq. Qed.


Lemma groupby_agg_In {K S : Type} (eqb leb : K -> K -> bool)
    (key : CleanRow -> option K) (agg : K -> list CleanRow -> S)
    (df : list CleanRow) (s : S) :
  In s (groupby_agg eqb leb key agg df)
  <-> exists k, In k (group_keys eqb leb key df) /\ s = agg k (group eqb key df k).
Proof.
  unfold groupby_agg. rewrite in_map_iff. split; intros [k [H1 H2]]; eauto.
Qed.

(** The rows of a group of a text column. *)
Lemma group_text (key : CleanRow -> Text.t) (df : list CleanRow) (k : string) :
  group String.eqb key df k = filter (fun r => Text.eqb (key r) (Some k)) df.
Proof.
  unfold group. apply filter_ext. intros r. unfold in_group.
  destruct (key r) as [k'|]; simpl; [apply String.eqb_sym | reflexivity].
Qed.

(* ================================================================== *)
(** * Segments *)

Ltac case_tests :=
  repeat match goal with
         | |- context [Float.Qltb ?a ?b] =>
             let E := fresh "E" in
             destruct (Float.Qltb a b) eqn:E;
             [apply Qltb_lt in E | apply Qltb_ge in E]
         | |- context [Qle_bool ?a ?b] =>
             let E := fresh "E" in
             destruct (Qle_bool a b) eqn:E;
             [apply Qle_bool_iff in E
             | apply not_true_iff_false in E; rewrite Qle_bool_iff in E;
               apply Qnot_le_lt in E]
         end; simpl.

Lemma cut_revenue_bins (x : Q) :
  ((x <= 0)%Q -> cut_revenue (Some x) = None)
  /\ ((0 < x)%Q /\ (x <= 100)%Q -> cut_revenue (Some x) = Some "Low"%string)
  /\ ((100 < x)%Q /\ (x <= 500)%Q -> cut_revenue (Some x) = Some "Medium"%string)
  /\ ((500 < x)%Q /\ (x <= 1000)%Q -> cut_revenue (Some x) = Some "High"%string)
  /\ ((1000 < x)%Q -> cut_revenue (Some x) = Some "Very High"%string).
Proof.
  unfold cut_revenue, Cut.cut, Cut.cut_value, Cut.ltb_bound, Cut.leb_bound.
  repeat split; intros H; case_tests; try reflexivity; exfalso; lra.
Qed.

Lemma cut_quantity_bins (q : Z) :
  ((q <= 0)%Z -> cut_quantity q = None)
  /\ ((q = 1)%Z -> cut_quantity q = Some "Single"%string)
  /\ ((1 < q <= 3)%Z -> cut_quantity q = Some "Small"%string)
  /\ ((3 < q <= 5)%Z -> cut_quantity q = Some "Medium"%string)
  /\ ((5 < q)%Z -> cut_quantity q = Some "Large"%string).
Proof.
  unfold cut_quantity, Cut.cut, Float.of_int, Cut.cut_value,
    Cut.ltb_bound, Cut.leb_bound.
  repeat split; intros H; case_tests; try reflexivity; exfalso;
    unfold Qlt, Qle in *; simpl in *; lia.
Qed.

(** C5.  Each enriched row carries the label of the bin of its
    total_amount and of its quantity, the bins being open at their lower
    edge and closed at their upper edge: (0,100] Low, (100,500] Medium,
    (500,1000] High, above 1000 Very High; 1 Single, (1,3] Small, (3,5]
    Medium, above 5 Large; no label at or below 0.  750 is High, 1500 is
    Very High, quantity 4 is Medium. *)
Theorem segments_right_closed_bins :
  (forall r : CleanRow,
      revenue_segment (enrich r) = cut_revenue (total_amount r)
      /\ quantity_segment (enrich r) = cut_quantity (quantity r))
  /\ (forall x : Q,
         ((x <= 0)%Q -> cut_revenue (Some x) = None)
         /\ ((0 < x)%Q /\ (x <= 100)%Q ->
             cut_revenue (Some x) = Some "Low"%string)
         /\ ((100 < x)%Q /\ (x <= 500)%Q ->
             cut_revenue (Some x) = Some "Medium"%string)
         /\ ((500 < x)%Q /\ (x <= 1000)%Q ->
             cut_revenue (Some x) = Some "High"%string)
         /\ ((1000 < x)%Q -> cut_revenue (Some x) = Some "Very High"%string))
  /\ (forall q : Z,
         ((q <= 0)%Z -> cut_quantity q = None)
         /\ ((q = 1)%Z -> cut_quantity q = Some "Single"%string)
         /\ ((1 < q <= 3)%Z -> cut_quantity q = Some "Small"%string)
         /\ ((3 < q <= 5)%Z -> cut_quantity q = Some "Medium"%string)
         /\ ((5 < q)%Z -> cut_quantity q = Some "Large"%string))
  /\ cut_revenue None = None
  /\ cut_revenue (Some 750%Q) = Some "High"%string
  /\ cut_revenue (Some 1500%Q) = Some "Very High"%string
  /\ cut_quantity 4 = Some "Medium"%string.
Proof.
  split; [intros r; split; reflexivity|].
  split; [exact cut_revenue_bins|].
  split; [exact cut_quantity_bins|].
  repeat split.
Qed.

Lemma segments_right_closed_bins_witness :
  cut_revenue (Some 100%Q) = Some "Low"%string
  /\ cut_quantity 3 = Some "Small"%string.
Proof.
  destruct segments_right_closed_bins as (_ & Hr & Hq & _).
  split.
  - apply (Hr 100%Q). split; [reflexivity | discriminate].
  - apply (Hq 3%Z). lia.
Defined.

(** At a threshold the code gives the label of the bin below it, where
    the bins of the specification give the label of the bin above. *)
Lemma segment_at_threshold :
  cut_revenue (Some 100%Q) = Some "Low"%string
  /\ spec_revenue_segment 100 = "Medium"%string
  /\ cut_quantity 1 = Some "Single"%string
  /\ spec_quantity_segment 1 = "Small"%string
  /\ cut_revenue (Some 100%Q) <> Some (spec_revenue_segment 100)
  /\ cut_quantity 1 <> Some (spec_quantity_segment 1).
Proof.
  repeat split; vm_compute; discriminate.
Qed.

(** C10.  A row whose total_amount is 0 receives no revenue_segment and a
    row whose quantity is 0 no quantity_segment; such a row passes the
    cleaner and goes through the transformer and the loader without
    label. *)
Theorem zero_rows_unlabelled :
  (forall (r : CleanRow) (t : Q),
      total_amount r = Some t -> (t == 0)%Q ->
      revenue_segment (enrich r) = None)
  /\ (forall r : CleanRow,
         quantity r = 0%Z -> quantity_segment (enrich r) = None)
  /\ clean_sales_data [order "1001" "Laptop" 0 5 0]
     = Ok [cleaned_order "1001" "Laptop" 0 5 0]
  /\ (exists summaries stats,
         transform_sales_data [cleaned_order "1001" "Laptop" 0 5 0]
         = Ok ([enrich (cleaned_order "1001" "Laptop" 0 5 0)], summaries, stats))
  /\ revenue_segment (enrich (cleaned_order "1001" "Laptop" 0 5 0)) = None
  /\ quantity_segment (enrich (cleaned_order "1001" "Laptop" 0 5 0)) = None
  /\ load_to_database [enrich (cleaned_order "1001" "Laptop" 0 5 0)]
     = Table [enrich (cleaned_order "1001" "Laptop" 0 5 0)].
Proof.
  split; [|split; [|split; [|split]]].
  - intros r t Ht E. simpl. rewrite Ht.
    apply (proj1 (cut_revenue_bins t)). rewrite E. apply Qle_refl.
  - intros r Hq. simpl. rewrite Hq. reflexivity.
  - vm_compute. reflexivity.
  - eexists. eexists. vm_compute. reflexivity.
  - repeat split.
Qed.

Lemma zero_rows_unlabelled_witness :
  revenue_segment (enrich (cleaned_order "1001" "Laptop" 0 5 0)) = None
  /\ quantity_segment (enrich (cleaned_order "1001" "Laptop" 0 5 0)) = None.
Proof.
  destruct zero_rows_unlabelled as (Ht & Hq & _).
  split.
  - apply (Ht (cleaned_order "1001" "Laptop" 0 5 0) 0%Q); reflexivity.
  - apply (Hq (cleaned_order "1001" "Laptop" 0 5 0)). reflexivity.
Defined.

(* ================================================================== *)
(** * Rounding and the summaries *)

Lemma rint_error (q : Q) : (Qabs (inject_Z (rint q) - q) <= 1 # 2)%Q.
Proof.
  pose proof (Qfloor_le q) as Hlo. pose proof (Qlt_floor q) as Hhi.
  rewrite inject_Z_plus in Hhi. change (inject_Z 1) with 1%Q in Hhi.
  unfold rint.
  assert (Hup : (inject_Z (Qfloor q + 1) == inject_Z (Qfloor q) + 1)%Q)
    by (rewrite inject_Z_plus; reflexivity).
  apply Qabs_Qle_condition.
  case_tests; [|rewrite ?Hup|destruct (Z.even (Qfloor q)); rewrite ?Hup];
    split; lra.
Qed.

Lemma Qmake_100 (z : Z) : (z # 100 == inject_Z z * (1 # 100))%Q.
Proof. unfold Qeq, Qmult, inject_Z. simpl. lia. Qed.

(** Rounding to two decimals moves a number by half a cent at most. *)
Lemma round2_error (q : Q) : (Qabs (round2 q - q) <= 1 # 200)%Q.
Proof.
  unfold round2. pose proof (rint_error (q * 100)) as H.
  apply Qabs_Qle_condition in H. destruct H as [H1 H2].
  apply Qabs_Qle_condition. rewrite Qmake_100. split; lra.
Qed.

Lemma pair_eqb_eq (a b : Z * Z) : pair_eqb a b = true <-> a = b.
Proof.
  destruct a, b. unfold pair_eqb. simpl.
  rewrite andb_true_iff, !Z.eqb_eq. split; [intros []; congruence|].
  intros H. inversion H. auto.
Qed.

Lemma group_nonempty {K : Type} (eqb leb : K -> K -> bool)
    (key : CleanRow -> option K) (df : list CleanRow) (k : K) :
  (forall a b, eqb a b = true <-> a = b) ->
  In k (group_keys eqb leb key df) -> group eqb key df k <> [].
Proof.
  intros eqb_eq H. apply (group_keys_In eqb leb key df k eqb_eq) in H.
  destruct H as [r [Hr E]].
  assert (Hin : In r (group eqb key df k)).
  { apply filter_In. split; [exact Hr|]. unfold in_group. rewrite E.
    apply eqb_eq. reflexivity. }
  intros E0. rewrite E0 in Hin. exact Hin.
Qed.


(** A summary by a text column: one row per text of the column, computed
    from the rows that carry it. *)
Lemma text_summary_row {S : Type} (key : CleanRow -> Text.t)
    (agg : string -> list CleanRow -> S) (df : list CleanRow) (s : S) :
  In s (groupby_agg String.eqb String.leb key agg df) ->
  exists k,
    filter (fun r => Text.eqb (key r) (Some k)) df <> []
    /\ s = agg k (filter (fun r => Text.eqb (key r) (Some k)) df).
Proof.
  intros H. apply groupby_agg_In in H. destruct H as [k [Hk ->]].
  exists k. rewrite <- group_text. split; [|reflexivity].
  apply (group_nonempty String.eqb String.leb key df k String.eqb_eq Hk).
Qed.





(* ================================================================== *)
(** * [idxmax] over a grouped sum *)


Section IdxMaxFacts.

Variable V : Type.
Variable ltb : V -> V -> bool.
Hypothesis ltb_trans :
  forall a b c, ltb a b = true -> ltb b c = true -> ltb a c = true.
Hypothesis ltb_asym : forall a b, ltb a b = true -> ltb b a = false.
Hypothesis ltb_le_lt :
  forall a b c, ltb b a = false -> ltb b c = true -> ltb a c = true.



Variable key : CleanRow -> Text.t.
Variable val : list CleanRow -> V.


End IdxMaxFacts.











(* ================================================================== *)
(** * The query service *)

Lemma desc_total (a b : option Q) : Sql.desc a b = true \/ Sql.desc b a = true.
Proof.
  destruct a as [x|], b as [y|]; simpl; auto.
  destruct (Qle_bool y x) eqn:E; [auto|]. right.
  apply Qle_bool_iff. apply Qlt_le_weak. apply Qnot_le_lt.
  intros H. apply Qle_bool_iff in H. congruence.
Qed.

Lemma desc_trans (a b c : option Q) :
  Sql.desc a b = true -> Sql.desc b c = true -> Sql.desc a c = true.
Proof.
  destruct a as [x|], b as [y|], c as [z|]; simpl; try congruence.
  rewrite !Qle_bool_iff. intros H1 H2. apply (Qle_trans _ y); assumption.
Qed.

Lemma products_by_revenue_sorted (rows : list CleanRow) :
  StronglySorted
    (fun a b => Sql.desc (DataService.p_total_revenue a)
                         (DataService.p_total_revenue b) = true)
    (DataService.products_by_revenue rows).
Proof.
  unfold DataService.products_by_revenue, Sql.order_by.
  apply (sort_sorted _
           (fun a b => Sql.desc (DataService.p_total_revenue a)
                                (DataService.p_total_revenue b))).
  - intros a b. apply desc_total.
  - intros a b c. apply desc_trans.
Qed.

Lemma limit_cases {S : Type} (n : Z) (l : list S) :
  ((n < 0)%Z -> Sql.limit n l = l)
  /\ (n = 0%Z -> Sql.limit n l = [])
  /\ ((0 < n)%Z -> Sql.limit n l = firstn (Z.to_nat n) l).
Proof.
  unfold Sql.limit. repeat split; intros H.
  - apply Z.ltb_lt in H. rewrite H. reflexivity.
  - subst. reflexivity.
  - assert (E : (n <? 0)%Z = false) by (apply Z.ltb_ge; lia).
    rewrite E. reflexivity.
Qed.

Lemma bind_int_in_range (n : Z) :
  (Sql.int64_min <= n <= Sql.int64_max)%Z -> Sql.bind_int n = Ok n.
Proof.
  intros [H1 H2]. unfold Sql.bind_int.
  apply Z.leb_le in H1. apply Z.leb_le in H2. rewrite H1, H2. reflexivity.
Qed.

Lemma bind_int_out_of_range (n : Z) :
  (n < Sql.int64_min \/ Sql.int64_max < n)%Z ->
  Sql.bind_int n = Raise "Python int too large to convert to SQLite INTEGER".
Proof.
  intros H. unfold Sql.bind_int.
  destruct (Z.leb_spec Sql.int64_min n) as [H1|H1];
    destruct (Z.leb_spec n Sql.int64_max) as [H2|H2]; simpl; try reflexivity.
  lia.
Qed.

(** C3.  The top-products endpoint takes 10 for a limit that is absent or
    is no integer, and passes an integer SQLite can hold on to the query as
    it is: with a positive limit n the answer holds the first n product
    groups in descending order of revenue, with limit 0 it holds none, and
    with a negative limit it holds them all.  An integer beyond the 64 bits
    of SQLite cannot be bound to the query: the service catches the error
    and the endpoint answers with no product. *)
Theorem top_products_limit (rows : list EnrichedRow) :
  (forall db : store,
      Routes.get_top_products db Absent
      = Routes.get_top_products db (Integer 10)
      /\ Routes.get_top_products db NotAnInteger
         = Routes.get_top_products db (Integer 10))
  /\ (forall n : Z,
         (0 < n <= Sql.int64_max)%Z ->
         Routes.get_top_products (Table rows) (Integer n)
         = ok_response (firstn (Z.to_nat n)
                          (DataService.products_by_revenue (map cleaned rows))))
  /\ Routes.get_top_products (Table rows) (Integer 0) = ok_response []
  /\ (forall n : Z,
         (Sql.int64_min <= n < 0)%Z ->
         Routes.get_top_products (Table rows) (Integer n)
         = ok_response (DataService.products_by_revenue (map cleaned rows)))
  /\ (forall n : Z,
         (n < Sql.int64_min \/ Sql.int64_max < n)%Z ->
         Routes.get_top_products (Table rows) (Integer n) = ok_response [])
  /\ StronglySorted
       (fun a b => Sql.desc (DataService.p_total_revenue a)
                            (DataService.p_total_revenue b) = true)
       (DataService.products_by_revenue (map cleaned rows)).
Proof.
  assert (Bmin : (Sql.int64_min < 0)%Z) by reflexivity.
  assert (Bmax : (0 < Sql.int64_max)%Z) by reflexivity.
  split; [intros db; split; reflexivity|].
  split; [|split; [|split; [|split]]].
  - intros n Hn. unfold Routes.get_top_products, DataService.get_top_products.
    simpl. rewrite bind_int_in_range by lia. simpl.
    rewrite (proj2 (proj2 (limit_cases n _))) by lia. reflexivity.
  - reflexivity.
  - intros n Hn. unfold Routes.get_top_products, DataService.get_top_products.
    simpl. rewrite bind_int_in_range by lia. simpl.
    rewrite (proj1 (limit_cases n _)) by lia. reflexivity.
  - intros n Hn. unfold Routes.get_top_products, DataService.get_top_products.
    simpl. rewrite (bind_int_out_of_range n Hn). reflexivity.
  - apply products_by_revenue_sorted.
Qed.

Lemma top_products_limit_witness :
  Routes.get_top_products
    (Table [enrich (cleaned_order "1" "Laptop" 1 10 10);
            enrich (cleaned_order "2" "Mouse" 1 20 20)]) (Integer (-5))
  = ok_response
      (DataService.products_by_revenue
         (map cleaned [enrich (cleaned_order "1" "Laptop" 1 10 10);
                       enrich (cleaned_order "2" "Mouse" 1 20 20)])).
Proof.
  destruct (top_products_limit
              [enrich (cleaned_order "1" "Laptop" 1 10 10);
               enrich (cleaned_order "2" "Mouse" 1 20 20)])
    as (_ & _ & _ & H & _).
  apply (H (-5)%Z). split; [discriminate | reflexivity].
Defined.

(** With limit 0 the endpoint answers with no product and with limit -5
    with all of them, where limit 10 answers with the products there are,
    ten at most. *)
Lemma top_products_nonpositive_limit :
  data (Routes.get_top_products
          (Table [enrich (cleaned_order "1" "Laptop" 1 10 10)]) (Integer 0))
  = Some []
  /\ option_map (@List.length _)
       (data (Routes.get_top_products
                (Table [enrich (cleaned_order "1" "Laptop" 1 10 10)])
                (Integer 10)))
     = Some 1%nat
  /\ option_map (@List.length _)
       (data (Routes.get_top_products
                (Table (map (fun p => enrich (cleaned_order p p 1 10 10))
                            ["a"; "b"; "c"; "d"; "e"; "f"; "g"; "h"; "i"; "j";
                             "k"; "l"]%string))
                (Integer (-5))))
     = Some 12%nat
  /\ option_map (@List.length _)
       (data (Routes.get_top_products
                (Table (map (fun p => enrich (cleaned_order p p 1 10 10))
                            ["a"; "b"; "c"; "d"; "e"; "f"; "g"; "h"; "i"; "j";
                             "k"; "l"]%string))
                (Integer 10)))
     = Some 10%nat.
Proof.
  repeat split; vm_compute; reflexivity.
Qed.

(** C7.  A fault of the store inside a service method is caught there and
    replaced by an empty result: every endpoint then answers success=true
    with empty data and status 200, and its own handler, which answers
    success=false with the message and status 500, is not reached. *)
Theorem service_fault_gives_empty_success (db : store) (msg now : string) :
  read_sales_data db = Raise msg ->
  Routes.get_stats db = mkResponse true (Some None) None 200
  /\ Routes.get_monthly db = mkResponse true (Some []) None 200
  /\ Routes.get_categories db = mkResponse true (Some []) None 200
  /\ Routes.get_regions db = mkResponse true (Some []) None 200
  /\ (forall a, Routes.get_top_products db a = mkResponse true (Some []) None 200)
  /\ Routes.get_customers db = mkResponse true (Some []) None 200
  /\ Routes.get_complete_data now db
     = mkResponse true
         (Some (Routes.mkCompleteData None [] [] [] [] [] now)) None 200.
Proof.
  intros H.
  unfold Routes.get_stats, Routes.get_monthly, Routes.get_categories,
    Routes.get_regions, Routes.get_top_products, Routes.get_customers,
    Routes.get_complete_data,
    DataService.get_overall_stats, DataService.get_monthly_data,
    DataService.get_category_data, DataService.get_region_data,
    DataService.get_top_products, DataService.get_customer_analysis.
  rewrite H. simpl. repeat split.
Qed.

Lemma service_fault_gives_empty_success_witness :
  Routes.get_stats NoTable = mkResponse true (Some None) None 200
  /\ Routes.get_monthly NoTable = mkResponse true (Some []) None 200
  /\ Routes.get_categories NoTable = mkResponse true (Some []) None 200
  /\ Routes.get_regions NoTable = mkResponse true (Some []) None 200
  /\ (forall a, Routes.get_top_products NoTable a
                = mkResponse true (Some []) None 200)
  /\ Routes.get_customers NoTable = mkResponse true (Some []) None 200
  /\ Routes.get_complete_data "2024-01-05T00:00:00" NoTable
     = mkResponse true
         (Some (Routes.mkCompleteData None [] [] [] [] []
                  "2024-01-05T00:00:00")) None 200.
Proof.
  apply (service_fault_gives_empty_success NoTable "no such table: sales_data").
  reflexivity.
Defined.

(** Against a database without the table the statistics endpoint answers
    success=true with an empty dictionary; so it does when the file cannot
    be opened, and on an empty table, where [float(None)] raises. *)
Lemma fault_answered_with_success :
  read_sales_data NoTable = Raise "no such table: sales_data"
  /\ success (Routes.get_stats NoTable) = true
  /\ data (Routes.get_stats NoTable) = Some None
  /\ error (Routes.get_stats NoTable) = None
  /\ status (Routes.get_stats NoTable) = 200%Z
  /\ success (Routes.get_stats (Unreachable "unable to open database file")) = true
  /\ Routes.get_stats (Table []) = mkResponse true (Some None) None 200.
Proof.
  repeat split.
Qed.

(* ================================================================== *)
(** * Further properties of the cleaner *)

Lemma fill_cell_all_some {A : Type} (v : option A) (c : list (option A)) :
  all_some c -> map (fill_cell v) c = c.
Proof.
  unfold all_some. induction 1 as [|x c Hx _ IH]; simpl; [reflexivity|].
  rewrite IH. destruct x; [reflexivity | congruence].
Qed.

Lemma fill_cell_isnull {A : Type} (v : option A) (c : list (option A)) :
  map (fun a => if Float.isnull a then v else a) c = map (fill_cell v) c.
Proof. apply map_ext. intros [a|]; reflexivity. Qed.

Lemma fill_median_col get set (df : list Raw.Row) :
  (forall v r, get (set v r) = v) ->
  map get (fill_median get set df)
  = map (fill_cell (Pandas.median (map get df))) (map get df).
Proof.
  intros H. unfold fill_median.
  destruct (col_has_null get df) eqn:E.
  - rewrite fillna_get by exact H. apply fill_cell_isnull.
  - rewrite col_has_null_map in E. symmetry. apply fill_cell_all_some.
    apply no_null_all_some. exact E.
Qed.

Lemma fill_mode_col get set (df : list Raw.Row) :
  (forall v r, get (set v r) = v) ->
  is_object (map get df) = true ->
  map get (fill_mode get set df)
  = map (fill_cell (Some (mode_value (map get df)))) (map get df).
Proof.
  intros H Ho. unfold fill_mode.
  destruct (col_has_null get df) eqn:E.
  - rewrite Ho. rewrite fillna_get by exact H. apply fill_cell_isnull.
  - rewrite col_has_null_map in E. symmetry. apply fill_cell_all_some.
    apply no_null_all_some. exact E.
Qed.

Lemma no_null_quantity (df : list Raw.Row) :
  existsb Raw.isnull df = false -> all_some (map Raw.quantity df).
Proof.
  intros H. rewrite existsb_false_forall in H.
  apply all_some_map_iff. intros r Hr E. specialize (H r Hr).
  unfold Raw.isnull in H. rewrite E in H. simpl in H.
  rewrite ?orb_true_r in H. discriminate.
Qed.

Lemma handle_missing_quantity_col (df : list Raw.Row) :
  map Raw.quantity (handle_missing df)
  = map (fill_cell (Pandas.median (map Raw.quantity df))) (map Raw.quantity df).
Proof.
  unfold handle_missing. destruct (existsb Raw.isnull df) eqn:E.
  - peel_fills. rewrite fill_median_col by (intros; reflexivity). reflexivity.
  - symmetry. apply fill_cell_all_some, no_null_quantity, E.
Qed.

Lemma handle_missing_unit_price_col (df : list Raw.Row) :
  map Raw.unit_price (handle_missing df)
  = map (fill_cell (Pandas.median (map Raw.unit_price df))) (map Raw.unit_price df).
Proof.
  unfold handle_missing. destruct (existsb Raw.isnull df) eqn:E.
  - peel_fills. rewrite fill_median_col by (intros; reflexivity).
    peel_fills. reflexivity.
  - symmetry. apply fill_cell_all_some. apply (no_null_row_cols df E).
Qed.

Lemma handle_missing_length (df : list Raw.Row) :
  List.length (handle_missing df) = List.length df.
Proof.
  rewrite <- (length_map Raw.quantity (handle_missing df)).
  rewrite handle_missing_quantity_col, !length_map. reflexivity.
Qed.

(** X1.  The imputation fills each missing cell of a numeric column with
    the median of the cells the column had in the frame read, leaves the
    other cells as they are and keeps the rows in place; the fill of one
    column does not depend on the other columns.  A numeric column that has
    a number is left with no missing cell. *)
Theorem handle_missing_numeric (df : list Raw.Row) :
  map Raw.quantity (handle_missing df)
  = map (fill_cell (Pandas.median (map Raw.quantity df))) (map Raw.quantity df)
  /\ map Raw.unit_price (handle_missing df)
     = map (fill_cell (Pandas.median (map Raw.unit_price df)))
           (map Raw.unit_price df)
  /\ map Raw.total_amount (handle_missing df)
     = map (fill_cell (Pandas.median (map Raw.total_amount df)))
           (map Raw.total_amount df)
  /\ List.length (handle_missing df) = List.length df
  /\ (forall (r : Raw.Row) (p : Q),
         In r df -> Raw.unit_price r = Some p ->
         all_some (map Raw.unit_price (handle_missing df))).
Proof.
  assert (Hq := handle_missing_quantity_col df).
  assert (Hp := handle_missing_unit_price_col df).
  assert (Ht : map Raw.total_amount (handle_missing df)
               = map (fill_cell (Pandas.median (map Raw.total_amount df)))
                     (map Raw.total_amount df)).
  { unfold handle_missing. destruct (existsb Raw.isnull df) eqn:E.
    - peel_fills. rewrite fill_median_col by (intros; reflexivity).
      peel_fills. reflexivity.
    - symmetry. apply fill_cell_all_some. apply (no_null_row_cols df E). }
  split; [exact Hq|]. split; [exact Hp|]. split; [exact Ht|]. split.
  - apply handle_missing_length.
  - intros r p Hr E. rewrite Hp.
    destruct (Pandas.median (map Raw.unit_price df)) as [m|] eqn:Em.
    + unfold all_some. rewrite Forall_map, Forall_map. apply Forall_forall.
      intros x _. destruct (Raw.unit_price x); discriminate.
    + exfalso. apply (median_some (map Raw.unit_price df)); [|exact Em].
      intros Hd. assert (Hin : In p (Pandas.dropna (map Raw.unit_price df))).
      { apply dropna_In. rewrite <- E. apply in_map. exact Hr. }
      rewrite Hd in Hin. exact Hin.
Qed.

Lemma handle_missing_numeric_witness :
  all_some (map Raw.unit_price
              (handle_missing
                 [order "1001" "Laptop" 1 10 10;
                  Raw.set_unit_price None (order "1002" "Mouse" 2 30 60)])).
Proof.
  destruct (handle_missing_numeric
              [order "1001" "Laptop" 1 10 10;
               Raw.set_unit_price None (order "1002" "Mouse" 2 30 60)])
    as (_ & _ & _ & _ & H).
  apply (H (order "1001" "Laptop" 1 10 10) 10%Q).
  - left. reflexivity.
  - reflexivity.
Defined.

Lemma list_max_attained (l : list nat) : l <> [] -> In (list_max l) l.
Proof.
  induction l as [|x l IH]; [congruence|]. intros _. simpl.
  destruct l as [|y l'].
  - left. simpl. lia.
  - assert (H : In (list_max (y :: l')) (y :: l')) by (apply IH; discriminate).
    destruct (Nat.max_spec x (list_max (y :: l'))) as [[_ E]|[_ E]];
      rewrite E; [right; exact H | left; reflexivity].
Qed.

Lemma list_max_ge (l : list nat) (n : nat) : In n l -> (n <= list_max l)%nat.
Proof.
  intros H. assert (F : Forall (fun k => (k <= list_max l)%nat) l)
    by (apply list_max_le; lia).
  rewrite Forall_forall in F. auto.
Qed.

Lemma count_not_In (l : list string) (y : string) :
  ~ In y l -> Pandas.count String.eqb y l = 0%nat.
Proof.
  intros H. unfold Pandas.count.
  induction l as [|x l IH]; simpl; [reflexivity|].
  destruct (String.eqb y x) eqn:E.
  - apply String.eqb_eq in E. subst. exfalso. apply H. left. reflexivity.
  - apply IH. intros Hin. apply H. right. exact Hin.
Qed.

Lemma sorted_head_least (l : list string) (m y : string) (t : list string) :
  Pandas.sort String.leb l = m :: t -> In y l -> String.leb m y = true.
Proof.
  intros E Hy.
  pose proof (sort_sorted _ String.leb String.leb_total string_leb_trans l) as S.
  rewrite E in S. apply StronglySorted_inv in S. destruct S as [_ F].
  apply (sort_In _ String.leb) in Hy. rewrite E in Hy.
  destruct Hy as [<-|Hy].
  - destruct (String.leb_total m m); assumption.
  - rewrite Forall_forall in F. auto.
Qed.

(** The value of [mode()[0]] on a list of texts that is not empty. *)
Lemma mode_head (l : list string) (v : string) :
  In v l ->
  exists m t,
    Pandas.mode String.eqb String.leb l = m :: t
    /\ In m l
    /\ (forall y, (Pandas.count String.eqb y l <= Pandas.count String.eqb m l)%nat)
    /\ (forall y, Pandas.count String.eqb y l = Pandas.count String.eqb m l ->
                  String.leb m y = true).
Proof.
  intros Hv.
  set (cnt := fun x => Pandas.count String.eqb x l).
  set (top := list_max (map cnt l)).
  set (cand := filter (fun x => Nat.eqb (cnt x) top) l).
  assert (Emode : Pandas.mode String.eqb String.leb l
                  = Pandas.sort String.leb (Pandas.unique String.eqb cand))
    by reflexivity.
  rewrite Emode. clear Emode.
  assert (Htop : forall y, In y l -> (cnt y <= top)%nat).
  { intros y Hy. apply list_max_ge. apply in_map. exact Hy. }
  assert (Hpos : (1 <= cnt v)%nat).
  { unfold cnt, Pandas.count. clear -Hv.
    induction l as [|x l IH]; [contradiction|]. simpl.
    destruct Hv as [->|Hv].
    - rewrite String.eqb_refl. simpl. lia.
    - destruct (String.eqb v x); simpl; [lia | auto]. }
  assert (Hex : exists x, In x cand).
  { assert (Hin : In top (map cnt l)).
    { apply list_max_attained. destruct l; [contradiction | discriminate]. }
    apply in_map_iff in Hin. destruct Hin as [x [Ex Hx]].
    exists x. apply filter_In. split; [exact Hx|]. apply Nat.eqb_eq. exact Ex. }
  destruct Hex as [x Hx].
  assert (Hu : In x (Pandas.unique String.eqb cand)).
  { destruct (drop_duplicates_covers _ String.eqb String.eqb_refl cand x Hx)
      as [x' [Hx' E]].
    apply String.eqb_eq in E. subst x'. exact Hx'. }
  destruct (Pandas.sort String.leb (Pandas.unique String.eqb cand))
    as [|m t] eqn:Es.
  - apply (sort_In _ String.leb) in Hu. rewrite Es in Hu. contradiction.
  - exists m, t. split; [reflexivity|].
    assert (Hm : In m cand).
    { apply (unique_In String.eqb). apply (sort_In _ String.leb).
      rewrite Es. left. reflexivity. }
    apply filter_In in Hm. destruct Hm as [Hml Hmc]. apply Nat.eqb_eq in Hmc.
    split; [exact Hml|]. fold (cnt m). rewrite Hmc. split.
    + intros y. fold (cnt y).
      destruct (in_dec string_dec y l) as [Hy|Hy]; [auto|].
      unfold cnt. rewrite (count_not_In l y Hy). lia.
    + intros y Ey.
      assert (Ey' : cnt y = top) by exact Ey.
      apply (sorted_head_least _ m y t Es).
      destruct (drop_duplicates_covers _ String.eqb String.eqb_refl cand y)
        as [y' [Hy' E]].
      * apply filter_In. split; [|apply Nat.eqb_eq; exact Ey'].
        destruct (in_dec string_dec y l) as [Hy|Hy]; [exact Hy|].
        exfalso. unfold cnt in Ey'. rewrite (count_not_In l y Hy) in Ey'.
        specialize (Htop v Hv). lia.
      * apply String.eqb_eq in E. subst y'. exact Hy'.
Qed.

(** X2.  The value that fills a text column which has a text: it is a
    text of the column, no text of the column occurs more often, and of the
    texts that occur as often it is the first in lexicographic order. *)
Theorem mode_value_most_frequent (column : list Text.t) (v : string) :
  In (Some v) column ->
  In (Some (mode_value column)) column
  /\ (forall y,
         (Pandas.count String.eqb y (Pandas.dropna column)
          <= Pandas.count String.eqb (mode_value column) (Pandas.dropna column))%nat)
  /\ (forall y,
         Pandas.count String.eqb y (Pandas.dropna column)
         = Pandas.count String.eqb (mode_value column) (Pandas.dropna column) ->
         String.leb (mode_value column) y = true).
Proof.
  intros Hv. apply dropna_In in Hv.
  destruct (mode_head (Pandas.dropna column) v Hv) as (m & t & Em & Hm & Hmax & Hmin).
  unfold mode_value. rewrite Em.
  split; [apply dropna_In; exact Hm|]. split; assumption.
Qed.

Lemma mode_value_most_frequent_witness :
  In (Some (mode_value [Some "b"; None; Some "a"; Some "b"; Some "a"]%string))
     [Some "b"; None; Some "a"; Some "b"; Some "a"]%string
  /\ String.leb (mode_value [Some "b"; None; Some "a"; Some "b"; Some "a"]%string)
                "b" = true.
Proof.
  destruct (mode_value_most_frequent
              [Some "b"; None; Some "a"; Some "b"; Some "a"]%string "b"%string)
    as (H1 & _ & H3).
  - left. reflexivity.
  - split; [exact H1|]. apply H3. vm_compute. reflexivity.
Defined.

(** X3.  In a frame with a missing value, a text column that has a text
    (product_name, category or region, the columns the cleaner trims) gets
    each of its missing cells filled with the mode of the column as it was
    read, a text of that column; the other cells stay as they are, and no
    cell of the column is missing afterwards.  In a frame with no missing
    value the column is not touched. *)
Theorem handle_missing_text (df : list Raw.Row) (get : Raw.Row -> Text.t) :
  In get [Raw.product_name; Raw.category; Raw.region] ->
  has_value (map get df) ->
  map get (handle_missing df)
  = map (fill_cell (Some (mode_value (map get df)))) (map get df)
  /\ In (Some (mode_value (map get df))) (map get df)
  /\ all_some (map get (handle_missing df))
  /\ (existsb Raw.isnull df = false -> handle_missing df = df).
Proof.
  intros Hget [v Hv].
  assert (T : forall set,
             (forall v r, get (set v r) = v) ->
             (existsb Raw.isnull df = false -> all_some (map get df)) ->
             (existsb Raw.isnull df = true ->
              exists df', map get (handle_missing df) = map get (fill_mode get set df')
                          /\ map get df' = map get df) ->
             map get (handle_missing df)
             = map (fill_cell (Some (mode_value (map get df)))) (map get df)).
  { intros set Hgs Hno Hyes. destruct (existsb Raw.isnull df) eqn:E.
    - destruct (Hyes eq_refl) as (df' & E1 & E2).
      rewrite E1, fill_mode_col, E2;
        [reflexivity | exact Hgs | rewrite E2; apply (has_value_is_object _ v Hv)].
    - unfold handle_missing. rewrite E. symmetry.
      apply fill_cell_all_some. auto. }
  assert (N := no_null_row_cols df).
  assert (Eq : map get (handle_missing df)
               = map (fill_cell (Some (mode_value (map get df)))) (map get df)).
  { destruct Hget as [<-|[<-|[<-|[]]]].
    - apply (T Raw.set_product_name); [reflexivity|apply N|].
      intros E. unfold handle_missing. rewrite E. eexists. split.
      + peel_fills. reflexivity.
      + peel_fills. reflexivity.
    - apply (T Raw.set_category); [reflexivity|apply N|].
      intros E. unfold handle_missing. rewrite E. eexists. split.
      + peel_fills. reflexivity.
      + peel_fills. reflexivity.
    - apply (T Raw.set_region); [reflexivity|apply N|].
      intros E. unfold handle_missing. rewrite E. eexists. split.
      + peel_fills. reflexivity.
      + peel_fills. reflexivity. }
  split; [exact Eq|]. split; [|split].
  - apply dropna_In in Hv.
    destruct (mode_head (Pandas.dropna (map get df)) v Hv) as (m & t & Em & Hm & _).
    unfold mode_value. rewrite Em. apply dropna_In. exact Hm.
  - rewrite Eq. unfold all_some. rewrite Forall_map. apply Forall_forall.
    intros a _. destruct a; discriminate.
  - intros E. unfold handle_missing. rewrite E. reflexivity.
Qed.

Lemma handle_missing_text_witness :
  map Raw.category
      (handle_missing [order "1001" "Laptop" 1 10 10;
                       Raw.set_category None (order "1002" "Mouse" 2 30 60)])
  = map (fill_cell
           (Some (mode_value
                    (map Raw.category
                         [order "1001" "Laptop" 1 10 10;
                          Raw.set_category None (order "1002" "Mouse" 2 30 60)]))))
        (map Raw.category
             [order "1001" "Laptop" 1 10 10;
              Raw.set_category None (order "1002" "Mouse" 2 30 60)]).
Proof.
  destruct (handle_missing_text
              [order "1001" "Laptop" 1 10 10;
               Raw.set_category None (order "1002" "Mouse" 2 30 60)]
              Raw.category) as (H & _).
  - right. left. reflexivity.
  - eexists. left. reflexivity.
  - exact H.
Defined.

Lemma nth_error_sort_In (l : list Q) (i : nat) (a : Q) :
  nth_error (Pandas.sort Qle_bool l) i = Some a -> In a l.
Proof.
  intros H. apply nth_error_In in H.
  apply (proj1 (sort_In _ Qle_bool a l)). exact H.
Qed.

Lemma median_bounds (column : list Float.t) (lo hi m : Q) :
  (forall x, In (Some x) column -> (lo <= x)%Q /\ (x <= hi)%Q) ->
  Pandas.median column = Some m -> (lo <= m)%Q /\ (m <= hi)%Q.
Proof.
  intros Hb. unfold Pandas.median.
  set (s := Pandas.sort Qle_bool (Pandas.dropna column)).
  assert (Hs : forall i a, nth_error s i = Some a -> (lo <= a)%Q /\ (a <= hi)%Q).
  { intros i a H. apply nth_error_sort_In in H.
    apply (proj1 (dropna_In column a)) in H. auto. }
  destruct (List.length s) as [|n]; [discriminate|].
  destruct (Nat.odd (S n)).
  - intros H. apply (Hs _ _ H).
  - destruct (nth_error s (Nat.div2 (S n) - 1)) as [a|] eqn:Ea; [|discriminate].
    destruct (nth_error s (Nat.div2 (S n))) as [b|] eqn:Eb; [|discriminate].
    intros H. inversion H. destruct (Hs _ _ Ea), (Hs _ _ Eb).
    split.
    + apply Qle_shift_div_l; [reflexivity | lra].
    + apply Qle_shift_div_r; [reflexivity | lra].
Qed.

Lemma In_map_fill_cell {A : Type} (v c : option A) (l : list (option A)) :
  In c (map (fill_cell v) l) -> In c l \/ c = v.
Proof.
  intros H. apply in_map_iff in H. destruct H as [x [E Hx]].
  destruct x; simpl in E; subst; auto.
Qed.

(** X4.  The median that fills a numeric column lies between the least
    and the greatest number of the column, so the imputation takes no cell
    out of the range of the numbers read: a column without negative number
    has none afterwards. *)
Theorem imputation_within_range (df : list Raw.Row) (lo hi : Q) :
  (forall r p, In r df -> Raw.unit_price r = Some p -> (lo <= p)%Q /\ (p <= hi)%Q) ->
  forall r p,
    In r (handle_missing df) -> Raw.unit_price r = Some p ->
    (lo <= p)%Q /\ (p <= hi)%Q.
Proof.
  intros Hb r p Hr E.
  assert (Hin : In (Some p) (map Raw.unit_price (handle_missing df))).
  { rewrite <- E. apply in_map. exact Hr. }
  rewrite handle_missing_unit_price_col in Hin.
  assert (Hcol : forall x, In (Some x) (map Raw.unit_price df) ->
                           (lo <= x)%Q /\ (x <= hi)%Q).
  { intros x Hx. apply in_map_iff in Hx. destruct Hx as [r0 [E0 Hr0]].
    apply (Hb r0 x Hr0 E0). }
  apply In_map_fill_cell in Hin. destruct Hin as [Hin|Hin].
  - apply Hcol. exact Hin.
  - symmetry in Hin. apply (median_bounds _ lo hi p Hcol Hin).
Qed.

Lemma imputation_within_range_witness :
  (0 <= 10)%Q /\ (10 <= 30)%Q.
Proof.
  apply (imputation_within_range
           [order "1001" "Laptop" 1 10 10; order "1002" "Mouse" 2 30 60;
            Raw.set_unit_price None (order "1003" "Cable" 1 5 5)]
           0 30
           ltac:(intros r p [<-|[<-|[<-|[]]]] E; inversion E; split; discriminate)
           (order "1001" "Laptop" 1 10 10) 10).
  - vm_compute. left. reflexivity.
  - reflexivity.
Defined.

Lemma drop_seen_length_le {A : Type} (eqb : A -> A -> bool) (seen l : list A) :
  (List.length (Pandas.drop_seen eqb seen l) <= List.length l)%nat.
Proof.
  revert seen. induction l as [|x l IH]; intros seen; simpl; [lia|].
  destruct (existsb (eqb x) seen); simpl.
  - specialize (IH seen). lia.
  - specialize (IH (x :: seen)). lia.
Qed.

Lemma convert_types_length (df : list Raw.Row) (typed : list Row) :
  convert_types df = Ok typed -> List.length typed = List.length df.
Proof.
  unfold convert_types. intros H.
  destruct (mapM _ df) as [dated|] eqn:E1; simpl in H; [|discriminate].
  apply mapM_Ok_Forall2 in E1. apply mapM_Ok_Forall2 in H.
  apply Forall2_length in E1. apply Forall2_length in H. lia.
Qed.

(** X5.  The cleaner adds no row: the rows it returns, the rows it counts
    as duplicates (line 59) and the rows it counts as negative (line 83)
    add up to the rows read. *)
Theorem clean_row_accounting (raw : list Raw.Row) (out : list CleanRow) :
  clean_sales_data raw = Ok out ->
  exists typed : list Row,
    convert_types (Pandas.drop_duplicates Raw.eqb (handle_missing raw)) = Ok typed
    /\ (List.length out
        + negatives_removed (repair_totals typed)
        + duplicates_removed (handle_missing raw))%nat
       = List.length raw
    /\ (List.length out <= List.length raw)%nat.
Proof.
  intros H. destruct (clean_sales_data_Ok raw out H) as [typed [Hc ->]].
  exists typed. split; [exact Hc|].
  pose proof (convert_types_length _ _ Hc) as Lt.
  pose proof (drop_seen_length_le Raw.eqb [] (handle_missing raw)) as Ld.
  fold (Pandas.drop_duplicates Raw.eqb (handle_missing raw)) in Ld.
  pose proof (handle_missing_length raw) as Lh.
  unfold negatives_removed, duplicates_removed.
  rewrite repair_totals_map, !length_map.
  pose proof (filter_length negative (map repair_row typed)) as Lf.
  rewrite length_map in Lf.
  split; lia.
Qed.

Lemma clean_row_accounting_witness :
  exists typed : list Row,
    convert_types
      (Pandas.drop_duplicates Raw.eqb
         (handle_missing
            [order "1001" "Laptop" 1 10 10; order "1001" "Laptop" 1 10 10;
             order "1002" "Mouse" (-1) 10 10])) = Ok typed
    /\ (List.length [cleaned_order "1001" "Laptop" 1 10 10]
        + negatives_removed (repair_totals typed)
        + duplicates_removed
            (handle_missing
               [order "1001" "Laptop" 1 10 10; order "1001" "Laptop" 1 10 10;
                order "1002" "Mouse" (-1) 10 10]))%nat
       = 3%nat
    /\ (List.length [cleaned_order "1001" "Laptop" 1 10 10] <= 3)%nat.
Proof.
  apply (clean_row_accounting
           [order "1001" "Laptop" 1 10 10; order "1001" "Laptop" 1 10 10;
            order "1002" "Mouse" (-1) 10 10]
           [cleaned_order "1001" "Laptop" 1 10 10]).
  vm_compute. reflexivity.
Defined.

Lemma rstrip_last_char (s : string) :
  match last_char (Text.rstrip s) with
  | Some c => Text.is_space c = false
  | None => True
  end.
Proof.
  induction s as [|c s IH]; simpl; [exact I|].
  destruct (Text.rstrip s) as [|c' t] eqn:E.
  - destruct (Text.is_space c) eqn:Ec; simpl; [exact I | exact Ec].
  - simpl. simpl in IH. exact IH.
Qed.

Lemma strip_trimmed (s : string) : trimmed (Text.strip s).
Proof.
  split.
  - apply rstrip_no_leading_space, lstrip_no_leading_space.
  - apply rstrip_last_char.
Qed.

(** X6.  In every row the cleaner returns, product_name, category and
    region begin and end with no blank; and each of these columns that had
    a text in the frame read has a text in every returned row. *)
Theorem clean_output_texts (raw : list Raw.Row) (out : list CleanRow) (r : CleanRow) :
  clean_sales_data raw = Ok out -> In r out ->
  (trimmed_cell (product_name r) /\ trimmed_cell (category r)
   /\ trimmed_cell (region r))
  /\ (has_value (map Raw.product_name raw) -> product_name r <> None)
  /\ (has_value (map Raw.category raw) -> category r <> None)
  /\ (has_value (map Raw.region raw) -> region r <> None).
Proof.
  intros H Hr. split.
  - destruct (clean_row_shape raw out r H Hr) as [r0 [-> _]].
    simpl. unfold trimmed_cell, Text.str_strip.
    repeat split;
      match goal with
      | |- match option_map _ ?a with _ => _ end =>
          destruct a; simpl; [apply strip_trimmed | exact I]
      end.
  - destruct (clean_sales_data_cleaned_frame raw out H) as [Hrows _].
    destruct (Hrows r Hr) as (_ & _ & _ & _ & Kp & Kc & Kr).
    repeat split; intros _; assumption.
Qed.

Lemma clean_output_texts_witness :
  trimmed_cell (product_name (cleaned_order "1001" "Laptop" 1 10 10))
  /\ product_name (cleaned_order "1001" "Laptop" 1 10 10) <> None.
Proof.
  destruct (clean_output_texts [order "1001" "  Laptop " 1 10 10]
                               [cleaned_order "1001" "Laptop" 1 10 10]
                               (cleaned_order "1001" "Laptop" 1 10 10))
    as ((T & _) & P & _).
  - vm_compute. reflexivity.
  - left. reflexivity.
  - split; [exact T|]. apply P. eexists. left. reflexivity.
Defined.

Lemma mapM_Raise {A B : Type} (f : A -> result B) (l : list A) (x : A) (msg : string) :
  In x l -> f x = Raise msg -> exists msg', mapM f l = Raise msg'.
Proof.
  induction l as [|y l IH]; simpl; [contradiction|].
  intros [->|Hx] E.
  - rewrite E. simpl. eauto.
  - destruct (f y); simpl; [|eauto].
    destruct (IH Hx E) as [m' Em]. rewrite Em. simpl. eauto.
Qed.

Lemma mapM_Ok_exists {A B : Type} (f : A -> result B) (l : list A) :
  (forall x, In x l -> exists y, f x = Ok y) -> exists out, mapM f l = Ok out.
Proof.
  induction l as [|x l IH]; simpl; intros H; [eauto|].
  destruct (H x (or_introl eq_refl)) as [y Ey]. rewrite Ey. simpl.
  destruct IH as [ys Eys]; [intros z Hz; apply H; right; exact Hz|].
  rewrite Eys. simpl. eauto.
Qed.

Lemma mode_nonempty {A : Type} (eqb leb : A -> A -> bool) (l : list A) :
  l <> [] -> Pandas.mode eqb leb l <> [].
Proof.
  intros Hl.
  set (cnt := fun x => Pandas.count eqb x l).
  set (top := list_max (map cnt l)).
  set (cand := filter (fun x => Nat.eqb (cnt x) top) l).
  assert (Emode : Pandas.mode eqb leb l = Pandas.sort leb (Pandas.unique eqb cand))
    by reflexivity.
  rewrite Emode.
  assert (Hin : In top (map cnt l)).
  { apply list_max_attained. destruct l; [congruence | discriminate]. }
  apply in_map_iff in Hin. destruct Hin as [x [Ex Hx]].
  assert (Hc : In x cand).
  { apply filter_In. split; [exact Hx | apply Nat.eqb_eq; exact Ex]. }
  destruct cand as [|c cand']; [contradiction|].
  intros E. apply (f_equal (@List.length A)) in E.
  rewrite sort_length in E. discriminate.
Qed.

Lemma all_none_dropna {A : Type} (c : list (option A)) :
  all_none c -> Pandas.dropna c = [].
Proof.
  induction 1 as [|x c Hx _ IH]; simpl; [reflexivity|]. rewrite Hx. exact IH.
Qed.

Lemma fill_cell_none_id {A : Type} (c : list (option A)) :
  map (fill_cell None) c = c.
Proof.
  rewrite <- (map_id c) at 2. apply map_ext. intros [a|]; reflexivity.
Qed.

Lemma fill_mode_date_col (df : list Raw.Row) :
  map Raw.order_date (fill_mode_date df)
  = map (fill_cell (hd_error (Pandas.mode Date.eqb Date.leb
                                (Pandas.dropna (map Raw.order_date df)))))
        (map Raw.order_date df).
Proof.
  unfold fill_mode_date.
  destruct (col_has_null Raw.order_date df) eqn:E.
  - destruct (is_object (map Raw.order_date df)) eqn:Ho.
    + rewrite fillna_get by (intros; reflexivity). apply fill_cell_isnull.
    + apply is_object_false in Ho. destruct Ho as [_ Hn].
      rewrite (all_none_dropna _ Hn). simpl. symmetry. apply fill_cell_none_id.
  - rewrite col_has_null_map in E. symmetry. apply fill_cell_all_some.
    apply no_null_all_some. exact E.
Qed.

Lemma no_null_order_date (df : list Raw.Row) :
  existsb Raw.isnull df = false -> all_some (map Raw.order_date df).
Proof.
  intros H. rewrite existsb_false_forall in H.
  apply all_some_map_iff. intros r Hr E. specialize (H r Hr).
  unfold Raw.isnull in H. rewrite E in H. simpl in H.
  rewrite ?orb_true_r in H. discriminate.
Qed.

Lemma handle_missing_order_date (df : list Raw.Row) :
  map Raw.order_date (handle_missing df)
  = map (fill_cell (hd_error (Pandas.mode Date.eqb Date.leb
                                (Pandas.dropna (map Raw.order_date df)))))
        (map Raw.order_date df).
Proof.
  unfold handle_missing. destruct (existsb Raw.isnull df) eqn:E.
  - peel_fills. rewrite fill_mode_date_col. peel_fills. reflexivity.
  - symmetry. apply fill_cell_all_some, no_null_order_date, E.
Qed.

Lemma fill_cell_some_all_some {A : Type} (x : A) (c : list (option A)) :
  all_some (map (fill_cell (Some x)) c).
Proof.
  unfold all_some. rewrite Forall_map. apply Forall_forall.
  intros a _. destruct a; discriminate.
Qed.

Lemma present_fill_all_some {A : Type} (v : option A) (c : list (option A)) (x : A) :
  In (Some x) c -> (Pandas.dropna c <> [] -> v <> None) ->
  all_some (map (fill_cell v) c).
Proof.
  intros Hx Hv. destruct v as [y|].
  - apply fill_cell_some_all_some.
  - exfalso. apply Hv; [|reflexivity].
    apply dropna_In in Hx. intros E. rewrite E in Hx. exact Hx.
Qed.

(** X7.  When the cleaner returns and when it raises.  On the frame without
    row it returns the frame without row.  On a frame that has rows but no
    quantity it raises: the median of the column is missing, so the cells
    stay missing and have no integer value.  On a frame where quantity,
    order_date, product_name, category and region each have a value in some
    row it returns a frame (dates are taken as read, in a form
    [to_datetime] accepts). *)
Theorem clean_returns_or_raises :
  clean_sales_data [] = Ok []
  /\ (forall df : list Raw.Row,
         df <> [] -> (forall r, In r df -> Raw.quantity r = None) ->
         exists msg, clean_sales_data df = Raise msg)
  /\ (forall df : list Raw.Row,
         has_value (map Raw.quantity df) -> has_value (map Raw.order_date df) ->
         has_value (map Raw.product_name df) -> has_value (map Raw.category df) ->
         has_value (map Raw.region df) ->
         exists out, clean_sales_data df = Ok out).
Proof.
  split; [reflexivity|]. split.
  - intros df Hne Hq.
    assert (Hall : forall r, In r (handle_missing df) -> Raw.quantity r = None).
    { intros r Hr.
      assert (Hin : In (Raw.quantity r) (map Raw.quantity (handle_missing df)))
        by (apply in_map; exact Hr).
      rewrite handle_missing_quantity_col in Hin.
      rewrite median_all_none in Hin.
      - apply in_map_iff in Hin. destruct Hin as [c [Ec Hc]].
        apply in_map_iff in Hc. destruct Hc as [r0 [E0 Hr0]].
        rewrite <- Ec, <- E0, (Hq r0 Hr0). reflexivity.
      - unfold all_none. rewrite Forall_map. apply Forall_forall. exact Hq. }
    assert (Hhead : exists x, In x (Pandas.drop_duplicates Raw.eqb (handle_missing df))).
    { pose proof (handle_missing_length df) as L.
      destruct (handle_missing df) as [|x t]; [destruct df; [congruence | discriminate]|].
      exists x. left. reflexivity. }
    destruct Hhead as [x Hx].
    assert (Hxq : Raw.quantity x = None)
      by (apply Hall; apply drop_duplicates_In in Hx; exact Hx).
    unfold clean_sales_data, convert_types.
    destruct (mapM _ (Pandas.drop_duplicates Raw.eqb (handle_missing df)))
      as [dated|msg] eqn:E1; simpl; [|eauto].
    apply mapM_Ok_Forall2 in E1.
    assert (Hd : exists d, In (x, d) dated).
    { clear -E1 Hx. induction E1 as [|a b l l' Hab _ IH]; [contradiction|].
      destruct Hx as [->|Hx].
      - destruct (to_datetime (Raw.order_date x)) as [d0|]; simpl in Hab; [|discriminate].
        exists d0. left. congruence.
      - destruct (IH Hx) as [d Hd]. exists d. right. exact Hd. }
    destruct Hd as [d Hd].
    destruct (mapM_Raise
                (fun rd : Raw.Row * date =>
                   let (r, d0) := rd in
                   q <- astype_int (Raw.quantity r) ;;
                   Ok (mkRow (Raw.order_id r) (Raw.product_name r)
                             (Raw.category r) q (Raw.unit_price r)
                             (Raw.total_amount r) (Raw.customer_id r) d0
                             (Raw.region r)))
                dated (x, d)
                "Cannot convert non-finite values (NA or inf) to integer" Hd)
      as [msg' Em].
    + rewrite Hxq. reflexivity.
    + rewrite Em. simpl. eauto.
  - intros df [q Hq] [d Hd] [p Hp] [c Hc0] [g Hg].
    assert (Aq : all_some (map Raw.quantity (handle_missing df))).
    { rewrite handle_missing_quantity_col.
      apply (present_fill_all_some _ _ q); [exact Hq | apply median_some]. }
    assert (Ad : all_some (map Raw.order_date (handle_missing df))).
    { rewrite handle_missing_order_date.
      apply (present_fill_all_some _ _ d); [exact Hd|].
      intros Hne E.
      apply (mode_nonempty Date.eqb Date.leb _ Hne).
      destruct (Pandas.mode Date.eqb Date.leb _); [reflexivity | discriminate]. }
    rewrite all_some_map_iff in Aq. rewrite all_some_map_iff in Ad.
    unfold clean_sales_data.
    assert (Hc : exists typed,
               convert_types (Pandas.drop_duplicates Raw.eqb (handle_missing df))
               = Ok typed).
    { unfold convert_types.
      destruct (mapM_Ok_exists
                  (fun r => d0 <- to_datetime (Raw.order_date r) ;; Ok (r, d0))
                  (Pandas.drop_duplicates Raw.eqb (handle_missing df)))
        as [dated E1].
      - intros x Hx. apply drop_duplicates_In in Hx.
        destruct (Raw.order_date x) eqn:E; [simpl; eauto|].
        exfalso. apply (Ad x Hx E).
      - rewrite E1. simpl.
        apply mapM_Ok_exists. intros [x d0] Hx.
        apply mapM_Ok_Forall2 in E1.
        destruct (Forall2_In_right _ _ _ _ E1 Hx) as [x' [Hx' Hf]].
        destruct (to_datetime (Raw.order_date x')); simpl in Hf; [|discriminate].
        inversion Hf; subst x'.
        apply drop_duplicates_In in Hx'.
        destruct (Raw.quantity x) eqn:E; [simpl; eauto|].
        exfalso. apply (Aq x Hx' E). }
    destruct Hc as [typed Hc]. rewrite Hc. unfold str_accessor.
    rewrite (has_value_is_object _ p Hp), (has_value_is_object _ c Hc0),
      (has_value_is_object _ g Hg).
    simpl. eauto.
Qed.

Lemma clean_returns_or_raises_witness :
  exists msg,
    clean_sales_data [Raw.set_quantity None (order "1001" "Laptop" 1 10 10)]
    = Raise msg.
Proof.
  destruct clean_returns_or_raises as (_ & H & _).
  apply H.
  - discriminate.
  - intros r [<-|[]]. reflexivity.
Defined.
(* ================================================================== *)
(** * Further properties of the transformer *)

(** X8.  The calendar columns of an enriched row agree with one another:
    day_of_week is one of the seven day names, is_weekend holds exactly on
    the rows whose day_of_week is Saturday or Sunday, and the quarter is the
    one whose three months hold the month of the order date. *)
Theorem enrich_calendar_columns (r : CleanRow) :
  In (day_of_week (enrich r))
     ["Monday"; "Tuesday"; "Wednesday"; "Thursday"; "Friday"; "Saturday";
      "Sunday"]%string
  /\ (is_weekend (enrich r) = true
      <-> day_of_week (enrich r) = "Saturday"%string
          \/ day_of_week (enrich r) = "Sunday"%string)
  /\ (3 * quarter (enrich r) - 2 <= d_month (order_date r)
      <= 3 * quarter (enrich r))%Z.
Proof.
  change (day_of_week (enrich r)) with (day_name (order_date r)).
  change (is_weekend (enrich r)) with (5 <=? dayofweek (order_date r))%Z.
  change (quarter (enrich r)) with (quarter_of (order_date r)).
  unfold day_name, quarter_of.
  assert (B : (0 <= dayofweek (order_date r) < 7)%Z)
    by (unfold dayofweek; apply Z.mod_pos_bound; lia).
  set (w := dayofweek (order_date r)) in *.
  split; [|split].
  - assert (C : (w = 0 \/ w = 1 \/ w = 2 \/ w = 3 \/ w = 4 \/ w = 5 \/ w = 6)%Z)
      by lia.
    destruct C as [E|[E|[E|[E|[E|[E|E]]]]]]; rewrite E; simpl; tauto.
  - assert (C : (w = 0 \/ w = 1 \/ w = 2 \/ w = 3 \/ w = 4 \/ w = 5 \/ w = 6)%Z)
      by lia.
    destruct C as [E|[E|[E|[E|[E|[E|E]]]]]]; rewrite E; simpl;
      (split; [intros H; try discriminate; auto
              | intros [H|H]; try discriminate; reflexivity]).
  - pose proof (Z.div_mod (d_month (order_date r) - 1) 3 ltac:(lia)) as D.
    pose proof (Z.mod_pos_bound (d_month (order_date r) - 1) 3 ltac:(lia)) as M.
    lia.
Qed.

Section SortDistinct.

Variable A : Type.
Variable leb : A -> A -> bool.
Hypothesis leb_total : forall a b, leb a b = true \/ leb b a = true.
Hypothesis leb_trans : forall a b c, leb a b = true -> leb b c = true -> leb a c = true.

Lemma insert_NoDup (x : A) (l : list A) :
  ~ In x l -> NoDup l -> NoDup (Pandas.insert leb x l).
Proof.
  induction l as [|y l IH]; simpl; intros Hx Hl.
  - constructor; [exact Hx | constructor].
  - destruct (leb x y).
    + constructor; assumption.
    + inversion Hl as [|? ? Hy Hl']; subst. constructor.
      * intros H. apply insert_In in H. destruct H as [->|H]; [|auto].
        apply Hx. left. reflexivity.
      * apply IH; [|exact Hl']. intros H. apply Hx. right. exact H.
Qed.

Lemma sort_NoDup (l : list A) : NoDup l -> NoDup (Pandas.sort leb l).
Proof.
  induction 1 as [|x l Hx _ IH]; simpl; [constructor|].
  apply insert_NoDup; [|exact IH]. intros H. apply sort_In in H. auto.
Qed.

Lemma sorted_NoDup_ascending (l : list A) :
  StronglySorted (fun a b => leb a b = true) l -> NoDup l -> ascending leb l.
Proof.
  unfold ascending. induction 1 as [|x l _ IH Hx]; intros Hn; constructor.
  - apply IH. inversion Hn; assumption.
  - inversion Hn as [|? ? Hnx _]; subst.
    rewrite Forall_forall in *. intros y Hy. split; [auto|].
    intros ->. contradiction.
Qed.

Lemma sort_ascending (l : list A) : NoDup l -> ascending leb (Pandas.sort leb l).
Proof.
  intros H. apply sorted_NoDup_ascending.
  - apply sort_sorted; assumption.
  - apply sort_NoDup, H.
Qed.

End SortDistinct.

Lemma group_keys_ascending {K : Type} (eqb leb : K -> K -> bool)
    (key : CleanRow -> option K) (df : list CleanRow) :
  (forall a b, eqb a b = true <-> a = b) ->
  (forall a b, leb a b = true \/ leb b a = true) ->
  (forall a b c, leb a b = true -> leb b c = true -> leb a c = true) ->
  ascending leb (group_keys eqb leb key df).
Proof.
  intros eqb_eq Htot Htrans. unfold group_keys.
  apply sort_ascending; [assumption | assumption |].
  apply (pairwise_NoDup _ eqb); [intros a; apply eqb_eq; reflexivity|].
  apply drop_duplicates_pairwise.
  intros a b. destruct (eqb a b) eqn:E1, (eqb b a) eqn:E2; try reflexivity.
  - apply eqb_eq in E1. subst. pose proof (proj2 (eqb_eq b b) eq_refl). congruence.
  - apply eqb_eq in E2. subst. pose proof (proj2 (eqb_eq a a) eq_refl). congruence.
Qed.

Lemma groupby_agg_keys {K S : Type} (eqb leb : K -> K -> bool)
    (key : CleanRow -> option K) (agg : K -> list CleanRow -> S) (proj : S -> K)
    (df : list CleanRow) :
  (forall k g, proj (agg k g) = k) ->
  map proj (groupby_agg eqb leb key agg df) = group_keys eqb leb key df.
Proof.
  intros H. unfold groupby_agg. rewrite map_map.
  rewrite <- (map_id (group_keys eqb leb key df)) at 2.
  apply map_ext. intros k. apply H.
Qed.

Lemma pair_leb_total (a b : Z * Z) : pair_leb a b = true \/ pair_leb b a = true.
Proof.
  destruct a as [a1 a2], b as [b1 b2]. unfold pair_leb. simpl.
  rewrite !orb_true_iff, !andb_true_iff, !Z.ltb_lt, !Z.eqb_eq, !Z.leb_le. lia.
Qed.

Lemma pair_leb_trans (a b c : Z * Z) :
  pair_leb a b = true -> pair_leb b c = true -> pair_leb a c = true.
Proof.
  destruct a as [a1 a2], b as [b1 b2], c as [c1 c2]. unfold pair_leb. simpl.
  rewrite !orb_true_iff, !andb_true_iff, !Z.ltb_lt, !Z.eqb_eq, !Z.leb_le. lia.
Qed.


Lemma idxmax_from_In {V : Type} (ltb : V -> V -> bool) (best : string * V)
    (t : list (string * V)) :
  In (idxmax_from ltb best t) (map fst (best :: t)).
Proof.
  revert best. induction t as [|kv t IH]; intros best; simpl.
  - left. reflexivity.
  - destruct (ltb (snd best) (snd kv)).
    + right. apply IH.
    + destruct (IH best) as [H|H]; [left; exact H | right; right; exact H].
Qed.

Lemma idxmax_In {V : Type} (ltb : V -> V -> bool) (s : list (string * V)) (k : string) :
  idxmax ltb s = Ok k -> In k (map fst s).
Proof.
  destruct s as [|kv t]; simpl; [discriminate|].
  intros H. injection H as <-. apply (idxmax_from_In ltb kv t).
Qed.

Lemma idxmax_Ok_iff {V : Type} (ltb : V -> V -> bool) (s : list (string * V)) :
  (exists k, idxmax ltb s = Ok k) <-> s <> [].
Proof.
  destruct s as [|kv t]; simpl; split.
  - intros [k H]. discriminate.
  - congruence.
  - discriminate.
  - eauto.
Qed.

Lemma group_keys_has_value (key : CleanRow -> Text.t) (df : list CleanRow) :
  group_keys String.eqb String.leb key df <> [] <-> has_value (map key df).
Proof.
  split.
  - destruct (group_keys String.eqb String.leb key df) as [|k t] eqn:E; [congruence|].
    intros _. assert (H : In k (group_keys String.eqb String.leb key df))
      by (rewrite E; left; reflexivity).
    apply group_keys_text_In in H. destruct H as [r [Hr Ek]].
    exists k. rewrite <- Ek. apply in_map. exact Hr.
  - intros [k Hk] E. apply in_map_iff in Hk. destruct Hk as [r [Ek Hr]].
    assert (H : In k (group_keys String.eqb String.leb key df))
      by (apply group_keys_text_In; eauto).
    rewrite E in H. exact H.
Qed.

Lemma nunique_group_keys (key : CleanRow -> Text.t) (df : list CleanRow) :
  Pandas.nunique String.eqb (map key df)
  = List.length (group_keys String.eqb String.leb key df).
Proof. unfold Pandas.nunique, group_keys. rewrite sort_length. reflexivity. Qed.

(** X10.  What [transform_sales_data] returns hangs together: the enriched
    frame has the rows of the frame read, in their order and with their
    columns unchanged; total_orders is its number of rows; unique_products,
    unique_categories and unique_customers are the numbers of rows of the
    product, category and customer summaries; and the most popular product,
    the most popular category and the top region each have their row in the
    summary of that name. *)
Theorem transform_report_consistent (df : list CleanRow)
    (enriched : list EnrichedRow) (sums : Summaries) (stats : SummaryStats) :
  transform_sales_data df = Ok (enriched, sums, stats) ->
  map cleaned enriched = df
  /\ ss_total_orders stats = List.length enriched
  /\ ss_unique_products stats = List.length (by_product sums)
  /\ ss_unique_categories stats = List.length (by_category sums)
  /\ ss_unique_customers stats = List.length (by_customer sums)
  /\ In (ss_most_popular_product stats) (map ps_product_name (by_product sums))
  /\ In (ss_most_popular_category stats) (map cs_category (by_category sums))
  /\ In (ss_top_region stats) (map rs_region (by_region sums)).
Proof.
  unfold transform_sales_data, summary_stats.
  destruct (most_popular_product df) as [p|] eqn:Ep; simpl; [|discriminate].
  destruct (most_popular_category df) as [c|] eqn:Ec; simpl; [|discriminate].
  destruct (top_region df) as [g|] eqn:Eg; simpl; [|discriminate].
  intros H. injection H as <- <- <-. simpl.
  split; [|split; [|split; [|split; [|split; [|split; [|split]]]]]].
  - rewrite map_map. simpl. apply map_id.
  - rewrite length_map. reflexivity.
  - unfold product_summary, groupby_agg. rewrite length_map.
    apply (nunique_group_keys (fun r => product_name r)).
  - unfold category_summary, groupby_agg. rewrite length_map.
    apply (nunique_group_keys (fun r => category r)).
  - unfold customer_summary, groupby_agg. rewrite length_map.
    apply (nunique_group_keys (fun r => customer_id r)).
  - apply idxmax_In in Ep. unfold quantity_by in Ep.
    rewrite groupby_agg_keys in Ep by reflexivity.
    unfold product_summary. rewrite groupby_agg_keys by reflexivity. exact Ep.
  - apply idxmax_In in Ec. unfold quantity_by in Ec.
    rewrite groupby_agg_keys in Ec by reflexivity.
    unfold category_summary. rewrite groupby_agg_keys by reflexivity. exact Ec.
  - apply idxmax_In in Eg. unfold revenue_by in Eg.
    rewrite groupby_agg_keys in Eg by reflexivity.
    unfold region_summary. rewrite groupby_agg_keys by reflexivity. exact Eg.
Qed.

Lemma transform_report_consistent_witness :
  exists enriched sums stats,
    transform_sales_data [cleaned_order "1" "A" 1 100 100;
                          cleaned_order "2" "B" 2 100 200]
    = Ok (enriched, sums, stats)
    /\ ss_unique_products stats = List.length (by_product sums)
    /\ In (ss_most_popular_product stats) (map ps_product_name (by_product sums)).
Proof.
  destruct (transform_sales_data [cleaned_order "1" "A" 1 100 100;
                                  cleaned_order "2" "B" 2 100 200])
    as [[[enriched sums] stats]|msg] eqn:E; [|vm_compute in E; discriminate].
  exists enriched, sums, stats. split; [reflexivity|].
  destruct (transform_report_consistent _ enriched sums stats E)
    as (_ & _ & Hp & _ & _ & Hm & _).
  split; assumption.
Defined.

(** X11.  [transform_sales_data] returns exactly when the frame has a
    product_name, a category and a region in some row; otherwise it raises
    (an empty grouping has no winner), so it raises on the frame without
    row. *)
Theorem transform_returns_iff (df : list CleanRow) :
  ((exists out, transform_sales_data df = Ok out)
   <-> has_value (col product_name df) /\ has_value (col category df)
       /\ has_value (col region df))
  /\ ((exists msg, transform_sales_data df = Raise msg)
      <-> ~ (has_value (col product_name df) /\ has_value (col category df)
             /\ has_value (col region df)))
  /\ exists msg, transform_sales_data [] = Raise msg.
Proof.
  assert (Kp : (exists k, most_popular_product df = Ok k)
               <-> has_value (col product_name df)).
  { unfold most_popular_product. rewrite idxmax_Ok_iff.
    rewrite <- (group_keys_has_value (fun r => product_name r) df).
    rewrite <- (groupby_agg_keys String.eqb String.leb (fun r => product_name r)
                  (fun k g => (k, Pandas.sum_int (col quantity g))) fst df)
      by reflexivity.
    unfold quantity_by.
    destruct (groupby_agg _ _ _ _ df); simpl; split; congruence. }
  assert (Kc : (exists k, most_popular_category df = Ok k)
               <-> has_value (col category df)).
  { unfold most_popular_category. rewrite idxmax_Ok_iff.
    rewrite <- (group_keys_has_value (fun r => category r) df).
    rewrite <- (groupby_agg_keys String.eqb String.leb (fun r => category r)
                  (fun k g => (k, Pandas.sum_int (col quantity g))) fst df)
      by reflexivity.
    unfold quantity_by.
    destruct (groupby_agg _ _ _ _ df); simpl; split; congruence. }
  assert (Kr : (exists k, top_region df = Ok k) <-> has_value (col region df)).
  { unfold top_region. rewrite idxmax_Ok_iff.
    rewrite <- (group_keys_has_value (fun r => region r) df).
    rewrite <- (groupby_agg_keys String.eqb String.leb (fun r => region r)
                  (fun k g => (k, Pandas.sum (col total_amount g))) fst df)
      by reflexivity.
    unfold revenue_by.
    destruct (groupby_agg _ _ _ _ df); simpl; split; congruence. }
  assert (Main : (exists out, transform_sales_data df = Ok out)
                 <-> has_value (col product_name df) /\ has_value (col category df)
                     /\ has_value (col region df)).
  { rewrite <- Kp, <- Kc, <- Kr. unfold transform_sales_data, summary_stats.
    destruct (most_popular_product df) as [p|]; simpl.
    + destruct (most_popular_category df) as [c|]; simpl.
      * destruct (top_region df) as [g|]; simpl.
        -- split; [intros _; repeat split; eauto | intros _; eauto].
        -- split; [intros [out H]; discriminate|].
           intros (_ & _ & [k H]). discriminate.
      * split; [intros [out H]; discriminate|].
        intros (_ & [k H] & _). discriminate.
    + split; [intros [out H]; discriminate|].
      intros ([k H] & _). discriminate. }
  split; [exact Main|]. split; [|eexists; reflexivity].
  rewrite <- Main. destruct (transform_sales_data df) as [out|msg]; split.
  - intros [msg H]. discriminate.
  - intros H. exfalso. apply H. eauto.
  - intros _ [out H]. discriminate.
  - eauto.
Qed.

Lemma transform_returns_iff_witness :
  exists out, transform_sales_data [cleaned_order "1" "A" 1 100 100] = Ok out.
Proof.
  apply (proj2 (proj1 (transform_returns_iff [cleaned_order "1" "A" 1 100 100]))).
  repeat split; eexists; left; reflexivity.
Defined.

(* ================================================================== *)
(** * The groups of a [groupby] partition the rows that have a key *)

Section Partition.

Variable M : Type.
Variable add : M -> M -> M.
Variable zero : M.
Hypothesis add_comm : forall a b, add a b = add b a.
Hypothesis add_assoc : forall a b c, add a (add b c) = add (add a b) c.
Hypothesis add_zero_l : forall a, add zero a = a.

Variable m : CleanRow -> M.

Lemma filter_split_total (p q : CleanRow -> bool) (l : list CleanRow) :
  (forall r, p r = true -> q r = false) ->
  fold_right add zero (map m (filter (fun r => p r || q r) l))
  = add (fold_right add zero (map m (filter p l)))
        (fold_right add zero (map m (filter q l))).
Proof.
  intros D. induction l as [|r l IH]; simpl.
  - symmetry. apply add_zero_l.
  - destruct (p r) eqn:Ep; simpl.
    + rewrite (D r Ep). simpl. rewrite IH. apply add_assoc.
    + destruct (q r) eqn:Eq; simpl; [|exact IH].
      rewrite IH, add_assoc, add_assoc. f_equal. apply add_comm.
Qed.

Variable K : Type.
Variable eqb : K -> K -> bool.
Variable leb : K -> K -> bool.
Hypothesis eqb_eq : forall a b, eqb a b = true <-> a = b.
Variable key : CleanRow -> option K.

Lemma groups_total (ks : list K) (df : list CleanRow) :
  NoDup ks ->
  fold_right add zero
    (map (fun k => fold_right add zero (map m (group eqb key df k))) ks)
  = fold_right add zero
      (map m (filter (fun r => match key r with
                               | Some k' => existsb (fun k => eqb k k') ks
                               | None => false
                               end) df)).
Proof.
  induction 1 as [|k ks Hk _ IH]; simpl.
  - assert (E : filter (fun r => match key r with Some _ => false | None => false end) df
                = []).
    { induction df as [|r df IHd]; simpl; [reflexivity|].
      destruct (key r); exact IHd. }
    rewrite E. reflexivity.
  - rewrite IH. unfold group. rewrite <- filter_split_total.
    + f_equal. f_equal. apply filter_ext. intros r. unfold in_group.
      destruct (key r); reflexivity.
    + intros r. unfold in_group. destruct (key r) as [k'|]; [|discriminate].
      intros E. apply eqb_eq in E. subst k'.
      destruct (existsb (fun k0 => eqb k0 k) ks) eqn:Ex; [|reflexivity].
      apply existsb_exists in Ex. destruct Ex as [k0 [H0 E0]].
      apply eqb_eq in E0. subst k0. contradiction.
Qed.

Lemma groupby_partition {S : Type} (agg : K -> list CleanRow -> S) (proj : S -> M)
    (df : list CleanRow) :
  (forall k g, proj (agg k g) = fold_right add zero (map m g)) ->
  fold_right add zero (map proj (groupby_agg eqb leb key agg df))
  = fold_right add zero (map m (with_key key df)).
Proof.
  intros Hp. unfold groupby_agg. rewrite map_map.
  rewrite (map_ext _ (fun k => fold_right add zero (map m (group eqb key df k))))
    by (intros k; apply Hp).
  rewrite groups_total.
  - unfold with_key. f_equal. f_equal. apply filter_ext_in. intros r Hr.
    destruct (key r) as [k'|] eqn:Ek; [|reflexivity]. simpl.
    apply existsb_exists. exists k'. split; [|apply eqb_eq; reflexivity].
    apply (group_keys_In eqb leb key df k' eqb_eq). eauto.
  - unfold group_keys. apply sort_NoDup.
    apply (pairwise_NoDup _ eqb); [intros a; apply eqb_eq; reflexivity|].
    apply drop_duplicates_pairwise.
    intros a b. destruct (eqb a b) eqn:E1, (eqb b a) eqn:E2; try reflexivity.
    + apply eqb_eq in E1. subst. pose proof (proj2 (eqb_eq b b) eq_refl). congruence.
    + apply eqb_eq in E2. subst. pose proof (proj2 (eqb_eq a a) eq_refl). congruence.
Qed.

End Partition.

Lemma count_notnull_total {A : Type} (f : CleanRow -> option A) (g : list CleanRow) :
  Pandas.count_notnull (map f g)
  = fold_right Nat.add 0%nat
      (map (fun r => if Float.isnull (f r) then 0%nat else 1%nat) g).
Proof.
  unfold Pandas.count_notnull.
  induction g as [|r g IH]; simpl; [reflexivity|].
  destruct (f r); simpl; rewrite IH; reflexivity.
Qed.

Lemma quantity_partition {K S : Type} (eqb leb : K -> K -> bool)
    (key : CleanRow -> option K) (agg : K -> list CleanRow -> S) (proj : S -> Z)
    (df : list CleanRow) :
  (forall a b, eqb a b = true <-> a = b) ->
  (forall k g, proj (agg k g) = Pandas.sum_int (col quantity g)) ->
  Pandas.sum_int (map proj (groupby_agg eqb leb key agg df))
  = Pandas.sum_int (col quantity (with_key key df)).
Proof.
  intros eqb_eq Hp.
  apply (groupby_partition Z Z.add 0%Z Z.add_comm Z.add_assoc Z.add_0_l
           (fun r : CleanRow => quantity r) K eqb leb eqb_eq key agg proj df Hp).
Qed.

Lemma orders_partition {K S : Type} (eqb leb : K -> K -> bool)
    (key : CleanRow -> option K) (agg : K -> list CleanRow -> S) (proj : S -> nat)
    (df : list CleanRow) :
  (forall a b, eqb a b = true <-> a = b) ->
  (forall k g, proj (agg k g) = Pandas.count_notnull (col order_id g)) ->
  list_sum (map proj (groupby_agg eqb leb key agg df))
  = Pandas.count_notnull (col order_id (with_key key df)).
Proof.
  intros eqb_eq Hp. unfold col. rewrite count_notnull_total.
  apply (groupby_partition nat Nat.add 0%nat Nat.add_comm Nat.add_assoc Nat.add_0_l
           (fun r : CleanRow => if Float.isnull (order_id r) then 0%nat else 1%nat)
           K eqb leb eqb_eq key agg proj df).
  intros k g. rewrite Hp. apply count_notnull_total.
Qed.

Lemma with_key_all {K : Type} (key : CleanRow -> option K) (df : list CleanRow) :
  (forall r, In r df -> key r <> None) -> with_key key df = df.
Proof.
  intros H. unfold with_key. induction df as [|r df IH]; simpl; [reflexivity|].
  destruct (key r) eqn:E; simpl.
  - f_equal. apply IH. intros r' Hr'. apply H. right. exact Hr'.
  - exfalso. apply (H r); [left; reflexivity | exact E].
Qed.

(** X12.  The groups of a summary partition the rows that have the key: the
    quantities of the rows of a summary add up to the quantity of those
    rows, and the order counts to the number of them that have an order_id;
    nothing is counted twice and nothing is left out.  Every row has a
    month, so the monthly figures add up to the figures of the whole frame;
    so do the figures by product when every row has a product_name. *)
Theorem summaries_partition_frame (df : list CleanRow) :
  (Pandas.sum_int (map ps_total_quantity_sold (product_summary df))
   = Pandas.sum_int (col quantity (with_key (fun r => product_name r) df))
   /\ list_sum (map ps_order_count (product_summary df))
      = Pandas.count_notnull (col order_id (with_key (fun r => product_name r) df)))
  /\ (Pandas.sum_int (map cs_total_quantity_sold (category_summary df))
      = Pandas.sum_int (col quantity (with_key (fun r => category r) df))
      /\ list_sum (map cs_order_count (category_summary df))
         = Pandas.count_notnull (col order_id (with_key (fun r => category r) df)))
  /\ (Pandas.sum_int (map rs_total_quantity (region_summary df))
      = Pandas.sum_int (col quantity (with_key (fun r => region r) df))
      /\ list_sum (map rs_total_orders (region_summary df))
         = Pandas.count_notnull (col order_id (with_key (fun r => region r) df)))
  /\ (Pandas.sum_int (map cu_total_quantity (customer_summary df))
      = Pandas.sum_int (col quantity (with_key (fun r => customer_id r) df))
      /\ list_sum (map cu_total_orders (customer_summary df))
         = Pandas.count_notnull (col order_id (with_key (fun r => customer_id r) df)))
  /\ (Pandas.sum_int (map ms_monthly_quantity (monthly_sales df))
      = Pandas.sum_int (col quantity df)
      /\ list_sum (map ms_monthly_orders (monthly_sales df))
         = Pandas.count_notnull (col order_id df))
  /\ ((forall r : CleanRow, In r df -> product_name r <> None) ->
      Pandas.sum_int (map ps_total_quantity_sold (product_summary df))
      = Pandas.sum_int (col quantity df)
      /\ list_sum (map ps_order_count (product_summary df))
         = Pandas.count_notnull (col order_id df)).
Proof.
  assert (P : Pandas.sum_int (map ps_total_quantity_sold (product_summary df))
              = Pandas.sum_int (col quantity (with_key (fun r => product_name r) df))
              /\ list_sum (map ps_order_count (product_summary df))
                 = Pandas.count_notnull
                     (col order_id (with_key (fun r => product_name r) df))).
  { split.
    - apply quantity_partition; [apply String.eqb_eq | reflexivity].
    - apply orders_partition; [apply String.eqb_eq | reflexivity]. }
  split; [exact P|]. split; [|split; [|split; [|split]]].
  - split.
    + apply quantity_partition; [apply String.eqb_eq | reflexivity].
    + apply orders_partition; [apply String.eqb_eq | reflexivity].
  - split.
    + apply quantity_partition; [apply String.eqb_eq | reflexivity].
    + apply orders_partition; [apply String.eqb_eq | reflexivity].
  - split.
    + apply quantity_partition; [apply String.eqb_eq | reflexivity].
    + apply orders_partition; [apply String.eqb_eq | reflexivity].
  - rewrite <- (with_key_all (fun r => Some (year r, month r)) df) at 2 4
      by (intros; discriminate).
    split.
    + apply quantity_partition; [apply pair_eqb_eq | reflexivity].
    + apply orders_partition; [apply pair_eqb_eq | reflexivity].
  - intros H. rewrite <- (with_key_all (fun r => product_name r) df H) at 2 4.
    exact P.
Qed.

Lemma summaries_partition_frame_witness :
  Pandas.sum_int
    (map ps_total_quantity_sold
         (product_summary [cleaned_order "1" "A" 1 100 100;
                           cleaned_order "2" "B" 2 100 200;
                           cleaned_order "3" "A" 4 100 400]))
  = 7%Z.
Proof.
  destruct (summaries_partition_frame [cleaned_order "1" "A" 1 100 100;
                                       cleaned_order "2" "B" 2 100 200;
                                       cleaned_order "3" "A" 4 100 400])
    as (_ & _ & _ & _ & _ & H).
  destruct H as [H _].
  - intros r [<-|[<-|[<-|[]]]]; discriminate.
  - rewrite H. reflexivity.
Defined.

(** X13.  In the product summary of a frame whose rows all have an
    order_id, order_count is the number of rows of the product, and
    avg_order_value is a number that differs from the mean total_amount of
    these rows (missing amounts counted as 0) by one cent at most: the
    revenue is rounded to cents before the division and the quotient
    after it. *)
Theorem avg_order_value_accuracy (df : list CleanRow) (s : ProductSummary) :
  (forall r : CleanRow, In r df -> order_id r <> None) ->
  In s (product_summary df) ->
  let g := filter (fun r : CleanRow =>
                     Text.eqb (product_name r) (Some (ps_product_name s))) df in
  ps_order_count s = List.length g
  /\ (1 <= ps_order_count s)%nat
  /\ exists a,
       ps_avg_order_value s = Some a
       /\ (Qabs (a - Pandas.sum (col total_amount g)
                     / inject_Z (Z.of_nat (List.length g))) <= 1 # 100)%Q.
Proof.
  intros Hid Hs.
  apply text_summary_row in Hs. destruct Hs as (k & Hne & ->).
  cbn [ps_product_name ps_order_count ps_avg_order_value]. cbv zeta.
  set (g := filter (fun r : CleanRow => Text.eqb (product_name r) (Some k)) df) in *.
  assert (Hc : Pandas.count_notnull (col order_id g) = List.length g).
  { unfold Pandas.count_notnull, col.
    assert (Hg : forall r : CleanRow, In r g -> order_id r <> None).
    { intros r Hr. apply Hid. apply filter_In in Hr. tauto. }
    clear -Hg. induction g as [|r g IH]; simpl; [reflexivity|].
    destruct (order_id r) eqn:E.
    - simpl. f_equal. apply IH. intros r' Hr'. apply Hg. right. exact Hr'.
    - exfalso. apply (Hg r); [left; reflexivity | exact E]. }
  rewrite Hc.
  destruct (List.length g) as [|n] eqn:En.
  { destruct g; [congruence | discriminate]. }
  split; [reflexivity|]. split; [lia|].
  eexists. split; [reflexivity|].
  set (S0 := Pandas.sum (col total_amount g)).
  set (nq := inject_Z (Z.of_nat (S n))).
  assert (Hn : (1 <= nq)%Q).
  { unfold nq. change 1%Q with (inject_Z 1). rewrite <- Zle_Qle. lia. }
  pose proof (round2_error S0) as E1.
  pose proof (round2_error (round2 S0 / nq)) as E2.
  apply (proj1 (Qabs_Qle_condition _ _)) in E1.
  apply (proj1 (Qabs_Qle_condition _ _)) in E2.
  apply (proj2 (Qabs_Qle_condition _ _)).
  assert (D : (round2 S0 / nq - S0 / nq == (round2 S0 - S0) / nq)%Q)
    by (field; lra).
  assert (B : (- (1 # 200) <= (round2 S0 - S0) / nq <= 1 # 200)%Q).
  { split.
    - apply Qle_shift_div_l; [lra|]. lra.
    - apply Qle_shift_div_r; [lra|]. lra. }
  rewrite <- D in B.
  set (x := (round2 S0 / nq)%Q) in *.
  set (y := (S0 / nq)%Q) in *.
  set (z := round2 x) in *.
  lra.
Qed.

Lemma avg_order_value_accuracy_witness :
  Forall (fun s => (1 <= ps_order_count s)%nat
                   /\ exists a, ps_avg_order_value s = Some a)
         (product_summary [cleaned_order "1" "A" 1 100 100;
                           cleaned_order "2" "A" 1 200 200]).
Proof.
  apply Forall_forall. intros s Hs.
  destruct (avg_order_value_accuracy
              [cleaned_order "1" "A" 1 100 100; cleaned_order "2" "A" 1 200 200] s)
    as (_ & H1 & a & Ha & _).
  - intros r [<-|[<-|[]]]; discriminate.
  - exact Hs.
  - split; [exact H1 | exists a; exact Ha].
Defined.

(* ================================================================== *)
(** * Further properties of the query service *)

Section SortTotal.

Variable M : Type.
Variable add : M -> M -> M.
Variable zero : M.
Hypothesis add_comm : forall a b, add a b = add b a.
Hypothesis add_assoc : forall a b c, add a (add b c) = add (add a b) c.

Variable S : Type.
Variable before : S -> S -> bool.
Variable m : S -> M.

Lemma insert_total (x : S) (l : list S) :
  fold_right add zero (map m (Pandas.insert before x l))
  = add (m x) (fold_right add zero (map m l)).
Proof.
  induction l as [|y l IH]; simpl; [reflexivity|].
  destruct (before x y); simpl; [reflexivity|].
  rewrite IH, !add_assoc. f_equal. apply add_comm.
Qed.

Lemma sort_total (l : list S) :
  fold_right add zero (map m (Pandas.sort before l))
  = fold_right add zero (map m l).
Proof.
  induction l as [|x l IH]; simpl; [reflexivity|].
  rewrite insert_total, IH. reflexivity.
Qed.

End SortTotal.

Lemma In_firstn {A : Type} (n : nat) (l : list A) (y : A) :
  In y (firstn n l) -> In y l.
Proof.
  revert l. induction n as [|n IH]; intros [|x l]; simpl; try contradiction.
  intros [H|H]; [left; exact H | right; apply IH; exact H].
Qed.

Lemma StronglySorted_firstn {A : Type} (R : A -> A -> Prop) (n : nat) (l : list A) :
  StronglySorted R l -> StronglySorted R (firstn n l).
Proof.
  revert l. induction n as [|n IH]; intros l H; simpl; [constructor|].
  destruct l as [|x l]; [constructor|].
  apply StronglySorted_inv in H. destruct H as [Hs Hx].
  constructor; [apply IH; exact Hs|].
  rewrite Forall_forall in *. intros y Hy. apply Hx.
  apply (In_firstn n). exact Hy.
Qed.

Lemma sorted_desc {S : Type} (f : S -> Float.t) (l : list S) :
  StronglySorted (fun a b => Sql.desc (f a) (f b) = true)
                 (Sql.order_by (fun a b => Sql.desc (f a) (f b)) l).
Proof.
  unfold Sql.order_by.
  apply (sort_sorted _ (fun a b => Sql.desc (f a) (f b))).
  - intros a b. apply desc_total.
  - intros a b c. apply desc_trans.
Qed.

Lemma limit_length {S : Type} (n : Z) (l : list S) :
  (0 <= n)%Z -> (List.length (Sql.limit n l) <= Z.to_nat n)%nat.
Proof.
  intros H. unfold Sql.limit.
  assert (E : (n <? 0)%Z = false) by (apply Z.ltb_ge; lia).
  rewrite E. apply firstn_le_length.
Qed.

(** X14.  The rollups come in the order their queries ask for, whatever
    the state of the store: categories and regions by revenue, customers by
    the amount spent, the greatest first and a missing sum last; months in
    strictly ascending order of year and month.  The customer rollup holds
    ten rows at most. *)
Theorem rollups_ordered (db : store) :
  StronglySorted
    (fun a b => Sql.desc (DataService.c_category_revenue a)
                         (DataService.c_category_revenue b) = true)
    (DataService.get_category_data db)
  /\ StronglySorted
       (fun a b => Sql.desc (DataService.r_region_revenue a)
                            (DataService.r_region_revenue b) = true)
       (DataService.get_region_data db)
  /\ StronglySorted
       (fun a b => Sql.desc (DataService.k_total_spent a)
                            (DataService.k_total_spent b) = true)
       (DataService.get_customer_analysis db)
  /\ (List.length (DataService.get_customer_analysis db) <= 10)%nat
  /\ ascending pair_leb
       (map DataService.m_month_year (DataService.get_monthly_data db)).
Proof.
  unfold DataService.get_category_data, DataService.get_region_data,
    DataService.get_customer_analysis, DataService.get_monthly_data.
  destruct (read_sales_data db) as [rows|msg]; simpl.
  - split; [apply (sorted_desc DataService.c_category_revenue)|].
    split; [apply (sorted_desc DataService.r_region_revenue)|].
    split; [|split].
    + apply (StronglySorted_firstn _ 10).
      apply (sorted_desc DataService.k_total_spent).
    + apply (limit_length 10%Z). lia.
    + rewrite groupby_agg_keys by reflexivity.
      apply group_keys_ascending;
        [apply pair_eqb_eq | apply pair_leb_total | apply pair_leb_trans].
  - repeat split; try constructor. lia.
Qed.

Lemma length_total {A : Type} (g : list A) :
  List.length g = fold_right Nat.add 0%nat (map (fun _ => 1%nat) g).
Proof. induction g as [|x g IH]; simpl; [reflexivity | rewrite IH; reflexivity]. Qed.

Lemma sql_group_orders {S : Type} (key : CleanRow -> Text.t)
    (agg : Text.t -> list CleanRow -> S) (proj : S -> nat) (rows : list CleanRow) :
  (forall k g, proj (agg k g) = List.length g) ->
  list_sum (map proj (Sql.group_by key agg rows)) = List.length rows.
Proof.
  intros Hp. unfold Sql.group_by, list_sum.
  rewrite (groupby_partition nat Nat.add 0%nat Nat.add_comm Nat.add_assoc Nat.add_0_l
             (fun _ : CleanRow => 1%nat) Text.t Text.eqb Sql.key_leb text_eqb_eq
             (fun r => Some (key r)) agg proj rows)
    by (intros k g; rewrite Hp; apply length_total).
  rewrite with_key_all by (intros; discriminate).
  symmetry. apply length_total.
Qed.

Lemma sql_group_quantity {S : Type} (key : CleanRow -> Text.t)
    (agg : Text.t -> list CleanRow -> S) (proj : S -> Z) (rows : list CleanRow) :
  (forall k g, proj (agg k g) = Pandas.sum_int (col quantity g)) ->
  Pandas.sum_int (map proj (Sql.group_by key agg rows))
  = Pandas.sum_int (col quantity rows).
Proof.
  intros Hp. unfold Sql.group_by.
  rewrite (quantity_partition Text.eqb Sql.key_leb (fun r => Some (key r)) agg proj
             rows text_eqb_eq Hp).
  rewrite with_key_all by (intros; discriminate). reflexivity.
Qed.

(** X15.  The rollups over a loaded table leave no order out and count
    none twice: the order counts of the category rollup add up to the
    number of rows of the table, and so do those of the region rollup and
    of the monthly rollup; their quantities add up to the quantity of the
    table.  A row without category or region is counted in the group of the
    missing value. *)
Theorem rollups_cover_table (rows : list EnrichedRow) :
  (list_sum (map DataService.c_category_orders
                 (DataService.get_category_data (Table rows)))
   = List.length rows
   /\ Pandas.sum_int (map DataService.c_category_quantity
                          (DataService.get_category_data (Table rows)))
      = Pandas.sum_int (col quantity (map cleaned rows)))
  /\ (list_sum (map DataService.r_region_orders
                    (DataService.get_region_data (Table rows)))
      = List.length rows
      /\ Pandas.sum_int (map DataService.r_region_quantity
                             (DataService.get_region_data (Table rows)))
         = Pandas.sum_int (col quantity (map cleaned rows)))
  /\ (list_sum (map DataService.m_monthly_orders
                    (DataService.get_monthly_data (Table rows)))
      = List.length rows
      /\ Pandas.sum_int (map DataService.m_monthly_quantity
                             (DataService.get_monthly_data (Table rows)))
         = Pandas.sum_int (col quantity (map cleaned rows))).
Proof.
  unfold DataService.get_category_data, DataService.get_region_data,
    DataService.get_monthly_data. simpl.
  rewrite <- (length_map cleaned rows).
  split; [|split].
  - unfold Sql.order_by, list_sum, Pandas.sum_int. split.
    + rewrite (sort_total nat Nat.add 0%nat Nat.add_comm Nat.add_assoc).
      apply (sql_group_orders (fun r => category r)). reflexivity.
    + rewrite (sort_total Z Z.add 0%Z Z.add_comm Z.add_assoc).
      apply (sql_group_quantity (fun r => category r)). reflexivity.
  - unfold Sql.order_by, list_sum, Pandas.sum_int. split.
    + rewrite (sort_total nat Nat.add 0%nat Nat.add_comm Nat.add_assoc).
      apply (sql_group_orders (fun r => region r)). reflexivity.
    + rewrite (sort_total Z Z.add 0%Z Z.add_comm Z.add_assoc).
      apply (sql_group_quantity (fun r => region r)). reflexivity.
  - split.
    + unfold list_sum.
      rewrite (groupby_partition nat Nat.add 0%nat Nat.add_comm Nat.add_assoc
                 Nat.add_0_l (fun _ : CleanRow => 1%nat) (Z * Z)%type pair_eqb
                 pair_leb pair_eqb_eq (fun r => Some (year r, month r)))
        by (intros k g; apply length_total).
      rewrite with_key_all by (intros; discriminate).
      symmetry. apply length_total.
    + rewrite (quantity_partition pair_eqb pair_leb
                 (fun r => Some (year r, month r)) _ _ _ pair_eqb_eq)
        by reflexivity.
      rewrite with_key_all by (intros; discriminate). reflexivity.
Qed.

Lemma sql_sum_Some_iff (c : list Float.t) :
  (exists q, Sql.sum c = Some q) <-> has_value c.
Proof.
  unfold Sql.sum, has_value. split.
  - destruct (Pandas.dropna c) as [|x t] eqn:E; [intros [q H]; discriminate|].
    intros _. exists x. apply dropna_In. rewrite E. left. reflexivity.
  - intros [a Ha]. apply dropna_In in Ha.
    destruct (Pandas.dropna c); [contradiction | eauto].
Qed.

(** X16.  The overall statistics are the empty answer exactly when the
    store is not a readable table or the table has no total_amount (so on
    the table without row): then the endpoint sends no zero figures but an
    empty object.  Otherwise total_orders is the number of rows of the
    table and avg_order_value times the number of amounts present is
    total_revenue. *)
Theorem overall_stats_answer (db : store) :
  (DataService.get_overall_stats db <> None
   <-> exists rows, db = Table rows
                    /\ has_value (col total_amount (map cleaned rows)))
  /\ (forall stats,
         DataService.get_overall_stats db = Some stats ->
         exists rows,
           db = Table rows
           /\ DataService.total_orders stats = List.length rows
           /\ DataService.total_quantity stats
              = Pandas.sum_int (col quantity (map cleaned rows))
           /\ (DataService.avg_order_value stats
               * inject_Z (Z.of_nat (Pandas.count_notnull
                                       (col total_amount (map cleaned rows))))
               == DataService.total_revenue stats)%Q)
  /\ DataService.get_overall_stats (Table []) = None.
Proof.
  split; [|split; [|reflexivity]].
  - destruct db as [msg| |rows]; simpl.
    + split; [intros H; exfalso; apply H; reflexivity
             | intros [rows [H _]]; discriminate].
    + split; [intros H; exfalso; apply H; reflexivity
             | intros [rows [H _]]; discriminate].
    + unfold DataService.get_overall_stats. simpl.
      set (c := col total_amount (map cleaned rows)).
      split.
      * intros H. exists rows. split; [reflexivity|].
        apply (proj1 (sql_sum_Some_iff c)).
        destruct (Sql.sum c) as [q|]; [exists q; reflexivity|].
        exfalso. apply H. reflexivity.
      * intros [rows' [E Hv]]. injection E as <-.
        fold c in Hv.
        destruct (proj2 (sql_sum_Some_iff c) Hv) as [q Hq]. rewrite Hq. simpl.
        destruct Hv as [a Ha]. apply dropna_In in Ha.
        assert (Hr : map cleaned rows <> []).
        { intros E. unfold c in Ha. rewrite E in Ha. exact Ha. }
        unfold Sql.sum_int, col.
        destruct (map cleaned rows) as [|r0 t] eqn:Er; [congruence|].
        simpl map. cbv iota. simpl py_int. cbv beta iota. unfold bind at 1.
        unfold Sql.avg, Pandas.mean, Pandas.count_notnull.
        fold (col total_amount (r0 :: t)). rewrite <- Er. fold c.
        destruct (Pandas.dropna c); [contradiction|]. simpl. discriminate.
  - intros stats. destruct db as [msg| |rows]; simpl; try discriminate.
    unfold DataService.get_overall_stats. simpl.
    set (c := col total_amount (map cleaned rows)).
    destruct (Sql.sum c) as [q|] eqn:Eq; simpl; [|discriminate].
    destruct (Sql.sum_int (col quantity (map cleaned rows))) as [z|] eqn:Ez;
      simpl; [|discriminate].
    destruct (Sql.avg c) as [a|] eqn:Ea; simpl; [|discriminate].
    intros H. injection H as <-. exists rows. simpl.
    split; [reflexivity|]. split; [apply length_map|]. split.
    + unfold Sql.sum_int in Ez.
      destruct (col quantity (map cleaned rows)); [discriminate|].
      injection Ez as <-. reflexivity.
    + unfold Sql.avg, Pandas.mean in Ea. unfold Sql.sum in Eq.
      unfold Pandas.count_notnull in *.
      destruct (Pandas.dropna c) as [|x t] eqn:Ed; [discriminate|].
      injection Eq as <-. simpl in Ea. injection Ea as <-.
      fold c. rewrite Ed.
      change (Z.pos (Pos.of_succ_nat (List.length t)))
        with (Z.of_nat (List.length (x :: t))).
      set (nq := inject_Z (Z.of_nat (List.length (x :: t)))).
      assert (Hn : ~ (nq == 0)%Q).
      { unfold nq. change 0%Q with (inject_Z 0). rewrite inject_Z_injective.
        simpl. lia. }
      field. exact Hn.
Qed.

Lemma overall_stats_answer_witness :
  exists o,
    DataService.get_overall_stats
      (Table [enrich (cleaned_order "1" "A" 1 100 100)]) = Some o
    /\ DataService.total_orders o = 1%nat.
Proof.
  destruct (DataService.get_overall_stats
              (Table [enrich (cleaned_order "1" "A" 1 100 100)]))
    as [o|] eqn:E; [|vm_compute in E; discriminate].
  exists o. split; [reflexivity|].
  destruct (proj1 (proj2 (overall_stats_answer
                            (Table [enrich (cleaned_order "1" "A" 1 100 100)]))) o E)
    as (rows & Er & Ht & _).
  injection Er as <-. exact Ht.
Defined.

(* ================================================================== *)
(** * The pipeline *)


Lemma cleaned_enrich (df : list CleanRow) : map cleaned (map enrich df) = df.
Proof.
  rewrite map_map. rewrite <- (map_id df) at 2. apply map_ext. reflexivity.
Qed.



(** X17.  A run of the pipeline never completes.  Whatever [sales.csv]
    holds and whatever the loader and the analysis would do, [run_pipeline]
    raises, stores the status failed with the message under the key
    pipeline, and [main] returns [None].  The phase that raised has stored
    the same message, the phases after it have stored nothing, and the
    analysis is never started: when extraction and transformation succeed
    it is the load phase that fails, [load_all_data] being declared without
    parameter and called with the name of a file. *)
Theorem pipeline_never_completes (input_file : FDEPipeline.source)
    (LoadResults AnalysisResults : Type)
    (load_all_data_body : result LoadResults)
    (run_complete_analysis_body : result AnalysisResults) :
  FDEPipeline.main input_file load_all_data_body run_complete_analysis_body = None
  /\ exists res e,
       FDEPipeline.run_pipeline input_file load_all_data_body
         run_complete_analysis_body FDEPipeline.no_results
       = (res, Raise e)
       /\ FDEPipeline.pipeline_result res = Some (FDEPipeline.Failed e)
       /\ FDEPipeline.analyze_result res = None
       /\ ((FDEPipeline.extract_result res = Some (FDEPipeline.Failed e)
            /\ FDEPipeline.transform_result res = None
            /\ FDEPipeline.load_result res = None)
           \/ ((exists rows,
                   FDEPipeline.extract_result res
                   = Some (FDEPipeline.ExtractSuccess rows))
               /\ FDEPipeline.transform_result res = Some (FDEPipeline.Failed e)
               /\ FDEPipeline.load_result res = None)
           \/ ((exists rows,
                   FDEPipeline.extract_result res
                   = Some (FDEPipeline.ExtractSuccess rows))
               /\ (exists c t stats,
                      FDEPipeline.transform_result res
                      = Some (FDEPipeline.TransformSuccess c t stats))
               /\ FDEPipeline.load_result res = Some (FDEPipeline.Failed e)
               /\ e = "load_all_data() takes 0 positional arguments but 1 was given"%string)).
Proof.
  unfold FDEPipeline.main, FDEPipeline.run_pipeline, FDEPipeline.and_then,
    FDEPipeline.extract, FDEPipeline.transform, FDEPipeline.load,
    FDEPipeline.analyze, FDEPipeline.phase.
  destruct input_file as [|msg|df]; simpl.
  - split; [reflexivity|]. eexists; eexists. split; [reflexivity|]. simpl.
    split; [reflexivity|]. split; [reflexivity|]. left. auto.
  - split; [reflexivity|]. eexists; eexists. split; [reflexivity|]. simpl.
    split; [reflexivity|]. split; [reflexivity|]. left. auto.
  - destruct (clean_sales_data df) as [cleaned|e1]; simpl.
    + destruct (transform_sales_data (map Csv.read_for_transform cleaned))
        as [[[t sums] stats]|e2]; simpl.
      * split; [reflexivity|]. eexists; eexists. split; [reflexivity|]. simpl.
        split; [reflexivity|]. split; [reflexivity|]. right. right.
        split; [eauto|]. split; [eauto|]. split; reflexivity.
      * split; [reflexivity|]. eexists; eexists. split; [reflexivity|]. simpl.
        split; [reflexivity|]. split; [reflexivity|]. right. left.
        split; [eauto|]. split; reflexivity.
    + split; [reflexivity|]. eexists; eexists. split; [reflexivity|]. simpl.
      split; [reflexivity|]. split; [reflexivity|]. right. left.
      split; [eauto|]. split; reflexivity.
Qed.



(* ================================================================== *)
(** * From the transformer to the dashboard *)

Lemma sql_sum_value (c : list Float.t) :
  match Sql.sum c with Some x => x | None => 0%Q end = Pandas.sum c.
Proof.
  unfold Sql.sum, Pandas.sum. destruct (Pandas.dropna c); reflexivity.
Qed.

(** X19.  The overall statistics the dashboard reads from the loaded table
    are the figures the transformer returned for the same frame:
    total_orders, total_quantity, total_revenue, avg_order_value and the
    numbers of distinct customers, products and categories are equal.  The
    dashboard has them whenever the frame has a total_amount. *)
Theorem dashboard_agrees_with_transformer (df : list CleanRow)
    (enriched : list EnrichedRow) (sums : Summaries) (stats : SummaryStats) :
  transform_sales_data df = Ok (enriched, sums, stats) ->
  (forall o,
      DataService.get_overall_stats (load_to_database enriched) = Some o ->
      DataService.total_orders o = ss_total_orders stats
      /\ DataService.total_quantity o = ss_total_quantity stats
      /\ DataService.total_revenue o = ss_total_revenue stats
      /\ Some (DataService.avg_order_value o) = ss_avg_order_value stats
      /\ DataService.unique_customers o = ss_unique_customers stats
      /\ DataService.unique_products o = ss_unique_products stats
      /\ DataService.unique_categories o = ss_unique_categories stats)
  /\ (has_value (col total_amount df) ->
      exists o, DataService.get_overall_stats (load_to_database enriched) = Some o).
Proof.
  unfold transform_sales_data, summary_stats.
  destruct (most_popular_product df) as [p|]; simpl; [|discriminate].
  destruct (most_popular_category df) as [c|]; simpl; [|discriminate].
  destruct (top_region df) as [g|]; simpl; [|discriminate].
  intros H. injection H as <- _ <-.
  unfold DataService.get_overall_stats, load_to_database, read_sales_data.
  rewrite cleaned_enrich. cbn [bind].
  unfold Sql.avg.
  split.
  - intros o.
    destruct (Sql.sum (col total_amount df)) as [q|] eqn:Eq;
      cbn [py_float bind try_except]; [|discriminate].
    destruct (Sql.sum_int (col quantity df)) as [z|] eqn:Ez;
      cbn [py_int bind try_except]; [|discriminate].
    destruct (Pandas.mean (col total_amount df)) as [a|] eqn:Ea;
      cbn [py_float bind try_except]; [|discriminate].
    intros H. injection H as <-. cbn.
    split; [reflexivity|]. split.
    { unfold Sql.sum_int in Ez. destruct (col quantity df); [discriminate|].
      injection Ez as <-. reflexivity. }
    split.
    { pose proof (sql_sum_value (col total_amount df)) as V.
      rewrite Eq in V. exact V. }
    repeat split; reflexivity.
  - intros [x Hx]. apply dropna_In in Hx.
    assert (Hdf : df <> []) by (intros ->; exact Hx).
    unfold Sql.sum, Sql.sum_int, Pandas.mean, Pandas.count_notnull.
    destruct (Pandas.dropna (col total_amount df)) as [|y t]; [contradiction|].
    cbn [py_float bind].
    destruct df as [|r0 df']; [congruence|].
    cbn [col map py_int bind List.length py_float try_except]. eauto.
Qed.

Lemma dashboard_agrees_with_transformer_witness :
  exists o,
    DataService.get_overall_stats
      (load_to_database (map enrich [cleaned_order "1" "A" 1 100 100]))
    = Some o
    /\ DataService.total_orders o = 1%nat.
Proof.
  destruct (transform_sales_data [cleaned_order "1" "A" 1 100 100])
    as [[[enriched sums] stats]|msg] eqn:Et; [|vm_compute in Et; discriminate].
  assert (Ee : enriched = map enrich [cleaned_order "1" "A" 1 100 100]).
  { unfold transform_sales_data in Et.
    destruct (summary_stats [cleaned_order "1" "A" 1 100 100]);
      simpl in Et; [|discriminate].
    injection Et as <- _ _. reflexivity. }
  assert (Es : ss_total_orders stats = 1%nat).
  { unfold transform_sales_data, summary_stats in Et. vm_compute in Et.
    injection Et as _ _ <-. reflexivity. }
  destruct (dashboard_agrees_with_transformer _ enriched sums stats Et) as [H1 H2].
  destruct H2 as [o Ho]; [eexists; left; reflexivity|].
  rewrite <- Ee. exists o. split; [exact Ho|].
  rewrite <- Es. apply (H1 o Ho).
Defined.

Lemma Forall2_map_same {A B C : Type} (R : B -> C -> Prop) (f : A -> B) (g : A -> C)
    (l : list A) :
  (forall a, In a l -> R (f a) (g a)) -> Forall2 R (map f l) (map g l).
Proof.
  induction l as [|a l IH]; simpl; intros H; constructor.
  - apply H. left. reflexivity.
  - apply IH. intros b Hb. apply H. right. exact Hb.
Qed.

(** X20.  The monthly rollup of the loaded table and the monthly summary
    of the transformer list the same months in the same order, with the
    same quantity and the same number of customers for each month; the
    revenue of the summary is that of the rollup rounded to two decimals;
    and the order counts are equal when every row has an order_id (the
    rollup counts rows, the summary order ids). *)
Theorem monthly_rollup_matches_summary (df : list CleanRow) :
  map DataService.m_month_year
      (DataService.get_monthly_data (load_to_database (map enrich df)))
  = map (fun s => (ms_year s, ms_month s)) (monthly_sales df)
  /\ map DataService.m_monthly_quantity
         (DataService.get_monthly_data (load_to_database (map enrich df)))
     = map ms_monthly_quantity (monthly_sales df)
  /\ map DataService.m_unique_customers
         (DataService.get_monthly_data (load_to_database (map enrich df)))
     = map ms_unique_customers (monthly_sales df)
  /\ Forall2 (fun m s =>
                ms_monthly_revenue s
                = round2 (match DataService.m_monthly_revenue m with
                          | Some x => x
                          | None => 0%Q
                          end))
       (DataService.get_monthly_data (load_to_database (map enrich df)))
       (monthly_sales df)
  /\ ((forall r : CleanRow, In r df -> order_id r <> None) ->
      map DataService.m_monthly_orders
          (DataService.get_monthly_data (load_to_database (map enrich df)))
      = map ms_monthly_orders (monthly_sales df)).
Proof.
  unfold DataService.get_monthly_data, load_to_database, read_sales_data.
  rewrite cleaned_enrich. cbn [bind try_except].
  unfold monthly_sales, groupby_agg. rewrite !map_map. cbn.
  split; [apply map_ext; intros [y m]; reflexivity|].
  split; [reflexivity|]. split; [reflexivity|]. split.
  - apply Forall2_map_same. intros k _. cbn.
    rewrite sql_sum_value. reflexivity.
  - intros Hid. apply map_ext_in. intros k _.
    unfold Pandas.count_notnull, col.
    assert (Hg : forall r : CleanRow,
               In r (group pair_eqb (fun r => Some (year r, month r)) df k) ->
               order_id r <> None).
    { intros r Hr. apply Hid. apply filter_In in Hr. tauto. }
    induction (group pair_eqb (fun r => Some (year r, month r)) df k)
      as [|r g IH]; simpl; [reflexivity|].
    destruct (order_id r) eqn:E.
    + simpl. f_equal. apply IH. intros r' Hr'. apply Hg. right. exact Hr'.
    + exfalso. apply (Hg r); [left; reflexivity | exact E].
Qed.

Lemma monthly_rollup_matches_summary_witness :
  map DataService.m_monthly_orders
      (DataService.get_monthly_data
         (load_to_database (map enrich [cleaned_order "1" "A" 1 100 100])))
  = map ms_monthly_orders (monthly_sales [cleaned_order "1" "A" 1 100 100]).
Proof.
  destruct (monthly_rollup_matches_summary [cleaned_order "1" "A" 1 100 100])
    as (_ & _ & _ & _ & H).
  apply H. intros r [<-|[]]. discriminate.
Defined.

Lemma sql_group_of_text (key : CleanRow -> Text.t) (df : list CleanRow) (k : string) :
  group Text.eqb (fun r => Some (key r)) df (Some k)
  = group String.eqb key df k.
Proof.
  unfold group. apply filter_ext. intros r. unfold in_group.
  destruct (key r); reflexivity.
Qed.

(** X21.  Every product of the transformer's product summary has its row in
    the product rollup of the dashboard, with the same quantity; the
    revenue of the summary is the revenue of the rollup rounded to two
    decimals, and the order count of the rollup is the number of rows of
    the product. *)
Theorem product_rollup_matches_summary (df : list CleanRow) (s : ProductSummary) :
  In s (product_summary df) ->
  exists p,
    In p (DataService.products_by_revenue df)
    /\ DataService.p_product_name p = Some (ps_product_name s)
    /\ DataService.p_total_quantity p = ps_total_quantity_sold s
    /\ ps_total_revenue s
       = round2 (match DataService.p_total_revenue p with
                 | Some x => x
                 | None => 0%Q
                 end)
    /\ DataService.p_order_count p
       = List.length (filter (fun r : CleanRow =>
                                Text.eqb (product_name r) (Some (ps_product_name s)))
                             df).
Proof.
  intros Hs. unfold product_summary in Hs.
  apply groupby_agg_In in Hs. destruct Hs as [k [Hk ->]].
  exists (DataService.mkProductRow (Some k)
            (Sql.sum (col total_amount (group String.eqb (fun r => product_name r) df k)))
            (Pandas.sum_int (col quantity (group String.eqb (fun r => product_name r) df k)))
            (List.length (group String.eqb (fun r => product_name r) df k))
            (Sql.avg (col unit_price (group String.eqb (fun r => product_name r) df k)))).
  split; [|split; [reflexivity|split; [reflexivity|split]]].
  - unfold DataService.products_by_revenue, Sql.order_by, Sql.group_by.
    apply sort_In. apply groupby_agg_In. exists (Some k). split.
    + apply (group_keys_In Text.eqb Sql.key_leb (fun r => Some (product_name r)) df
               (Some k) text_eqb_eq).
      apply group_keys_text_In in Hk. destruct Hk as [r [Hr E]].
      exists r. split; [exact Hr | rewrite E; reflexivity].
    + rewrite (sql_group_of_text (fun r => product_name r)). reflexivity.
  - cbn. rewrite sql_sum_value. reflexivity.
  - cbn. rewrite group_text. reflexivity.
Qed.

Lemma product_rollup_matches_summary_witness :
  Forall (fun s =>
            exists p,
              In p (DataService.products_by_revenue
                      [cleaned_order "1" "A" 1 100 100;
                       cleaned_order "2" "B" 2 100 200])
              /\ DataService.p_total_quantity p = ps_total_quantity_sold s)
         (product_summary [cleaned_order "1" "A" 1 100 100;
                           cleaned_order "2" "B" 2 100 200]).
Proof.
  apply Forall_forall. intros s Hs.
  destruct (product_rollup_matches_summary _ s Hs) as (p & Hp & _ & Hq & _).
  exists p. split; assumption.
Defined.
